(** * Claro invoice backend: DIAN invoice parsing, fiscal rules and
      purchase-order reconciliation

    A shallow embedding of the hard logic of the backend:
    - [main.py]: [_parse_colombian_number] and [_compare_values]
      (reconciliation comparator), [_run_oc_comparison], the rule
      endpoints [get_rules], [add_custom_rule] and [delete_custom_rule],
      [validate_invoice], [submit_invoice] and the invoice data that
      [chat] gathers;
    - [rules_engine.py]: the five static rules, dynamic rules,
      [RulesEngine.validate] and [RulesEngine.get_all_rules];
    - [xml_parser.py]: [_parse_tax], [parse_dian_xml] and their helpers,
      and [xml_to_dict];
    - [models.py]: the records these read and build, and
      [XML_TO_OC_FIELD_MAPPING].

    Conventions.
    - A Python [str] is a [string] whose characters are code points
      below 256 (the Latin-1 range of Unicode).
    - A Python [float] is an IEEE 754 binary64 value, [spec_float] with
      precision 53 and maximal exponent 1024, rounded to nearest even.
    - A Python exception is the [Raise] alternative of [result].
    - What the code takes from the Python library beyond strings and
      floats ([repr] of a float, the XML parser, the regular-expression
      searches, [date.fromisoformat]) is a parameter, in the classes
      [PyRepr] and [XmlLib]; a reading of the clock is an argument
      ([today], [now]).
    - The caches of [main.py] are finite maps handed to the endpoints
      and, where an endpoint changes one, returned by it; what an
      endpoint takes from the blob storage or from the OCR service is
      an argument. *)

From Stdlib Require Import ZArith String Ascii List Bool SpecFloat.
From Stdlib Require Import Decimal DecimalString.
From stdpp Require Import gmap strings list.

Open Scope string_scope.

(** ** Exceptions *)

Inductive pyexc : Type :=
  | ValueError
  | TypeError
  | ZeroDivisionError
  | ParseError.

Inductive result (A : Type) : Type :=
  | Ok (a : A)
  | Raise (e : pyexc).

Arguments Ok {A} a.
Arguments Raise {A} e.

Definition rbind {A B : Type} (r : result A) (k : A -> result B) : result B :=
  match r with
  | Ok a => k a
  | Raise e => Raise e
  end.

Notation "'do' x <- r ; k" := (rbind r (fun x => k))
  (at level 10, x name, r at level 100, k at level 200).

(** [try: r except (ValueError, TypeError): h] *)
Definition except_value_type {A : Type} (r : result A) (h : result A) : result A :=
  match r with
  | Raise ValueError | Raise TypeError => h
  | _ => r
  end.

Fixpoint rmap {A B : Type} (f : A -> result B) (l : list A) : result (list B) :=
  match l with
  | [] => Ok []
  | a :: l' => do b <- f a; do bs <- rmap f l'; Ok (b :: bs)
  end.

(** ** Python [str] operations *)

Module PyStr.

Definition code (c : ascii) : N := N_of_ascii c.

(** [str.isspace] on one character: the white-space code points
    below 256. *)
Definition isspace (c : ascii) : bool :=
  let n := code c in
  ((9 <=? n) && (n <=? 13) || (28 <=? n) && (n <=? 32)
   || (n =? 133) || (n =? 160))%N.

Fixpoint lstrip (s : string) : string :=
  match s with
  | EmptyString => EmptyString
  | String c r => if isspace c then lstrip r else s
  end.

Fixpoint rstrip (s : string) : string :=
  match s with
  | EmptyString => EmptyString
  | String c r =>
      match rstrip r with
      | EmptyString => if isspace c then EmptyString else String c EmptyString
      | r' => String c r'
      end
  end.

(** [s.strip()] *)
Definition strip (s : string) : string := rstrip (lstrip s).

Definition lower_char (c : ascii) : ascii :=
  let n := code c in
  if ((65 <=? n) && (n <=? 90)
      || (192 <=? n) && (n <=? 222) && negb (n =? 215))%N
  then ascii_of_N (n + 32) else c.

(** [s.lower()] *)
Fixpoint lower (s : string) : string :=
  match s with
  | EmptyString => EmptyString
  | String c r => String (lower_char c) (lower r)
  end.

(** [s.replace(old, new)] for a non-empty [old]: occurrences are
    taken left to right and do not overlap; [skip] counts the
    characters of an occurrence still to be dropped. *)
Fixpoint replace_from (skip : nat) (old new s : string) : string :=
  match s with
  | EmptyString => EmptyString
  | String c r =>
      match skip with
      | S k => replace_from k old new r
      | O =>
          if String.prefix old s
          then new ++ replace_from (String.length old - 1) old new r
          else String c (replace_from 0 old new r)
      end
  end.

Definition replace (old new s : string) : string := replace_from 0 old new s.

(** [s.count(sub)] for a non-empty [sub]. *)
Fixpoint count_from (skip : nat) (sub s : string) : nat :=
  match s with
  | EmptyString => 0
  | String c r =>
      match skip with
      | S k => count_from k sub r
      | O =>
          if String.prefix sub s
          then S (count_from (String.length sub - 1) sub r)
          else count_from 0 sub r
      end
  end.

Definition count (sub s : string) : nat := count_from 0 sub s.

(** [sub in s] *)
Fixpoint contains (sub s : string) : bool :=
  String.prefix sub s
  || match s with
     | EmptyString => false
     | String _ r => contains sub r
     end.

(** [s.split(sep)] for a non-empty [sep]; the head of the result is
    the piece being read. *)
Fixpoint split_from (skip : nat) (sep s : string) : list string :=
  match s with
  | EmptyString => [EmptyString]
  | String c r =>
      match skip with
      | S k => split_from k sep r
      | O =>
          if String.prefix sep s
          then EmptyString :: split_from (String.length sep - 1) sep r
          else match split_from 0 sep r with
               | h :: t => String c h :: t
               | [] => [String c EmptyString]
               end
      end
  end.

Definition split (sep s : string) : list string := split_from 0 sep s.

(** [s.split()]: the maximal runs of characters that are not white
    space; [cur] is the run being read. *)
Fixpoint words_from (cur : option string) (s : string) : list string :=
  match s with
  | EmptyString => match cur with Some w => [w] | None => [] end
  | String c r =>
      if isspace c
      then match cur with
           | Some w => w :: words_from None r
           | None => words_from None r
           end
      else words_from (Some (default EmptyString cur ++ String c EmptyString)) r
  end.

Definition words (s : string) : list string := words_from None s.

(** [s[:n]] *)
Fixpoint take (n : nat) (s : string) : string :=
  match n, s with
  | S k, String c r => String c (take k r)
  | _, _ => EmptyString
  end.

(** Truth value of a string: [bool(s)]. *)
Definition truthy (s : string) : bool :=
  match s with EmptyString => false | _ => true end.

(** [a or b] on strings. *)
Definition or_else (a b : string) : string := if truthy a then a else b.

(** [s.isdigit()] for code points below 256: the decimal digits and
    the superscripts 1, 2, 3. *)
Definition isdigit_char (c : ascii) : bool :=
  let n := code c in
  ((48 <=? n) && (n <=? 57) || (n =? 178) || (n =? 179) || (n =? 185))%N.

Fixpoint all_chars (p : ascii -> bool) (s : string) : bool :=
  match s with
  | EmptyString => true
  | String c r => p c && all_chars p r
  end.

Definition isdigit (s : string) : bool := truthy s && all_chars isdigit_char s.

End PyStr.

(** ** Python [float] *)

Module PyFloat.

Definition float : Type := spec_float.

Definition prec : Z := 53.
Definition emax : Z := 1024.

Definition fadd : float -> float -> float := SFadd prec emax.
Definition fsub : float -> float -> float := SFsub prec emax.
Definition fmul : float -> float -> float := SFmul prec emax.
Definition fdiv : float -> float -> float := SFdiv prec emax.
Definition fabs : float -> float := SFabs.
Definition feqb : float -> float -> bool := SFeqb.
Definition fltb : float -> float -> bool := SFltb.
Definition fleb : float -> float -> bool := SFleb.
Definition fneb (x y : float) : bool := negb (feqb x y).

(** The binary64 value nearest to [(-1)^neg * m * 10^e10]: what a
    decimal literal or a decimal string denotes. *)
Definition of_decimal (neg : bool) (m : N) (e10 : Z) : float :=
  match m with
  | N0 => S754_zero neg
  | Npos p =>
      if (0 <=? e10)%Z
      then binary_round prec emax neg (Z.to_pos (Zpos p * 10 ^ e10)) 0
      else SFdiv prec emax (S754_finite neg p 0)
             (S754_finite false (Z.to_pos (10 ^ (- e10))) 0)
  end.

Definition zero : float := S754_zero false.

(** [x / y] *)
Definition truediv (x y : float) : result float :=
  if feqb y zero then Raise ZeroDivisionError else Ok (fdiv x y).

(** [sum(xs)] over floats: left to right from [0], each addition
    rounded (CPython up to 3.11; from 3.12 on the interpreter also
    adds the rounding errors back at the end). *)
Definition fsum (xs : list float) : float := fold_left fadd xs zero.

(** *** [float(s)] for a string *)

Definition is_digit (c : ascii) : bool :=
  let n := PyStr.code c in ((48 <=? n) && (n <=? 57))%N.

Definition digit_val (c : ascii) : N := (PyStr.code c - 48)%N.

Definition digits_to_N (ds : list ascii) : N :=
  fold_left (fun acc c => (acc * 10 + digit_val c)%N) ds 0%N.

Fixpoint span_digits (l : list ascii) : list ascii * list ascii :=
  match l with
  | c :: r =>
      if is_digit c
      then let '(ds, rest) := span_digits r in (c :: ds, rest)
      else ([], l)
  | [] => ([], [])
  end.

Definition is_underscore (c : ascii) : bool := (PyStr.code c =? 95)%N.

(** An underscore must stand between two digits. *)
Fixpoint underscores_ok (prev : option ascii) (l : list ascii) : bool :=
  match l with
  | [] => negb (from_option is_underscore false prev)
  | c :: r =>
      (if is_underscore c
       then from_option is_digit false prev
       else negb (from_option is_underscore false prev) || is_digit c)
      && underscores_ok (Some c) r
  end.

(** A string with a character above ASCII has its white space turned
    into blanks and every other character from 127 on into a
    character no number contains. *)
Definition to_ascii_space (l : list ascii) : list ascii :=
  if forallb (fun c => (PyStr.code c <? 128)%N) l then l
  else map (fun c =>
              if (PyStr.code c <? 127)%N then c
              else if PyStr.isspace c then " "%char else "?"%char) l.

Definition is_c_space (c : ascii) : bool :=
  let n := PyStr.code c in ((9 <=? n) && (n <=? 13) || (n =? 32))%N.

Fixpoint drop_c_space (l : list ascii) : list ascii :=
  match l with
  | c :: r => if is_c_space c then drop_c_space r else l
  | [] => []
  end.

Definition strip_c_space (l : list ascii) : list ascii :=
  rev (drop_c_space (rev (drop_c_space l))).

Definition parse_sign (l : list ascii) : bool * list ascii :=
  match l with
  | "-"%char :: r => (true, r)
  | "+"%char :: r => (false, r)
  | _ => (false, l)
  end.

Definition is_e (c : ascii) : bool :=
  let n := PyStr.code c in ((n =? 101) || (n =? 69))%N.

(** [digits [. digits] [(e|E) [sign] digits]] with at least one digit
    before the exponent, up to the end of the text. *)
Definition parse_number (l : list ascii) : option (N * Z) :=
  let '(ip, r1) := span_digits l in
  let '(fp, r2) :=
    match r1 with
    | "."%char :: r => span_digits r
    | _ => ([], r1)
    end in
  match (ip ++ fp)%list with
  | [] => None
  | ds =>
      let m := digits_to_N ds in
      let scale := Z.of_nat (length fp) in
      match r2 with
      | [] => Some (m, (- scale)%Z)
      | c :: r3 =>
          if is_e c then
            let '(eneg, r4) := parse_sign r3 in
            let '(ed, r5) := span_digits r4 in
            match ed, r5 with
            | _ :: _, [] =>
                let e := Z.of_N (digits_to_N ed) in
                Some (m, ((if eneg then - e else e) - scale)%Z)
            | _, _ => None
            end
          else None
      end
  end.

Definition ascii_lower (c : ascii) : ascii :=
  let n := PyStr.code c in
  if ((65 <=? n) && (n <=? 90))%N then ascii_of_N (n + 32) else c.

Definition parse_inf_nan (l : list ascii) : option float :=
  let '(neg, r) := parse_sign l in
  let t := string_of_list_ascii (map ascii_lower r) in
  if (t =? "inf") || (t =? "infinity") then Some (S754_infinity neg)
  else if t =? "nan" then Some S754_nan
  else None.

Definition parse_literal (l : list ascii) : option float :=
  let '(neg, r) := parse_sign l in
  match parse_number r with
  | Some (m, e10) => Some (of_decimal neg m e10)
  | None => parse_inf_nan l
  end.

(** [float(s)]; [None] is [ValueError]. *)
Definition of_string (s : string) : option float :=
  let l := to_ascii_space (list_ascii_of_string s) in
  if underscores_ok None l
  then parse_literal
         (strip_c_space (List.filter (fun c => negb (is_underscore c)) l))
  else None.

Definition float_of_str (s : string) : result float :=
  match of_string s with
  | Some x => Ok x
  | None => Raise ValueError
  end.

End PyFloat.

Import PyFloat.

(** * [main.py]: reconciliation comparator *)

Module Comparator.

(** The text handed to [float] by [_parse_colombian_number]. *)
Definition colombian_text (value : string) : string :=
  let s := PyStr.strip value in
  let s := PyStr.strip (PyStr.replace " " ""
             (PyStr.replace "COP" "" (PyStr.replace "$" "" s))) in
  let has_dot := PyStr.contains "." s in
  let has_comma := PyStr.contains "," s in
  if has_dot && has_comma then
    PyStr.replace "," "." (PyStr.replace "." "" s)
  else if has_dot then
    let dot_count := PyStr.count "." s in
    if (1 <? dot_count)%nat then PyStr.replace "." "" s
    else
      let parts := PyStr.split "." s in
      if ((length parts =? 2)
          && (String.length (nth 1 parts "") =? 3)
          && (6 <? String.length s))%nat
      then PyStr.replace "." "" s
      else s
  else if has_comma then PyStr.replace "," "." s
  else s.

(** [_parse_colombian_number(value)], [value] given as [str(value)]. *)
Definition _parse_colombian_number (value : string) : result float :=
  float_of_str (colombian_text value).

(** The third component of the result of [_compare_values]: the note
    with the values it interpolates. *)
Inductive note : Type :=
  | BothEmpty                            (* "Ambos valores ... vacios" *)
  | NotInXml                             (* "Valor no encontrado en XML" *)
  | NotInOc                              (* "Valor no extraido de la OC" *)
  | PartialMatch                         (* "Coincidencia parcial" *)
  | PartialWords                         (* "Coincidencia parcial de palabras" *)
  | Values (xml_val oc_val : string)     (* "XML: {xml_val}, OC: {oc_val}" *)
  | DiffPct (diff_pct : float)           (* "Diferencia: {diff_pct*100:.1f}%" *)
  | Amounts (xml_num oc_num : float)     (* "XML: ${xml_num:,.0f}, OC: ${oc_num:,.0f}" *)
  | NotNumeric                           (* "No se pudo comparar numericamente" *)
  | UnknownType.                         (* "Tipo de comparacion desconocido" *)

Definition comparison : Type := (bool * string * option note)%type.

Definition word_set (s : string) : gset string := list_to_set (PyStr.words s).

(** [_compare_values(xml_val, oc_val, compare_type, tolerance)].  A
    value is [None] or the text [str] gives for it: the function
    reads its arguments in no other way. *)
Definition _compare_values (xml_val oc_val : option string)
    (compare_type : string) (tolerance : float) : result comparison :=
  match xml_val, oc_val with
  | None, None => Ok (true, "both_missing", Some BothEmpty)
  | None, Some _ => Ok (false, "missing_xml", Some NotInXml)
  | Some _, None => Ok (false, "missing_oc", Some NotInOc)
  | Some xml_val, Some oc_val =>
      let xml_str := PyStr.lower (PyStr.strip xml_val) in
      let oc_str := PyStr.lower (PyStr.strip oc_val) in
      if compare_type =? "exact" then
        if xml_str =? oc_str then Ok (true, "exact", None)
        else if PyStr.contains xml_str oc_str || PyStr.contains oc_str xml_str
        then Ok (true, "partial", Some PartialMatch)
        else Ok (false, "mismatch", Some (Values xml_val oc_val))
      else if compare_type =? "contains" then
        if PyStr.contains xml_str oc_str || PyStr.contains oc_str xml_str
        then Ok (true, "exact", None)
        else
          let xml_words := word_set xml_str in
          let oc_words := word_set oc_str in
          let overlap := xml_words ∩ oc_words in
          (* len(overlap) >= min(len(xml_words), len(oc_words)) * 0.5 *)
          if (size xml_words `min` size oc_words <=? 2 * size overlap)%nat
          then Ok (true, "partial", Some PartialWords)
          else Ok (false, "mismatch", Some (Values xml_val oc_val))
      else if compare_type =? "numeric" then
        except_value_type
          (do xml_num <- _parse_colombian_number xml_val;
           do oc_num <- _parse_colombian_number oc_val;
           if feqb xml_num oc_num then Ok (true, "exact", None)
           else
             do close <-
               (if fneb xml_num zero then
                  do diff_pct <- truediv (fabs (fsub xml_num oc_num)) (fabs xml_num);
                  Ok (if fleb diff_pct tolerance then Some diff_pct else None)
                else Ok None);
             match close with
             | Some diff_pct => Ok (true, "numeric_close", Some (DiffPct diff_pct))
             | None => Ok (false, "mismatch", Some (Amounts xml_num oc_num))
             end)
          (if xml_str =? oc_str then Ok (true, "exact", None)
           else Ok (false, "mismatch", Some NotNumeric))
      else Ok (false, "unknown", Some UnknownType)
  end.

End Comparator.


(** * [models.py]: data model *)

(** [datetime.date] *)
Record date : Type := { year : Z; month : Z; day : Z }.

Record TaxDetail : Type := {
  tax_scheme_id : string;
  tax_name : string;
  taxable_amount : float;
  tax_percentage : float;
  tax_amount : float;
}.

(** The field [tax_scheme_id] of [PartyInfo] is [party_tax_scheme_id]
    here. *)
Record PartyInfo : Type := {
  company_id : string;
  registration_name : string;
  tax_level_code : option string;
  party_tax_scheme_id : option string;
  address_line : option string;
  city_name : option string;
  department : option string;
  country_code : option string;
  email : option string;
  phone : option string;
  supplier_assigned_account_id : option string;
}.

(** The fields [description], [line_extension_amount] and [tax_amount]
    of [InvoiceLine] carry the prefix [line_] here. *)
Record InvoiceLine : Type := {
  line_id : string;
  line_description : string;
  quantity : float;
  unit_code : string;
  unit_price : float;
  line_line_extension_amount : float;
  product_code : option string;
  line_tax_amount : option float;
}.

Record OrderReference : Type := {
  order_id : string;
  sales_order_id : option string;
}.

Record AttachmentReference : Type := {
  reference_id : string;
  reference_type : string;
  description : option string;
  found_in_zip : bool;
  matched_filename : option string;
}.

Record PaymentMeans : Type := {
  payment_means_id : string;
  payment_means_code : string;
  payment_due_date : option date;
}.

Record InvoiceAuthorization : Type := {
  authorization_number : option string;
  authorization_date : option date;
  authorization_end_date : option date;
  prefix : option string;
  range_from : option string;
  range_to : option string;
}.

(** The field [description] of [InvoicePeriod] is [period_description]
    here. *)
Record InvoicePeriod : Type := {
  start_date : option date;
  end_date : option date;
  period_description : option string;
}.

Record MonetaryTotal : Type := {
  line_extension_amount : float;
  tax_exclusive_amount : float;
  tax_inclusive_amount : float;
  allowance_total_amount : float;
  charge_total_amount : float;
  payable_amount : float;
}.

Record XMLInvoiceData : Type := {
  invoice_number : string;
  cufe : string;
  issue_date : date;
  issue_time : option string;
  due_date : option date;
  currency_code : string;
  invoice_type_code : string;
  notes : list string;
  supplier : PartyInfo;
  customer : PartyInfo;
  payment_means : list PaymentMeans;
  invoice_period : option InvoicePeriod;
  authorization : option InvoiceAuthorization;
  taxes : list TaxDetail;
  withholding_taxes : list TaxDetail;
  monetary_total : MonetaryTotal;
  total_discount : float;
  total_charges : float;
  prepaid_amount : float;
  lines : list InvoiceLine;
  line_count : Z;
  order_reference : option OrderReference;
  qr_code : option string;
  total_iva : float;
  total_retenciones : float;
  attachment_references : list AttachmentReference;
  raw_xml_path : option string;
}.

Inductive RuleType : Type := BLOCKING | WARNING.

Inductive RuleStatus : Type := PASSED | FAILED | SKIPPED.

(** A value of type [Any] in a rule condition or in the flattened
    field map.  [VObj] stands for any other object (a list, a dict),
    given by the text [str] yields for it. *)
Inductive pyval : Type :=
  | VNone
  | VBool (b : bool)
  | VInt (z : Z)
  | VFloat (f : float)
  | VStr (s : string)
  | VObj (rendering : string).

Record RuleCondition : Type := {
  campo : string;
  operador : string;
  valor : pyval;
}.

(** [ValidationRule]; its field [id] is [rule_ident] here, and
    [condicion_condicional], which the engine never reads, is left
    out. *)
Record ValidationRule : Type := {
  rule_ident : string;
  nombre : string;
  descripcion : string;
  tipo : RuleType;
  fuentes : list string;
  condicion : option RuleCondition;
  is_custom : bool;
}.

(** A value stored in the [details] of a rule result. *)
Inductive detail : Type :=
  | DStr (s : string)
  | DFloat (f : float)
  | DStrList (l : list string)
  | DVal (v : pyval).

(** [RuleResult], without its [message], a text for display that is
    built from the same values as [details]. *)
Record RuleResult : Type := {
  rule_id : string;
  rule_name : string;
  status : RuleStatus;
  details : option (list (string * detail));
}.

(** [ValidationResult]; [timestamp] is the clock reading handed to
    [validate]. *)
Record ValidationResult : Type := {
  invoice_id : string;
  timestamp : Z;
  results : list RuleResult;
  blocking_failures : nat;
  warnings : nat;
  passed : nat;
  can_submit : bool;
}.

#[global] Instance RuleType_eq_dec : EqDecision RuleType.
Proof. solve_decision. Defined.

#[global] Instance RuleStatus_eq_dec : EqDecision RuleStatus.
Proof. solve_decision. Defined.

(** * [rules_engine.py] *)

(** [repr] of a float, as [str] prints it. *)
Class PyRepr : Type := float_repr : float -> string.

Module Rules.

Definition static_rule (i n d : string) (t : RuleType) : ValidationRule :=
  {| rule_ident := i; nombre := n; descripcion := d; tipo := t;
     fuentes := ["xml"]; condicion := None; is_custom := false |}.

Definition STATIC_RULES : list ValidationRule :=
  [ static_rule "R001" ("NIT Proveedor V" ++ String "225" "lido")
      "NIT del emisor debe existir en maestro de proveedores" BLOCKING;
    static_rule "R002" "CUFE Presente"
      ("La factura debe tener CUFE v" ++ String "225" "lido de la DIAN") BLOCKING;
    static_rule "R003" "Totales Consistentes"
      "Subtotal + IVA - Retenciones debe ser igual al Total a Pagar" WARNING;
    static_rule "R004" "IVA Correcto"
      "El porcentaje de IVA debe ser 19%" WARNING;
    static_rule "R005" "Referencia Orden de Compra"
      "La factura debe tener referencia a una Orden de Compra" WARNING ].

Definition VALID_NITS : list string :=
  [ "830099847"; "900123456"; "800999888"; "860001022"; "900555444" ].

(** [self.static_rules[i]]; the index is a literal below five. *)
Definition static_rules_at (i : nat) : ValidationRule :=
  nth i STATIC_RULES (static_rule "" "" "" WARNING).

Definition skipped (rule : ValidationRule) : RuleResult :=
  {| rule_id := rule_ident rule; rule_name := nombre rule;
     status := SKIPPED; details := None |}.

Definition string_in (s : string) (l : list string) : bool :=
  existsb (String.eqb s) l.

Definition _evaluate_r001 (xml_data : option XMLInvoiceData) : RuleResult :=
  let rule := static_rules_at 0 in
  match xml_data with
  | None => skipped rule
  | Some xml_data =>
      let nit := company_id (supplier xml_data) in
      if string_in nit VALID_NITS then
        {| rule_id := rule_ident rule; rule_name := nombre rule;
           status := PASSED;
           details := Some [("nit", DStr nit);
                            ("nombre", DStr (registration_name (supplier xml_data)))] |}
      else
        {| rule_id := rule_ident rule; rule_name := nombre rule;
           status := FAILED;
           details := Some [("nit", DStr nit); ("valid_nits", DStrList VALID_NITS)] |}
  end.

Definition _evaluate_r002 (xml_data : option XMLInvoiceData) : RuleResult :=
  let rule := static_rules_at 1 in
  match xml_data with
  | None => skipped rule
  | Some xml_data =>
      let cufe := cufe xml_data in
      if PyStr.truthy cufe && (10 <? String.length cufe)%nat then
        {| rule_id := rule_ident rule; rule_name := nombre rule;
           status := PASSED; details := Some [("cufe", DStr cufe)] |}
      else
        {| rule_id := rule_ident rule; rule_name := nombre rule;
           status := FAILED; details := None |}
  end.

(** The literal [0.01]. *)
Definition one_percent : float := of_decimal false 1 (-2).

Definition is_iva (t : TaxDetail) : bool := tax_scheme_id t =? "01".

Definition _evaluate_r003 (xml_data : option XMLInvoiceData) : RuleResult :=
  let rule := static_rules_at 2 in
  match xml_data with
  | None => skipped rule
  | Some xml_data =>
      let subtotal := line_extension_amount (monetary_total xml_data) in
      let total_payable := payable_amount (monetary_total xml_data) in
      let total_iva := fsum (map tax_amount (List.filter is_iva (taxes xml_data))) in
      let total_retenciones := fsum (map tax_amount (withholding_taxes xml_data)) in
      let calculated_total := fsub (fadd subtotal total_iva) total_retenciones in
      let tolerance := fmul total_payable one_percent in
      if fleb (fabs (fsub calculated_total total_payable)) tolerance then
        {| rule_id := rule_ident rule; rule_name := nombre rule;
           status := PASSED;
           details := Some [("subtotal", DFloat subtotal);
                            ("iva", DFloat total_iva);
                            ("retenciones", DFloat total_retenciones);
                            ("total_calculado", DFloat calculated_total);
                            ("total_factura", DFloat total_payable)] |}
      else
        {| rule_id := rule_ident rule; rule_name := nombre rule;
           status := FAILED;
           details := Some [("subtotal", DFloat subtotal);
                            ("iva", DFloat total_iva);
                            ("retenciones", DFloat total_retenciones);
                            ("total_calculado", DFloat calculated_total);
                            ("total_factura", DFloat total_payable);
                            ("diferencia",
                             DFloat (fabs (fsub calculated_total total_payable)))] |}
  end.

(** The literal [19.0]. *)
Definition nineteen : float := of_decimal false 190 (-1).

Definition _evaluate_r004 (xml_data : option XMLInvoiceData) : RuleResult :=
  let rule := static_rules_at 3 in
  match xml_data with
  | None => skipped rule
  | Some xml_data =>
      match taxes xml_data with
      | [] => skipped rule
      | _ =>
          (* next((t for t in xml_data.taxes if t.tax_scheme_id == "01"), None) *)
          match List.find is_iva (taxes xml_data) with
          | None => skipped rule
          | Some iva_tax =>
              if feqb (tax_percentage iva_tax) nineteen then
                {| rule_id := rule_ident rule; rule_name := nombre rule;
                   status := PASSED;
                   details := Some [("iva_percent", DFloat (tax_percentage iva_tax));
                                    ("iva_amount", DFloat (tax_amount iva_tax))] |}
              else
                {| rule_id := rule_ident rule; rule_name := nombre rule;
                   status := FAILED;
                   details := Some [("iva_percent", DFloat (tax_percentage iva_tax));
                                    ("expected", DFloat nineteen)] |}
          end
      end
  end.

Definition _evaluate_r005 (xml_data : option XMLInvoiceData) : RuleResult :=
  let rule := static_rules_at 4 in
  match xml_data with
  | None => skipped rule
  | Some xml_data =>
      match order_reference xml_data with
      | Some ref =>
          if PyStr.truthy (order_id ref) then
            {| rule_id := rule_ident rule; rule_name := nombre rule;
               status := PASSED;
               details := Some [("orden_compra", DStr (order_id ref))] |}
          else
            {| rule_id := rule_ident rule; rule_name := nombre rule;
               status := FAILED; details := None |}
      | None =>
          {| rule_id := rule_ident rule; rule_name := nombre rule;
             status := FAILED; details := None |}
      end
  end.

(** *** Dynamic rules *)

(** [str(v)] *)
Definition py_str `{PyRepr} (v : pyval) : string :=
  match v with
  | VNone => "None"
  | VBool true => "True"
  | VBool false => "False"
  | VInt z => NilZero.string_of_int (Z.to_int z)
  | VFloat f => float_repr f
  | VStr s => s
  | VObj rendering => rendering
  end.

(** A value of type [int] or [float]. *)
Inductive pynum : Type :=
  | NInt (z : Z)
  | NFloat (f : float).

(** [float(v) if not isinstance(v, (int, float)) else v]; a [bool]
    is an [int]. *)
Definition to_number (v : pyval) : result pynum :=
  match v with
  | VBool b => Ok (NInt (if b then 1 else 0))
  | VInt z => Ok (NInt z)
  | VFloat f => Ok (NFloat f)
  | VStr s => do f <- float_of_str s; Ok (NFloat f)
  | VNone | VObj _ => Raise TypeError
  end.

(** Comparison of an [int] with a [float] is exact. *)
Definition compare_Z_float (z : Z) (f : float) : option comparison :=
  match f with
  | S754_nan => None
  | S754_infinity s => Some (if s then Gt else Lt)
  | S754_zero _ => Some (z ?= 0)%Z
  | S754_finite s m e =>
      let v := if s then Zneg m else Zpos m in
      Some (if (0 <=? e)%Z then (z ?= v * 2 ^ e)%Z
            else (z * 2 ^ (- e) ?= v)%Z)
  end.

Definition num_compare (a b : pynum) : option comparison :=
  match a, b with
  | NInt x, NInt y => Some (x ?= y)%Z
  | NInt x, NFloat g => compare_Z_float x g
  | NFloat f, NInt y => CompOpp <$> compare_Z_float y f
  | NFloat f, NFloat g => SFcompare f g
  end.

Definition is_cmp (c : option comparison) (allowed : list comparison) : bool :=
  match c with
  | Some x => bool_decide (x ∈ allowed)
  | None => false
  end.

(** The chain [if operator == ">" ... elif operator == "!=" ...] over
    two numbers; [None] when no branch returns. *)
Definition compare_numbers (operator : string) (num1 num2 : pynum) : option bool :=
  let c := num_compare num1 num2 in
  if operator =? ">" then Some (is_cmp c [Gt])
  else if operator =? "<" then Some (is_cmp c [Lt])
  else if operator =? ">=" then Some (is_cmp c [Gt; Eq])
  else if operator =? "<=" then Some (is_cmp c [Lt; Eq])
  else if operator =? "==" then Some (is_cmp c [Eq])
  else if operator =? "!=" then Some (negb (is_cmp c [Eq]))
  else None.

Definition is_none (v : pyval) : bool :=
  match v with VNone => true | _ => false end.

(** A [float] that a Python program holds is a binary64 value; the
    other values of [spec_float] stand for no float. *)
Definition binary64 (v : pyval) : bool :=
  match v with
  | VFloat f => valid_binary prec emax f
  | _ => true
  end.

Definition relational : list string := [">"; "<"; ">="; "<="; "=="; "!="].

(** The body of the outer [try] of [_compare_values]. *)
Definition _compare_values_try `{PyRepr}
    (value1 : pyval) (operator : string) (value2 : pyval) : result bool :=
  if is_none value1 then Ok ((operator =? "!=") && negb (is_none value2))
  else if operator =? "exists" then
    Ok (negb (is_none value1) && negb (PyStr.strip (py_str value1) =? ""))
  else if operator =? "contains" then
    Ok (PyStr.contains (PyStr.lower (py_str value2)) (PyStr.lower (py_str value1)))
  else if string_in operator relational then
    do returned <-
      except_value_type
        (do num1 <- to_number value1;
         do num2 <- to_number value2;
         Ok (compare_numbers operator num1 num2))
        (if operator =? "==" then Ok (Some (py_str value1 =? py_str value2))
         else if operator =? "!=" then Ok (Some (negb (py_str value1 =? py_str value2)))
         else Ok None);
    Ok (default false returned)
  else Ok false.

(** [_compare_values]: [except Exception] turns any error into
    [False]. *)
Definition _compare_values `{PyRepr}
    (value1 : pyval) (operator : string) (value2 : pyval) : bool :=
  match _compare_values_try value1 operator value2 with
  | Ok b => b
  | Raise _ => false
  end.

Definition _evaluate_custom_rule `{PyRepr}
    (rule : ValidationRule) (data : gmap string pyval) : RuleResult :=
  match condicion rule with
  | None => skipped rule
  | Some cond =>
      match data !! campo cond with
      | None | Some VNone => skipped rule
      | Some field_value =>
          if _compare_values field_value (operador cond) (valor cond) then
            {| rule_id := rule_ident rule; rule_name := nombre rule;
               status := PASSED; details := None |}
          else
            {| rule_id := rule_ident rule; rule_name := nombre rule;
               status := FAILED;
               details := Some [("field", DStr (campo cond));
                                ("actual_value", DVal field_value);
                                ("expected",
                                 DStr (operador cond ++ " " ++ py_str (valor cond)))] |}
      end
  end.

(** *** [validate] *)

(** [enumerate(l)], counting from [k]. *)
Fixpoint enumerate_from {A : Type} (k : nat) (l : list A) : list (nat * A) :=
  match l with
  | [] => []
  | x :: l' => (k, x) :: enumerate_from (S k) l'
  end.

Definition enumerate {A : Type} (l : list A) : list (nat * A) := enumerate_from 0 l.

Definition tipo_is (ty : RuleType) (rule : option ValidationRule) : bool :=
  match rule with
  | Some r => bool_decide (tipo r = ty)
  | None => false
  end.

(** The condition of the two counting loops on entry [i] of
    [enumerate(results)]; every index read is in range, since
    [results] holds one entry per rule. *)
Definition counted (ty : RuleType) (custom_rules : list ValidationRule)
    (ir : nat * RuleResult) : bool :=
  let '(i, r) := ir in
  bool_decide (status r = FAILED)
  && (((i <? length STATIC_RULES)%nat && tipo_is ty (STATIC_RULES !! i))
      || ((length STATIC_RULES <=? i)%nat
          && tipo_is ty (custom_rules !! (i - length STATIC_RULES)%nat))).

(** [validate]; [now] is [datetime.now()], and the argument
    [documents], which the method never reads, is left out. *)
Definition validate `{PyRepr} (now : Z) (invoice_id : string)
    (xml_data : option XMLInvoiceData)
    (custom_rules : option (list ValidationRule))
    (flat_data : option (gmap string pyval)) : ValidationResult :=
  let custom_rules := default [] custom_rules in
  let flat_data := default ∅ flat_data in
  let results :=
    ([ _evaluate_r001 xml_data;
       _evaluate_r002 xml_data;
       _evaluate_r003 xml_data;
       _evaluate_r004 xml_data;
       _evaluate_r005 xml_data ]
     ++ map (fun rule => _evaluate_custom_rule rule flat_data) custom_rules)%list in
  let blocking_failures :=
    length (List.filter (counted BLOCKING custom_rules) (enumerate results)) in
  let warnings :=
    length (List.filter (counted WARNING custom_rules) (enumerate results)) in
  let passed :=
    length (List.filter (fun r => bool_decide (status r = PASSED)) results) in
  {| invoice_id := invoice_id;
     timestamp := now;
     results := results;
     blocking_failures := blocking_failures;
     warnings := warnings;
     passed := passed;
     can_submit := (blocking_failures =? 0)%nat |}.


End Rules.

(** * [xml_parser.py] *)

(** An [xml.etree.ElementTree.Element]: tag in the form [{uri}local],
    attributes, text before the first child, children. *)
#[warnings="-register-all"]
Inductive element : Type :=
  | Element (tag : string) (attrib : gmap string string)
      (text : option string) (children : list element).

(** What the parser takes from the Python library. *)
Class XmlLib : Type := {
  (** [ET.fromstring]; [None] is [ET.ParseError]. *)
  et_fromstring : string -> option element;
  (** [date.fromisoformat]; [None] is [ValueError]. *)
  date_fromisoformat : string -> option date;
  (** Group 1 of [re.search(r'(https?://[^\s]+searchqr[^\s]+)', note)]. *)
  re_search_qr : string -> option string;
  (** Group 1 of [re.search(cdata_pattern, xml_content, re.DOTALL)], the
      pattern being
      [<!\[CDATA\[(.*?<Invoice[^>]*>.*?</Invoice>.*?)\]\]>]. *)
  re_search_cdata : string -> option string;
  (** Group 1 of [re.search(invoice_pattern, xml_content, re.DOTALL)],
      the pattern being [(<Invoice[^>]*xmlns[^>]*>.*?</Invoice>)]. *)
  re_search_invoice : string -> option string;
}.

Module Xml.

Definition tag_of (e : element) : string :=
  match e with Element t _ _ _ => t end.
Definition attrib_of (e : element) : gmap string string :=
  match e with Element _ a _ _ => a end.
Definition text_of (e : element) : option string :=
  match e with Element _ _ x _ => x end.
Definition children_of (e : element) : list element :=
  match e with Element _ _ _ cs => cs end.

(** [NAMESPACES] and [AD_NAMESPACE] *)
Definition NS_CBC : string :=
  "urn:oasis:names:specification:ubl:schema:xsd:CommonBasicComponents-2".
Definition NS_CAC : string :=
  "urn:oasis:names:specification:ubl:schema:xsd:CommonAggregateComponents-2".
Definition AD_NAMESPACE : string :=
  "urn:oasis:names:specification:ubl:schema:xsd:AttachedDocument-2".

(** The tag a path step [cbc:name] or [cac:name] stands for. *)
Definition cbc (name : string) : string := "{" ++ NS_CBC ++ "}" ++ name.
Definition cac (name : string) : string := "{" ++ NS_CAC ++ "}" ++ name.

Definition has_tag (t : string) (e : element) : bool := tag_of e =? t.

(** [e.findall('p:name', NAMESPACES)] and [e.find('p:name', NAMESPACES)] *)
Definition findall (e : element) (t : string) : list element :=
  List.filter (has_tag t) (children_of e).
Definition find (e : element) (t : string) : option element :=
  List.find (has_tag t) (children_of e).

(** The elements below [e] in document order. *)
Fixpoint descendants (e : element) : list element :=
  match e with
  | Element _ _ _ cs => flat_map (fun c => c :: descendants c) cs
  end.

(** [e.findall('.//p:name', NAMESPACES)] and the matching [find]. *)
Definition findall_below (e : element) (t : string) : list element :=
  List.filter (has_tag t) (descendants e).
Definition find_below (e : element) (t : string) : option element :=
  List.find (has_tag t) (descendants e).

(** Truth value of an element: it has children. *)
Definition truthy (e : element) : bool :=
  match children_of e with [] => false | _ => true end.

(** TAX_SCHEME_NAMES *)
Definition TAX_SCHEME_NAMES : gmap string string :=
  list_to_map [ ("01", "IVA"); ("04", "INC"); ("05", "ReteIVA");
                ("06", "ReteRenta"); ("07", "ReteICA"); ("ZZ", "Otros") ].

(** [_find_text] once the node is found. *)
Definition node_text (node : option element) (default : string) : string :=
  match node with
  | Some n =>
      match text_of n with
      | Some t => if PyStr.truthy t then PyStr.strip t else default
      | None => default
      end
  | None => default
  end.

(** [_find_text(element, 'p:name', default)] *)
Definition _find_text (e : element) (t : string) (default : string) : string :=
  node_text (find e t) default.

(** [_find_float(element, 'p:name')], the default being [0.0]. *)
Definition _find_float (e : element) (t : string) : float :=
  let text := _find_text e t "" in
  if PyStr.truthy text then
    match float_of_str (PyStr.replace "," "" text) with
    | Ok x => x
    | Raise _ => zero
    end
  else zero.

Definition _parse_date `{XmlLib} (date_str : string) : option date :=
  if PyStr.truthy date_str then date_fromisoformat date_str else None.

(** [s if s else None] *)
Definition nonempty (s : string) : option string :=
  if PyStr.truthy s then Some s else None.

(** [cac:PartyIdentification/cbc:ID[@schemeID="31"]/../../cbc:SupplierAssignedAccountID]
    from [party]: the two parent steps lead back to [party], once,
    when some such [cbc:ID] exists. *)
Definition find_account_by_scheme (party : element) : option element :=
  if existsb
       (fun pi => existsb
                    (fun i => bool_decide (attrib_of i !! "schemeID" = Some "31"))
                    (findall pi (cbc "ID")))
       (findall party (cac "PartyIdentification"))
  then find party (cbc "SupplierAssignedAccountID")
  else None.

(** [.//cac:PhysicalLocation/cac:Address] *)
Definition find_physical_address (party : element) : option element :=
  head (flat_map (fun loc => findall loc (cac "Address"))
          (findall_below party (cac "PhysicalLocation"))).

Definition _parse_party (party_element : element) : PartyInfo :=
  let party := default party_element (find party_element (cac "Party")) in
  let party_identification := find party (cac "PartyIdentification") in
  let company_id :=
    match party_identification with
    | Some pi => _find_text pi (cbc "ID") ""
    | None => ""
    end in
  let party_tax_scheme := find party (cac "PartyTaxScheme") in
  let '(registration_name, company_id, tax_level_code, tax_scheme_id) :=
    match party_tax_scheme with
    | Some pts =>
        (_find_text pts (cbc "RegistrationName") "",
         PyStr.or_else company_id (_find_text pts (cbc "CompanyID") ""),
         _find_text pts (cbc "TaxLevelCode") "",
         match find pts (cac "TaxScheme") with
         | Some tax_scheme => _find_text tax_scheme (cbc "ID") ""
         | None => ""
         end)
    | None => ("", company_id, "", "")
    end in
  let supplier_assigned_account_id :=
    match find party_element (cac "Party") with
    | Some customer_party =>
        let found := node_text (find_account_by_scheme customer_party) "" in
        if PyStr.truthy found then found
        else node_text (find_below party_element (cbc "SupplierAssignedAccountID")) ""
    | None => ""
    end in
  let registration_name :=
    match find party (cac "PartyLegalEntity") with
    | Some ple =>
        PyStr.or_else registration_name (_find_text ple (cbc "RegistrationName") "")
    | None => registration_name
    end in
  let registration_name :=
    match find party (cac "PartyName") with
    | Some party_name =>
        if PyStr.truthy registration_name then registration_name
        else _find_text party_name (cbc "Name") ""
    | None => registration_name
    end in
  let address :=
    match find_below party (cac "Address") with
    | Some a => if truthy a then Some a else find_physical_address party
    | None => find_physical_address party
    end in
  let '(address_line, city_name, department, country_code) :=
    match address with
    | Some address =>
        (match find address (cac "AddressLine") with
         | Some l => _find_text l (cbc "Line") ""
         | None => ""
         end,
         _find_text address (cbc "CityName") "",
         _find_text address (cbc "CountrySubentity") "",
         match find address (cac "Country") with
         | Some country => _find_text country (cbc "IdentificationCode") ""
         | None => ""
         end)
    | None => ("", "", "", "")
    end in
  let '(email, phone) :=
    match find party (cac "Contact") with
    | Some contact =>
        (_find_text contact (cbc "ElectronicMail") "",
         _find_text contact (cbc "Telephone") "")
    | None => ("", "")
    end in
  {| company_id := company_id;
     registration_name := registration_name;
     tax_level_code := nonempty tax_level_code;
     party_tax_scheme_id := nonempty tax_scheme_id;
     address_line := nonempty address_line;
     city_name := nonempty city_name;
     department := nonempty department;
     country_code := nonempty country_code;
     email := nonempty email;
     phone := nonempty phone;
     supplier_assigned_account_id := nonempty supplier_assigned_account_id |}.

Definition _parse_tax (tax_element : element) : TaxDetail :=
  let tax_subtotal := default tax_element (find tax_element (cac "TaxSubtotal")) in
  let taxable_amount := _find_float tax_subtotal (cbc "TaxableAmount") in
  let tax_amount := _find_float tax_subtotal (cbc "TaxAmount") in
  let '(percentage, tax_scheme_id) :=
    match find tax_subtotal (cac "TaxCategory") with
    | Some tax_category =>
        (_find_float tax_category (cbc "Percent"),
         match find tax_category (cac "TaxScheme") with
         | Some tax_scheme => _find_text tax_scheme (cbc "ID") ""
         | None => ""
         end)
    | None => (zero, "")
    end in
  let tax_name :=
    default ("Tax-" ++ tax_scheme_id) (TAX_SCHEME_NAMES !! tax_scheme_id) in
  {| tax_scheme_id := tax_scheme_id;
     tax_name := tax_name;
     taxable_amount := taxable_amount;
     tax_percentage := percentage;
     tax_amount := tax_amount |}.

Definition _parse_invoice_line (line_element : element) : result InvoiceLine :=
  let line_id := _find_text line_element (cbc "ID") "" in
  do qu <-
    match find line_element (cbc "InvoicedQuantity") with
    | Some quantity_elem =>
        do quantity <-
          match text_of quantity_elem with
          | Some t => if PyStr.truthy t then float_of_str t else Ok zero
          | None => Ok zero
          end;
        Ok (quantity, default "EA" (attrib_of quantity_elem !! "unitCode"))
    | None => Ok (zero, "EA")
    end;
  let '(quantity, unit_code) := qu in
  let line_extension := _find_float line_element (cbc "LineExtensionAmount") in
  let '(description, product_code) :=
    match find line_element (cac "Item") with
    | Some item =>
        let description := _find_text item (cbc "Description") "" in
        let description :=
          if PyStr.truthy description then description
          else _find_text item (cbc "Name") "" in
        let product_code :=
          match find item (cac "StandardItemIdentification") with
          | Some std_item_id => _find_text std_item_id (cbc "ID") ""
          | None => ""
          end in
        let product_code :=
          if PyStr.truthy product_code then product_code
          else match find item (cac "SellersItemIdentification") with
               | Some sellers_item => _find_text sellers_item (cbc "ID") ""
               | None => product_code
               end in
        (description, product_code)
    | None => ("", "")
    end in
  let unit_price :=
    match find line_element (cac "Price") with
    | Some price_elem => _find_float price_elem (cbc "PriceAmount")
    | None => zero
    end in
  let tax_amount :=
    match find line_element (cac "TaxTotal") with
    | Some tax_total => Some (_find_float tax_total (cbc "TaxAmount"))
    | None => None
    end in
  Ok {| line_id := line_id;
        line_description := description;
        quantity := quantity;
        unit_code := unit_code;
        unit_price := unit_price;
        line_line_extension_amount := line_extension;
        product_code := nonempty product_code;
        line_tax_amount := tax_amount |}.

Definition _parse_monetary_total (total_element : element) : MonetaryTotal :=
  {| line_extension_amount := _find_float total_element (cbc "LineExtensionAmount");
     tax_exclusive_amount := _find_float total_element (cbc "TaxExclusiveAmount");
     tax_inclusive_amount := _find_float total_element (cbc "TaxInclusiveAmount");
     allowance_total_amount := _find_float total_element (cbc "AllowanceTotalAmount");
     charge_total_amount := _find_float total_element (cbc "ChargeTotalAmount");
     payable_amount := _find_float total_element (cbc "PayableAmount") |}.

Definition attachment (rid rtype : string) (desc : option string)
    : AttachmentReference :=
  {| reference_id := rid; reference_type := rtype; description := desc;
     found_in_zip := false; matched_filename := None |}.

(** The references [_extract_invoice_from_attached_document] reads
    from the parsed envelope. *)
Definition envelope_references (root : element) : list AttachmentReference :=
  let from_documents :=
    flat_map
      (fun doc_ref =>
         let doc_id := _find_text doc_ref (cbc "ID") "" in
         let doc_type := _find_text doc_ref (cbc "DocumentType") "" in
         if PyStr.truthy doc_id then
           let ref_type :=
             if PyStr.contains "orden" (PyStr.lower doc_type)
                || PyStr.contains "oc" (PyStr.lower doc_id)
             then "orden_compra"
             else if PyStr.contains "contrato" (PyStr.lower doc_type)
             then "contrato"
             else "documento" in
           [attachment doc_id ref_type (nonempty doc_type)]
         else [])
      (findall_below root (cac "DocumentReference")) in
  let from_attachments :=
    flat_map
      (fun att =>
         match find att (cac "ExternalReference") with
         | Some ext_ref =>
             let uri := _find_text ext_ref (cbc "URI") "" in
             let doc_hash := _find_text ext_ref (cbc "DocumentHash") "" in
             let mime_code := _find_text ext_ref (cbc "MimeCode") "" in
             if PyStr.truthy uri || PyStr.truthy doc_hash then
               (* uri or doc_hash[:20] if doc_hash else "unknown" *)
               [attachment
                  (if PyStr.truthy doc_hash
                   then PyStr.or_else uri (PyStr.take 20 doc_hash)
                   else "unknown")
                  "archivo_adjunto"
                  (if PyStr.truthy mime_code then Some ("MIME: " ++ mime_code)
                   else None)]
             else []
         | None => []
         end)
      (findall_below root (cac "Attachment")) in
  (from_documents ++ from_attachments)%list.

Definition _extract_invoice_from_attached_document `{XmlLib}
    (xml_content : string) : string * list AttachmentReference :=
  let attachment_refs :=
    match et_fromstring xml_content with
    | Some root => envelope_references root
    | None => []
    end in
  match re_search_cdata xml_content with
  | Some inner => (inner, attachment_refs)
  | None =>
      match re_search_invoice xml_content with
      | Some inner => (inner, attachment_refs)
      | None => (xml_content, attachment_refs)
      end
  end.

(** The loop that looks for the QR link in the notes. *)
Fixpoint find_qr_code `{XmlLib} (notes : list string) : option string :=
  match notes with
  | [] => None
  | note :: rest =>
      if PyStr.contains "catalogo-vpfe.dian.gov.co" note
         || PyStr.contains "searchqr" note
      then match re_search_qr note with
           | Some url => Some url
           | None => find_qr_code rest
           end
      else find_qr_code rest
  end.

Definition is_ascii_digits (s : string) : bool :=
  PyStr.all_chars is_digit s.

(** [int(s) if s.isdigit() else n]; the interpreter's limit on the
    number of digits [int] reads is not modelled. *)
Definition int_or (s : string) (n : Z) : result Z :=
  if PyStr.isdigit s then
    if is_ascii_digits s
    then Ok (Z.of_N (digits_to_N (list_ascii_of_string s)))
    else Raise ValueError
  else Ok n.

(** [parse_dian_xml] from [root = ET.fromstring(xml_content)] on;
    [today] is [date.today()]. *)
Definition parse_root `{XmlLib} (today : date) (xml_path : option string)
    (attachment_refs : list AttachmentReference) (root : element)
    : result XMLInvoiceData :=
  let invoice_number := _find_text root (cbc "ID") "" in
  let cufe := _find_text root (cbc "UUID") "" in
  let issue_date_str := _find_text root (cbc "IssueDate") "" in
  let issue_time := _find_text root (cbc "IssueTime") "" in
  let due_date_str := _find_text root (cbc "DueDate") "" in
  let currency_code := _find_text root (cbc "DocumentCurrencyCode") "COP" in
  let invoice_type_code := _find_text root (cbc "InvoiceTypeCode") "01" in
  let line_count_numeric := _find_text root (cbc "LineCountNumeric") "0" in
  let notes :=
    flat_map
      (fun note_elem =>
         match text_of note_elem with
         | Some t => if PyStr.truthy t then [PyStr.strip t] else []
         | None => []
         end)
      (findall root (cbc "Note")) in
  let qr_code := find_qr_code notes in
  let no_party :=
    {| company_id := ""; registration_name := ""; tax_level_code := None;
       party_tax_scheme_id := None; address_line := None; city_name := None;
       department := None; country_code := None; email := None; phone := None;
       supplier_assigned_account_id := None |} in
  let supplier :=
    match find root (cac "AccountingSupplierParty") with
    | Some supplier_elem => _parse_party supplier_elem
    | None => no_party
    end in
  let customer :=
    match find root (cac "AccountingCustomerParty") with
    | Some customer_elem => _parse_party customer_elem
    | None => no_party
    end in
  let payment_means_list :=
    flat_map
      (fun pm_elem =>
         let pm_id := _find_text pm_elem (cbc "ID") "" in
         let pm_code := _find_text pm_elem (cbc "PaymentMeansCode") "" in
         let pm_due_date := _find_text pm_elem (cbc "PaymentDueDate") "" in
         if PyStr.truthy pm_code then
           [{| payment_means_id := PyStr.or_else pm_id "1";
               payment_means_code := pm_code;
               payment_due_date := _parse_date pm_due_date |}]
         else [])
      (findall root (cac "PaymentMeans")) in
  let invoice_period :=
    match find root (cac "InvoicePeriod") with
    | Some period_elem =>
        Some {| start_date := _parse_date (_find_text period_elem (cbc "StartDate") "");
                end_date := _parse_date (_find_text period_elem (cbc "EndDate") "");
                period_description :=
                  nonempty (_find_text period_elem (cbc "Description") "") |}
    | None => None
    end in
  let taxes :=
    List.filter (fun tax => PyStr.truthy (tax_scheme_id tax))
      (map _parse_tax (findall root (cac "TaxTotal"))) in
  let withholding_taxes :=
    List.filter (fun tax => PyStr.truthy (tax_scheme_id tax))
      (map _parse_tax (findall root (cac "WithholdingTaxTotal"))) in
  let monetary_total :=
    match find root (cac "LegalMonetaryTotal") with
    | Some monetary_total_elem => _parse_monetary_total monetary_total_elem
    | None =>
        {| line_extension_amount := zero; tax_exclusive_amount := zero;
           tax_inclusive_amount := zero; allowance_total_amount := zero;
           charge_total_amount := zero; payable_amount := zero |}
    end in
  let prepaid_amount :=
    match find root (cac "PrepaidPayment") with
    | Some prepaid_elem => _find_float prepaid_elem (cbc "PaidAmount")
    | None => zero
    end in
  let '(total_discount, total_charges) :=
    fold_left
      (fun '(total_discount, total_charges) ac_elem =>
         let charge_indicator := _find_text ac_elem (cbc "ChargeIndicator") "false" in
         let amount := _find_float ac_elem (cbc "Amount") in
         if PyStr.lower charge_indicator =? "true"
         then (total_discount, fadd total_charges amount)
         else (fadd total_discount amount, total_charges))
      (findall root (cac "AllowanceCharge")) (zero, zero) in
  do lines <- rmap _parse_invoice_line (findall root (cac "InvoiceLine"));
  let '(order_reference, attachment_refs) :=
    match find root (cac "OrderReference") with
    | Some order_ref_elem =>
        let order_id := _find_text order_ref_elem (cbc "ID") "" in
        let sales_order_id := _find_text order_ref_elem (cbc "SalesOrderID") "" in
        if PyStr.truthy order_id then
          (Some {| order_id := order_id;
                   sales_order_id := nonempty sales_order_id |},
           (attachment_refs
            ++ [attachment order_id "orden_compra"
                  (Some "Orden de Compra referenciada en factura")])%list)
        else (None, attachment_refs)
    | None => (None, attachment_refs)
    end in
  let total_iva := fsum (map tax_amount (List.filter Rules.is_iva taxes)) in
  let total_retenciones := fsum (map tax_amount withholding_taxes) in
  do line_count <- int_or line_count_numeric (Z.of_nat (length lines));
  Ok {| invoice_number := invoice_number;
        cufe := cufe;
        issue_date := default today (_parse_date issue_date_str);
        issue_time := nonempty issue_time;
        due_date := _parse_date due_date_str;
        currency_code := currency_code;
        invoice_type_code := invoice_type_code;
        notes := notes;
        supplier := supplier;
        customer := customer;
        payment_means := payment_means_list;
        invoice_period := invoice_period;
        authorization := None;
        taxes := taxes;
        withholding_taxes := withholding_taxes;
        monetary_total := monetary_total;
        total_discount := total_discount;
        total_charges := total_charges;
        prepaid_amount := prepaid_amount;
        lines := lines;
        line_count := line_count;
        order_reference := order_reference;
        qr_code := qr_code;
        total_iva := total_iva;
        total_retenciones := total_retenciones;
        attachment_references := attachment_refs;
        raw_xml_path := xml_path |}.

(** The first step of [parse_dian_xml]: the text to parse and the
    references collected, the embedded invoice for an envelope and the
    content itself otherwise. *)
Definition unwrap `{XmlLib} (xml_content : string)
    : string * list AttachmentReference :=
  if PyStr.contains "AttachedDocument" xml_content
     && PyStr.contains AD_NAMESPACE xml_content
  then _extract_invoice_from_attached_document xml_content
  else (xml_content, []).

(** [parse_dian_xml(xml_content, xml_path)] on the day [today]. *)
Definition parse_dian_xml `{XmlLib} (today : date)
    (xml_content : string) (xml_path : option string) : result XMLInvoiceData :=
  let '(xml_content, attachment_refs) := unwrap xml_content in
  match et_fromstring xml_content with
  | Some root => parse_root today xml_path attachment_refs root
  | None => Raise ParseError
  end.

(** [d] with its issue date replaced. *)
Definition with_issue_date (d : XMLInvoiceData) (issued : date) : XMLInvoiceData :=
  {| invoice_number := invoice_number d;
     cufe := cufe d;
     issue_date := issued;
     issue_time := issue_time d;
     due_date := due_date d;
     currency_code := currency_code d;
     invoice_type_code := invoice_type_code d;
     notes := notes d;
     supplier := supplier d;
     customer := customer d;
     payment_means := payment_means d;
     invoice_period := invoice_period d;
     authorization := authorization d;
     taxes := taxes d;
     withholding_taxes := withholding_taxes d;
     monetary_total := monetary_total d;
     total_discount := total_discount d;
     total_charges := total_charges d;
     prepaid_amount := prepaid_amount d;
     lines := lines d;
     line_count := line_count d;
     order_reference := order_reference d;
     qr_code := qr_code d;
     total_iva := total_iva d;
     total_retenciones := total_retenciones d;
     attachment_references := attachment_references d;
     raw_xml_path := raw_xml_path d |}.

(** The tax entries [parse_dian_xml] keeps of the children [tag] of
    the root. *)
Definition kept_taxes (root : element) (tag : string) : list TaxDetail :=
  List.filter (fun tax => PyStr.truthy (tax_scheme_id tax))
    (map _parse_tax (findall root tag)).

End Xml.


(** * The specification's wording, and example data *)

Module Wording.

(** "Exactly three digits follow" the one dot of [s]. *)
Definition three_digits_follow_dot (s : string) : bool :=
  match PyStr.split "." s with
  | [_; after] =>
      (String.length after =? 3)%nat && PyStr.all_chars is_digit after
  | _ => false
  end.

(** The text the specification's Colombian-number heuristic hands to
    the float conversion; stripping is the code's own. *)
Definition colombian_text (value : string) : string :=
  let s := PyStr.strip value in
  let s := PyStr.strip (PyStr.replace " " ""
             (PyStr.replace "COP" "" (PyStr.replace "$" "" s))) in
  let has_dot := PyStr.contains "." s in
  let has_comma := PyStr.contains "," s in
  if has_dot && has_comma then
    PyStr.replace "," "." (PyStr.replace "." "" s)
  else if has_dot then
    if (1 <? PyStr.count "." s)%nat then PyStr.replace "." "" s
    else if three_digits_follow_dot s && (6 <? String.length s)%nat
    then PyStr.replace "." "" s
    else s
  else if has_comma then PyStr.replace "," "." s
  else s.

Definition parse_colombian_number (value : string) : result float :=
  float_of_str (colombian_text value).

(** *** Dynamic-rule operators as the specification words them *)

(** The number an operand stands for: [m * 2^e], an infinity, or the
    float that is no number. *)
Inductive number : Type :=
  | Dyadic (m e : Z)
  | Unbounded (negative : bool)
  | NotANumber.

Definition number_of_float (f : float) : number :=
  match f with
  | S754_zero _ => Dyadic 0 0
  | S754_infinity negative => Unbounded negative
  | S754_nan => NotANumber
  | S754_finite negative m e => Dyadic (if negative then Z.neg m else Z.pos m) e
  end.

(** Numeric coercion: an integer and a float are the numbers they
    are, a truth value is 1 or 0, a text is the number it spells, and
    nothing else is a number. *)
Definition coerce (v : pyval) : option number :=
  match v with
  | VInt z => Some (Dyadic z 0)
  | VFloat f => Some (number_of_float f)
  | VBool b => Some (Dyadic (if b then 1 else 0) 0)
  | VStr s =>
      match float_of_str s with
      | Ok f => Some (number_of_float f)
      | Raise _ => None
      end
  | VNone | VObj _ => None
  end.

(** The order of two numbers, as numbers; what is no number is
    ordered with nothing, itself included. *)
Definition order (a b : number) : option comparison :=
  match a, b with
  | NotANumber, _ | _, NotANumber => None
  | Unbounded s, Unbounded t =>
      Some (if s then if t then Eq else Lt else if t then Gt else Eq)
  | Unbounded s, Dyadic _ _ => Some (if s then Lt else Gt)
  | Dyadic _ _, Unbounded t => Some (if t then Gt else Lt)
  | Dyadic m e, Dyadic n f =>
      let k := Z.min e f in
      Some (m * 2 ^ (e - k) ?= n * 2 ^ (f - k))%Z
  end.

(** A relational operator on two ordered or unordered numbers. *)
Definition relation_holds (operator : string) (c : option comparison) : bool :=
  match c with
  | Some Lt => existsb (String.eqb operator) ["<"; "<="; "!="]
  | Some Eq => existsb (String.eqb operator) ["=="; "<="; ">="]
  | Some Gt => existsb (String.eqb operator) [">"; ">="; "!="]
  | None => operator =? "!="
  end.

(** The text of a value. *)
Definition text `{PyRepr} (v : pyval) : string :=
  match v with
  | VStr s => s
  | VInt z => NilZero.string_of_int (Z.to_int z)
  | VFloat f => float_repr f
  | VBool b => if b then "True" else "False"
  | VNone => "None"
  | VObj rendering => rendering
  end.

(** The operators on a field value that is not null: relational and
    equality operators compare the operands as numbers when both
    coerce, and otherwise fall back to equality of their texts, for
    [==] and [!=] only; [contains] looks for the value inside the
    field, both in lower case; [exists] asks for a text that is not
    empty once trimmed. *)
Definition operator_holds `{PyRepr}
    (field : pyval) (operator : string) (value : pyval) : bool :=
  if operator =? "exists" then negb (PyStr.strip (text field) =? "")
  else if operator =? "contains" then
    PyStr.contains (PyStr.lower (text value)) (PyStr.lower (text field))
  else if existsb (String.eqb operator) [">"; "<"; ">="; "<="; "=="; "!="] then
    match coerce field, coerce value with
    | Some a, Some b => relation_holds operator (order a b)
    | _, _ =>
        if operator =? "==" then text field =? text value
        else if operator =? "!=" then negb (text field =? text value)
        else false
    end
  else false.

(** The name the specification's registry gives a scheme ID. *)
Definition registry_name (scheme_id : string) : string :=
  if scheme_id =? "01" then "IVA"
  else if scheme_id =? "04" then "INC"
  else if scheme_id =? "05" then "ReteIVA"
  else if scheme_id =? "06" then "ReteRenta"
  else if scheme_id =? "07" then "ReteICA"
  else "Otros".

End Wording.

Module Examples.

Definition f_dec (m : N) (e10 : Z) : float := of_decimal false m e10.

Definition iva_entry (percentage amount : float) : TaxDetail :=
  {| tax_scheme_id := "01"; tax_name := "IVA";
     taxable_amount := f_dec 100000 0;
     tax_percentage := percentage; tax_amount := amount |}.

Definition party (nit name : string) : PartyInfo :=
  {| company_id := nit; registration_name := name; tax_level_code := None;
     party_tax_scheme_id := None; address_line := None; city_name := None;
     department := None; country_code := None; email := None; phone := None;
     supplier_assigned_account_id := None |}.

(** An invoice with subtotal 100000 and the given output taxes and
    payable amount, no withholding. *)
Definition invoice (output_taxes : list TaxDetail) (payable : float)
    : XMLInvoiceData :=
  {| invoice_number := "FE-1";
     cufe := "0123456789abcdef0123456789abcdef01234567";
     issue_date := {| year := 2024; month := 5; day := 17 |};
     issue_time := None; due_date := None;
     currency_code := "COP"; invoice_type_code := "01"; notes := [];
     supplier := party "830099847" "SOFTTEK RENOVATION SAS";
     customer := party "800153993" "CLARO";
     payment_means := []; invoice_period := None; authorization := None;
     taxes := output_taxes; withholding_taxes := [];
     monetary_total :=
       {| line_extension_amount := f_dec 100000 0;
          tax_exclusive_amount := f_dec 100000 0;
          tax_inclusive_amount := payable;
          allowance_total_amount := zero; charge_total_amount := zero;
          payable_amount := payable |};
     total_discount := zero; total_charges := zero; prepaid_amount := zero;
     lines := []; line_count := 0; order_reference := None; qr_code := None;
     total_iva := fsum (map tax_amount (List.filter Rules.is_iva output_taxes));
     total_retenciones := zero;
     attachment_references := []; raw_xml_path := None |}.

Definition one_iva : list TaxDetail := [iva_entry (f_dec 19 0) (f_dec 19000 0)].

(** A first IVA entry at 19 % followed by one at 16 %. *)
Definition two_rates : list TaxDetail :=
  [iva_entry (f_dec 19 0) (f_dec 19000 0); iva_entry (f_dec 16 0) (f_dec 16000 0)].

(** An example document: the tree, and the text it is the parse of. *)
Record doc : Type := { tree : element; text : string }.

Definition qualified (p name : string) : string :=
  if p =? "cbc" then Xml.cbc name else Xml.cac name.

Definition enclose (name inner : string) : string :=
  "<" ++ name ++ ">" ++ inner ++ "</" ++ name ++ ">".

Definition leaf (p name content : string) : doc :=
  {| tree := Element (qualified p name) ∅ (Some content) [];
     text := enclose (p ++ ":" ++ name) content |}.

Definition node (p name : string) (children : list doc) : doc :=
  {| tree := Element (qualified p name) ∅ None (map tree children);
     text := enclose (p ++ ":" ++ name) (String.concat "" (map text children)) |}.

Definition NS_INVOICE : string :=
  "urn:oasis:names:specification:ubl:schema:xsd:Invoice-2".

Definition invoice_doc (children : list doc) : doc :=
  {| tree := Element ("{" ++ NS_INVOICE ++ "}Invoice") ∅ None (map tree children);
     text := "<Invoice xmlns='" ++ NS_INVOICE
             ++ "' xmlns:cac='" ++ Xml.NS_CAC
             ++ "' xmlns:cbc='" ++ Xml.NS_CBC ++ "'>"
             ++ String.concat "" (map text children) ++ "</Invoice>" |}.

(** A [cac:TaxTotal] (or [cac:WithholdingTaxTotal]) with one subtotal. *)
Definition tax_total (name scheme percent amount : string) : doc :=
  node "cac" name
    [ leaf "cbc" "TaxAmount" amount;
      node "cac" "TaxSubtotal"
        [ leaf "cbc" "TaxableAmount" "100000.00";
          leaf "cbc" "TaxAmount" amount;
          node "cac" "TaxCategory"
            [ leaf "cbc" "Percent" percent;
              node "cac" "TaxScheme" [ leaf "cbc" "ID" scheme ] ] ] ].

(** A tax total whose category names no scheme. *)
Definition tax_total_no_scheme : doc :=
  node "cac" "TaxTotal"
    [ node "cac" "TaxSubtotal"
        [ leaf "cbc" "TaxAmount" "5.00";
          node "cac" "TaxCategory" [ leaf "cbc" "Percent" "5.00" ] ] ].

Definition invoice_body : list doc :=
  [ leaf "cbc" "ID" "FE-1";
    leaf "cbc" "UUID" "0123456789abcdef0123456789abcdef01234567";
    tax_total "TaxTotal" "01" "19.00" "19000.00";
    tax_total "TaxTotal" "03" "8.00" "800.00";
    tax_total_no_scheme;
    tax_total "WithholdingTaxTotal" "06" "2.50" "2500.00";
    tax_total "WithholdingTaxTotal" "07" "0.96" "960.00";
    node "cac" "LegalMonetaryTotal"
      [ leaf "cbc" "LineExtensionAmount" "100000.00";
        leaf "cbc" "PayableAmount" "116340.00" ] ].

(** An invoice with no [cbc:IssueDate], and the same invoice dated. *)
Definition undated : doc := invoice_doc invoice_body.
Definition dated : doc :=
  invoice_doc (leaf "cbc" "IssueDate" "2024-05-17" :: invoice_body).

Definition is_leap (y : Z) : bool :=
  ((y mod 4 =? 0) && (negb (y mod 100 =? 0) || (y mod 400 =? 0)))%Z.

Definition days_in_month (y m : Z) : Z :=
  (if m =? 2 then (if is_leap y then 29 else 28)
   else if (m =? 4) || (m =? 6) || (m =? 9) || (m =? 11) then 30 else 31)%Z.

Definition number (ds : list ascii) : Z := Z.of_N (digits_to_N ds).

(** [date.fromisoformat] on texts of the form [YYYY-MM-DD], the form
    every version of the library reads; other texts are refused, as
    before Python 3.11. *)
Definition iso_date (s : string) : option date :=
  match list_ascii_of_string s with
  | [y1; y2; y3; y4; "-"%char; m1; m2; "-"%char; d1; d2] =>
      let y := number [y1; y2; y3; y4] in
      let m := number [m1; m2] in
      let d := number [d1; d2] in
      if forallb is_digit [y1; y2; y3; y4; m1; m2; d1; d2]
         && (1 <=? y)%Z && (1 <=? m)%Z && (m <=? 12)%Z
         && (1 <=? d)%Z && (d <=? days_in_month y m)%Z
      then Some {| year := y; month := m; day := d |}
      else None
  | _ => None
  end.

(** The library seen on the two example documents: the XML parser
    reads the text of [undated] and of [dated] as their trees and
    refuses any other text; neither document holds a note or the word
    AttachedDocument, so none of the three searches is ever run. *)
Definition lib : XmlLib :=
  {| et_fromstring s :=
       if s =? text undated then Some (tree undated)
       else if s =? text dated then Some (tree dated)
       else None;
     date_fromisoformat := iso_date;
     re_search_qr _ := None;
     re_search_cdata _ := None;
     re_search_invoice _ := None |}.

Definition day1 : date := {| year := 2026; month := 3; day := 1 |}.
Definition day2 : date := {| year := 2026; month := 3; day := 2 |}.

(** A warning rule on the amount payable, and a flattened map that
    holds the amount as a text and a currency that is not a number. *)
Definition amount_rule (operator : string) (value : pyval) : ValidationRule :=
  {| rule_ident := "C002"; nombre := "Monto"; descripcion := "Monto de la factura";
     tipo := WARNING; fuentes := ["xml"];
     condicion := Some {| campo := "payable_amount"; operador := operator;
                          valor := value |};
     is_custom := true |}.

Definition amount_data : gmap string pyval :=
  {[ "payable_amount" := VStr "119000.50"; "currency_code" := VStr "USD" ]}.

End Examples.

(** * [models.py]: processed documents and reconciliation results *)

Module Documents.

Inductive DocumentType : Type :=
  | ORDEN_COMPRA
  | FORMATO_CUMPLIMIENTO
  | EXCEL_MANO_OBRA
  | EXCEL_FABRICANTES
  | XML_FACTURA
  | UNKNOWN.

(** [t.value] *)
Definition DocumentType_value (t : DocumentType) : string :=
  match t with
  | ORDEN_COMPRA => "orden_compra"
  | FORMATO_CUMPLIMIENTO => "formato_cumplimiento"
  | EXCEL_MANO_OBRA => "excel_mano_obra"
  | EXCEL_FABRICANTES => "excel_fabricantes"
  | XML_FACTURA => "xml_factura"
  | UNKNOWN => "unknown"
  end.

(** [ExtractedField]; its field [value] is [field_value] here, and
    [field_type] and [bounding_box], which the code modelled here never
    reads, are left out. *)
Record ExtractedField : Type := {
  field_name : string;
  field_value : pyval;
  confidence : float;
}.

(** [ProcessedDocument]; [extracted_fields] is read by key and walked
    to store each field under a key of its own, so the order of the
    dict is not kept. *)
Record ProcessedDocument : Type := {
  document_type : DocumentType;
  file_name : string;
  file_path : string;
  extracted_fields : gmap string ExtractedField;
  confidence_score : float;
  page_count : Z;
  processing_time_ms : option Z;
}.

(** [InvoicePackage], of which the code modelled here reads
    [xml_data] and [validation_result] only. *)
Record InvoicePackage : Type := {
  package_xml_data : option XMLInvoiceData;
  package_validation_result : option ValidationResult;
}.

(** [FieldComparison]; the fields [field_name], [match] and [notes]
    are [compared_field], [matched] and [comparison_notes] here. *)
Record FieldComparison : Type := {
  compared_field : string;
  field_label : string;
  xml_value : pyval;
  oc_value : pyval;
  matched : bool;
  match_type : string;
  comparison_notes : option Comparator.note;
}.

(** [OCComparisonResult]; its field [invoice_id] is [compared_invoice]
    here. *)
Record OCComparisonResult : Type := {
  compared_invoice : string;
  xml_oc_reference : string;
  oc_document_number : option string;
  oc_file_name : string;
  comparisons : list FieldComparison;
  overall_match : bool;
  match_percentage : float;
  matched_fields : nat;
  total_fields : nat;
  conclusion : string;
  conclusion_type : string;
}.

(** A value of [XML_TO_OC_FIELD_MAPPING]; a key the dict does not
    hold is [None]. *)
Record field_mapping : Type := {
  oc_field : string;
  label : string;
  compare_type : option string;
  tolerance : option float;
}.

(** The literal [0.05]. *)
Definition five_percent : float := of_decimal false 5 (-2).

(** [XML_TO_OC_FIELD_MAPPING], in the order of the dict. *)
Definition XML_TO_OC_FIELD_MAPPING : list (string * field_mapping) :=
  [ ("order_reference",
     {| oc_field := "PurchaseNumber";
        label := "N" ++ String "250" "mero Orden de Compra";
        compare_type := Some "exact"; tolerance := None |});
    ("supplier_nit",
     {| oc_field := "ProviderNit"; label := "NIT Proveedor";
        compare_type := Some "exact"; tolerance := None |});
    ("supplier_name",
     {| oc_field := "ProviderName"; label := "Nombre Proveedor";
        compare_type := Some "contains"; tolerance := None |});
    ("total_payable",
     {| oc_field := "InvoiceTotal"; label := "Total a Pagar";
        compare_type := Some "numeric"; tolerance := Some five_percent |});
    ("line_extension_amount",
     {| oc_field := "TotalBruto"; label := "Subtotal (Base Gravable)";
        compare_type := Some "numeric"; tolerance := Some five_percent |});
    ("total_iva",
     {| oc_field := "TotalIva"; label := "Total IVA";
        compare_type := Some "numeric"; tolerance := Some five_percent |}) ].

End Documents.

(** * [main.py]: responses of the endpoints *)

Module Endpoint.

(** What an endpoint ends with: the [ApiResponse] it returns, whose
    [success] is [True] in the code modelled here, or the
    [HTTPException] it raises. *)
Inductive response (A : Type) : Type :=
  | ApiResponse (message : string) (data : A)
  | HTTPException (status_code : Z) (detail : string).

Arguments ApiResponse {A} message data.
Arguments HTTPException {A} status_code detail.

(** [f"{n}"] for a count. *)
Definition str_of_nat (n : nat) : string :=
  NilZero.string_of_uint (Nat.to_uint n).

End Endpoint.

(** * [rules_engine.py] and [main.py]: the list of rules *)

Module Listing.

Import Endpoint.

(** [rule.tipo.value] *)
Definition RuleType_value (t : RuleType) : string :=
  match t with
  | BLOCKING => "blocking"
  | WARNING => "warning"
  end.

(** A dict of the list [get_all_rules] returns.  [entry_condicion] is
    [None] when the dict has no key [condicion]; otherwise it is the
    value under that key, [None] or the dict of the three fields of
    the condition. *)
Record rule_entry : Type := {
  entry_id : string;
  entry_nombre : string;
  entry_descripcion : string;
  entry_tipo : string;
  entry_fuentes : list string;
  entry_is_custom : bool;
  entry_condicion : option (option RuleCondition);
}.

(** [RulesEngine.get_all_rules(custom_rules)] *)
Definition get_all_rules (custom_rules : option (list ValidationRule))
    : list rule_entry :=
  let custom_rules := default [] custom_rules in
  (map (fun rule =>
          {| entry_id := rule_ident rule;
             entry_nombre := nombre rule;
             entry_descripcion := descripcion rule;
             entry_tipo := RuleType_value (tipo rule);
             entry_fuentes := fuentes rule;
             entry_is_custom := false;
             entry_condicion := None |})
     Rules.STATIC_RULES
   ++ map (fun rule =>
             {| entry_id := rule_ident rule;
                entry_nombre := nombre rule;
                entry_descripcion := descripcion rule;
                entry_tipo := RuleType_value (tipo rule);
                entry_fuentes := fuentes rule;
                entry_is_custom := true;
                entry_condicion := Some (condicion rule) |})
        custom_rules)%list.

(** [get_rules(invoice_id)] over [custom_rules_cache]. *)
Definition get_rules (custom_rules_cache : gmap string (list ValidationRule))
    (invoice_id : option string) : response (list rule_entry) :=
  let custom_rules :=
    match invoice_id with
    | Some i => if PyStr.truthy i then default [] (custom_rules_cache !! i) else []
    | None => []
    end in
  let rules := get_all_rules (Some custom_rules) in
  ApiResponse ("Retrieved " ++ str_of_nat (length rules) ++ " rules") rules.

(** [add_custom_rule(request, invoice_id)]: the cache it leaves and
    its response, whose data is the dump of the rule. *)
Definition add_custom_rule (custom_rules_cache : gmap string (list ValidationRule))
    (rule : ValidationRule) (invoice_id : string)
    : gmap string (list ValidationRule) * response ValidationRule :=
  let custom_rules_cache :=
    match custom_rules_cache !! invoice_id with
    | None => <[invoice_id := []]> custom_rules_cache
    | Some _ => custom_rules_cache
    end in
  let custom_rules_cache :=
    alter (fun rules => (rules ++ [rule])%list) invoice_id custom_rules_cache in
  (custom_rules_cache,
   ApiResponse ("Custom rule '" ++ nombre rule ++ "' added") rule).

(** [delete_custom_rule(rule_id, invoice_id)]: the cache it leaves
    and its response.  The filtered list is stored before its length
    is compared. *)
Definition delete_custom_rule (custom_rules_cache : gmap string (list ValidationRule))
    (rule_id : string) (invoice_id : string)
    : gmap string (list ValidationRule) * response unit :=
  match custom_rules_cache !! invoice_id with
  | None =>
      (custom_rules_cache, HTTPException 404 "No custom rules for this invoice")
  | Some rules =>
      let original_len := length rules in
      let kept := List.filter (fun r => negb (rule_ident r =? rule_id)) rules in
      let custom_rules_cache := <[invoice_id := kept]> custom_rules_cache in
      if (length kept =? original_len)%nat
      then (custom_rules_cache, HTTPException 404 "Rule not found")
      else (custom_rules_cache, ApiResponse ("Rule " ++ rule_id ++ " deleted") tt)
  end.

End Listing.

(** * [main.py]: reconciliation of an invoice with its purchase order *)

Module Reconciliation.

Import Documents.

(** How [_run_oc_comparison] ends: it returns, leaving a cache; an
    exception of the comparator escapes; or the construction of the
    result is refused, a [ValidationError] of the model library. *)
Inductive outcome (A : Type) : Type :=
  | Returns (a : A)
  | Raises (e : pyexc)
  | RaisesValidationError.

Arguments Returns {A} a.
Arguments Raises {A} e.
Arguments RaisesValidationError {A}.

(** The dict [xml_values]. *)
Definition xml_values (xml_data : XMLInvoiceData) : gmap string pyval :=
  list_to_map
    [ ("order_reference",
       match order_reference xml_data with
       | Some ref => VStr (order_id ref)
       | None => VNone
       end);
      ("supplier_nit", VStr (company_id (supplier xml_data)));
      ("supplier_name", VStr (registration_name (supplier xml_data)));
      ("total_payable", VFloat (payable_amount (monetary_total xml_data)));
      ("line_extension_amount",
       VFloat (line_extension_amount (monetary_total xml_data)));
      ("total_iva", VFloat (total_iva xml_data)) ].

(** A value as the comparator reads it: [None], or its text. *)
Definition text_of_value `{PyRepr} (v : pyval) : option string :=
  if Rules.is_none v then None else Some (Rules.py_str v).

(** The body of the loop over [XML_TO_OC_FIELD_MAPPING]. *)
Definition compare_field `{PyRepr} (xml_values : gmap string pyval)
    (oc_fields : gmap string ExtractedField) (entry : string * field_mapping)
    : result FieldComparison :=
  let '(xml_field, mapping) := entry in
  let xml_val := default VNone (xml_values !! xml_field) in
  let oc_val :=
    match oc_fields !! oc_field mapping with
    | Some oc_extracted => field_value oc_extracted
    | None => VNone
    end in
  do r <- Comparator._compare_values (text_of_value xml_val) (text_of_value oc_val)
            (default "exact" (compare_type mapping))
            (default five_percent (tolerance mapping));
  let '(is_match, match_type, notes) := r in
  Ok {| compared_field := xml_field;
        field_label := label mapping;
        xml_value := xml_val;
        oc_value := oc_val;
        matched := is_match;
        match_type := match_type;
        comparison_notes := notes |}.

(** [n] as a float. *)
Definition float_of_nat (n : nat) : float := of_decimal false (N.of_nat n) 0.

(** [(matched / total) * 100 if total > 0 else 0] *)
Definition percentage_of (matched total : nat) : float :=
  if (0 <? total)%nat
  then fmul (fdiv (float_of_nat matched) (float_of_nat total)) (float_of_nat 100)
  else zero.

Definition conclusion_of (percentage : float) (matched total : nat)
    : string * string :=
  if fleb (float_of_nat 90) percentage then
    ("Los datos de la factura XML coinciden con la Orden de Compra. "
     ++ Endpoint.str_of_nat matched ++ " de " ++ Endpoint.str_of_nat total
     ++ " campos verificados correctamente.",
     "success")
  else if fleb (float_of_nat 70) percentage then
    ("La mayor" ++ String "237" "a de datos coinciden ("
     ++ Endpoint.str_of_nat matched ++ "/" ++ Endpoint.str_of_nat total
     ++ "), pero hay algunas discrepancias que revisar.",
     "warning")
  else
    ("Se encontraron discrepancias significativas entre el XML y la OC. Solo "
     ++ Endpoint.str_of_nat matched ++ " de " ++ Endpoint.str_of_nat total
     ++ " campos coinciden.",
     "error").

(** The value given for [oc_document_number], a field declared
    [Optional[str]]: the model library takes a [str] or [None] and
    refuses a number, a truth value, a list or a dict. *)
Definition optional_str (v : pyval) : option (option string) :=
  match v with
  | VNone => Some None
  | VStr s => Some (Some s)
  | _ => None
  end.

(** [_run_oc_comparison(invoice_id, oc_doc)] over [invoice_cache] and
    [oc_comparison_cache]: how it ends, and the [oc_comparison_cache]
    it leaves. *)
Definition _run_oc_comparison `{PyRepr}
    (invoice_cache : gmap string InvoicePackage)
    (oc_comparison_cache : gmap string OCComparisonResult)
    (invoice_id : string) (oc_doc : ProcessedDocument)
    : outcome (gmap string OCComparisonResult) :=
  match invoice_cache !! invoice_id with
  | None => Returns oc_comparison_cache
  | Some package =>
      match package_xml_data package with
      | None => Returns oc_comparison_cache
      | Some xml_data =>
          let xml_values := xml_values xml_data in
          let oc_fields := extracted_fields oc_doc in
          match rmap (compare_field xml_values oc_fields) XML_TO_OC_FIELD_MAPPING with
          | Raise e => Raises e
          | Ok comparisons =>
              let matched_count := length (List.filter matched comparisons) in
              let total := length comparisons in
              let percentage := percentage_of matched_count total in
              let '(conclusion, conclusion_type) :=
                conclusion_of percentage matched_count total in
              match
                optional_str
                  match oc_fields !! "PurchaseNumber" with
                  | Some purchase_number => field_value purchase_number
                  | None => VNone
                  end
              with
              | None => RaisesValidationError
              | Some oc_document_number =>
                  Returns
                    (<[invoice_id :=
                         {| compared_invoice := invoice_id;
                            xml_oc_reference :=
                              match default VNone (xml_values !! "order_reference") with
                              | VStr s => PyStr.or_else s "N/A"
                              | _ => "N/A"
                              end;
                            oc_document_number := oc_document_number;
                            oc_file_name := file_name oc_doc;
                            comparisons := comparisons;
                            overall_match := fleb (float_of_nat 80) percentage;
                            match_percentage := percentage;
                            matched_fields := matched_count;
                            total_fields := total;
                            conclusion := conclusion;
                            conclusion_type := conclusion_type |}]>
                       oc_comparison_cache)
              end
          end
      end
  end.

End Reconciliation.

(** * [xml_parser.py] and [main.py]: the flattened field map *)

Module Flat.

Import Documents Endpoint.

(** A value of the dict [xml_to_dict] returns. *)
Inductive dval : Type :=
  | Scalar (v : pyval)
  | StrList (l : list string)
  | Rows (rows : list (list (string * pyval))).

Definition hex_digit (n : N) : ascii :=
  if (n <? 10)%N then ascii_of_N (48 + n) else ascii_of_N (87 + n).

(** [c.isprintable()] for a code point below 256. *)
Definition printable (c : ascii) : bool :=
  let n := PyStr.code c in
  ((32 <=? n) && (n <=? 126) || (161 <=? n) && negb (n =? 173))%N.

Definition backslash : ascii := "092".
Definition apostrophe : ascii := "039".
Definition double_quote : ascii := "034".

(** What [repr] writes for one character of a string delimited by
    [quote]. *)
Definition escaped (quote c : ascii) : string :=
  let n := PyStr.code c in
  if Ascii.eqb c quote || Ascii.eqb c backslash
  then String backslash (String c "")
  else if (n =? 9)%N then String backslash "t"
  else if (n =? 10)%N then String backslash "n"
  else if (n =? 13)%N then String backslash "r"
  else if printable c then String c ""
  else String backslash
         (String "x" (String (hex_digit (n / 16)) (String (hex_digit (n mod 16)) ""))).

(** [repr(s)] of a string: between apostrophes, or between double
    quotes when it holds an apostrophe and no double quote. *)
Definition str_repr (s : string) : string :=
  let quote :=
    if PyStr.contains (String apostrophe "") s
       && negb (PyStr.contains (String double_quote "") s)
    then double_quote else apostrophe in
  String quote
    (String.concat "" (map (escaped quote) (list_ascii_of_string s))
     ++ String quote "").

(** [repr(v)] *)
Definition value_repr `{PyRepr} (v : pyval) : string :=
  match v with
  | VStr s => str_repr s
  | _ => Rules.py_str v
  end.

(** [str] of a list of [str]. *)
Definition list_str (l : list string) : string :=
  "[" ++ String.concat ", " (map str_repr l) ++ "]".

(** [str] of a list of dicts, each given by its items in order. *)
Definition rows_str `{PyRepr} (rows : list (list (string * pyval))) : string :=
  "[" ++ String.concat ", "
           (map (fun row =>
                   "{" ++ String.concat ", "
                            (map (fun kv => str_repr kv.1 ++ ": " ++ value_repr kv.2)
                               row)
                   ++ "}")
              rows)
  ++ "]".

(** The value as a rule condition reads it, a list by its text. *)
Definition flat_value `{PyRepr} (v : dval) : pyval :=
  match v with
  | Scalar v => v
  | StrList l => VObj (list_str l)
  | Rows rows => VObj (rows_str rows)
  end.

(** [n] in decimal, with zeros before it up to [width] digits. *)
Definition zero_padded (width : nat) (n : Z) : string :=
  let digits := NilZero.string_of_uint (N.to_uint (Z.to_N n)) in
  String.concat "" (repeat "0" (width - String.length digits)) ++ digits.

(** [d.isoformat()] *)
Definition isoformat (d : date) : string :=
  zero_padded 4 (year d) ++ "-" ++ zero_padded 2 (month d)
  ++ "-" ++ zero_padded 2 (day d).

Definition optional (o : option string) : pyval :=
  match o with
  | Some s => VStr s
  | None => VNone
  end.

(** A dict display [{k1: v1, ...}]: a key given twice keeps its last
    value. *)
Definition dict_of {A : Type} (items : list (string * A)) : gmap string A :=
  fold_left (fun d kv => <[kv.1 := kv.2]> d) items ∅.

(** The items of the dict display [xml_to_dict] starts from. *)
Definition header (xml_data : XMLInvoiceData) : list (string * dval) :=
  [ ("invoice_number", Scalar (VStr (invoice_number xml_data)));
    ("cufe", Scalar (VStr (cufe xml_data)));
    ("issue_date", Scalar (VStr (isoformat (issue_date xml_data))));
    ("issue_time", Scalar (optional (issue_time xml_data)));
    ("due_date", Scalar (optional (isoformat <$> due_date xml_data)));
    ("currency_code", Scalar (VStr (currency_code xml_data)));
    ("invoice_type_code", Scalar (VStr (invoice_type_code xml_data)));
    ("supplier_nit", Scalar (VStr (company_id (supplier xml_data))));
    ("supplier_name", Scalar (VStr (registration_name (supplier xml_data))));
    ("supplier_tax_level", Scalar (optional (tax_level_code (supplier xml_data))));
    ("supplier_address", Scalar (optional (address_line (supplier xml_data))));
    ("supplier_city", Scalar (optional (city_name (supplier xml_data))));
    ("supplier_department", Scalar (optional (department (supplier xml_data))));
    ("supplier_email", Scalar (optional (email (supplier xml_data))));
    ("supplier_phone", Scalar (optional (phone (supplier xml_data))));
    ("customer_nit", Scalar (VStr (company_id (customer xml_data))));
    ("customer_name", Scalar (VStr (registration_name (customer xml_data))));
    ("customer_tax_level", Scalar (optional (tax_level_code (customer xml_data))));
    ("customer_supplier_code",
     Scalar (optional (supplier_assigned_account_id (customer xml_data))));
    ("customer_address", Scalar (optional (address_line (customer xml_data))));
    ("customer_city", Scalar (optional (city_name (customer xml_data))));
    ("subtotal", Scalar (VFloat (line_extension_amount (monetary_total xml_data))));
    ("total_iva", Scalar (VFloat (total_iva xml_data)));
    ("total_retenciones", Scalar (VFloat (total_retenciones xml_data)));
    ("total_con_iva",
     Scalar (VFloat (tax_inclusive_amount (monetary_total xml_data))));
    ("total_pagable", Scalar (VFloat (payable_amount (monetary_total xml_data))));
    ("total_descuentos", Scalar (VFloat (total_discount xml_data)));
    ("total_cargos", Scalar (VFloat (total_charges xml_data)));
    ("prepago", Scalar (VFloat (prepaid_amount xml_data)));
    ("orden_compra",
     Scalar (optional (order_id <$> order_reference xml_data)));
    ("sales_order",
     Scalar (optional (order_reference xml_data ≫= sales_order_id)));
    ("qr_code", Scalar (optional (qr_code xml_data)));
    ("notes", StrList (notes xml_data));
    ("line_count", Scalar (VInt (line_count xml_data))) ].

Definition tax_row (tax : TaxDetail) : list (string * pyval) :=
  [ ("tax_scheme_id", VStr (tax_scheme_id tax));
    ("tax_name", VStr (tax_name tax));
    ("taxable_amount", VFloat (taxable_amount tax));
    ("tax_percentage", VFloat (tax_percentage tax));
    ("tax_amount", VFloat (tax_amount tax)) ].

Definition optional_float (o : option float) : pyval :=
  match o with
  | Some x => VFloat x
  | None => VNone
  end.

Definition line_row (line : InvoiceLine) : list (string * pyval) :=
  [ ("line_id", VStr (line_id line));
    ("description", VStr (line_description line));
    ("quantity", VFloat (quantity line));
    ("unit_code", VStr (unit_code line));
    ("unit_price", VFloat (unit_price line));
    ("line_extension_amount", VFloat (line_line_extension_amount line));
    ("product_code", optional (product_code line));
    ("tax_amount", optional_float (line_tax_amount line)) ].

Definition reference_row (ref : AttachmentReference) : list (string * pyval) :=
  [ ("reference_id", VStr (reference_id ref));
    ("reference_type", VStr (reference_type ref));
    ("description", optional (description ref));
    ("found_in_zip", VBool (found_in_zip ref));
    ("matched_filename", optional (matched_filename ref)) ].

(** The body of the two loops that store the flat tax fields, the
    first with [family] [tax_] and the second with [retencion_]. *)
Definition set_flat_tax (family : string) (result : gmap string dval)
    (tax : TaxDetail) : gmap string dval :=
  let key_prefix := family ++ PyStr.lower (tax_name tax) in
  <[key_prefix ++ "_valor" := Scalar (VFloat (tax_amount tax))]>
    (<[key_prefix ++ "_porcentaje" := Scalar (VFloat (tax_percentage tax))]>
       (<[key_prefix ++ "_base" := Scalar (VFloat (taxable_amount tax))]> result)).

(** [xml_to_dict(xml_data)] *)
Definition xml_to_dict (xml_data : XMLInvoiceData) : gmap string dval :=
  let result := dict_of (header xml_data) in
  let result := <["taxes" := Rows (map tax_row (taxes xml_data))]> result in
  let result :=
    <["withholding_taxes" := Rows (map tax_row (withholding_taxes xml_data))]> result in
  let result := fold_left (set_flat_tax "tax_") (taxes xml_data) result in
  let result :=
    fold_left (set_flat_tax "retencion_") (withholding_taxes xml_data) result in
  let result := <["items" := Rows (map line_row (lines xml_data))]> result in
  <["attachment_references" :=
      Rows (map reference_row (attachment_references xml_data))]> result.

(** The loop of [validate_invoice] over the fields of one uploaded
    document. *)
Definition add_document (flat_data : gmap string dval) (doc : ProcessedDocument)
    : gmap string dval :=
  let doc_prefix := DocumentType_value (document_type doc) in
  map_fold
    (fun field_name field flat_data =>
       <[doc_prefix ++ "_" ++ field_name := Scalar (field_value field)]> flat_data)
    flat_data (extracted_fields doc).

(** [flat_data] as [validate_invoice] builds it. *)
Definition build_flat_data (xml_data : XMLInvoiceData)
    (uploaded_docs : list ProcessedDocument) : gmap string dval :=
  fold_left add_document uploaded_docs (xml_to_dict xml_data).

(** [validate_invoice(invoice_id)] at the time [now].  [from_blob] is
    what the search of the blob storage, run when the invoice is not
    in [invoice_cache], leaves in [xml_data]: the invoice parsed from
    the stored package, or [None] when there is none or the search
    fails.  The data of the response is the validation result. *)
Definition validate_invoice `{PyRepr} (now : Z)
    (invoice_cache : gmap string InvoicePackage)
    (custom_rules_cache : gmap string (list ValidationRule))
    (uploaded_documents_cache : gmap string (list ProcessedDocument))
    (from_blob : option XMLInvoiceData) (invoice_id : string)
    : response ValidationResult :=
  let xml_data :=
    match invoice_cache !! invoice_id with
    | Some package => package_xml_data package
    | None => from_blob
    end in
  match xml_data with
  | None => HTTPException 404 "Invoice not found or XML not available"
  | Some xml_data =>
      let custom_rules := default [] (custom_rules_cache !! invoice_id) in
      let uploaded_docs := default [] (uploaded_documents_cache !! invoice_id) in
      let flat_data := build_flat_data xml_data uploaded_docs in
      let result :=
        Rules.validate now invoice_id (Some xml_data) (Some custom_rules)
          (Some (flat_value <$> flat_data)) in
      ApiResponse
        ("Validation complete: " ++ str_of_nat (passed result) ++ " passed, "
         ++ str_of_nat (blocking_failures result) ++ " blocking, "
         ++ str_of_nat (warnings result) ++ " warnings")
        result
  end.

(** [SubmitRequest]; its field [notes] is [request_notes] here. *)
Record SubmitRequest : Type := {
  selected_fields : list string;
  request_notes : option string;
  force : bool;
}.

(** The data of the response of [submit_invoice]. *)
Record Submission : Type := {
  submitted_invoice : string;
  submitted_number : string;
  sap_document_number : string;
  submitted_at : string;
  submitted_fields : list string;
  submission_notes : option string;
  total_amount : float;
  forced : bool;
  validation_passed : bool;
}.

(** [submit_invoice(invoice_id, request)].  [from_blob] is as in
    [validate_invoice]; [now] is the clock reading of a validation
    run here, [stamp] the text [datetime.now().strftime('%Y%m%d%H%M%S')]
    and [at_time] the text [datetime.now().isoformat()] of the two
    later readings. *)
Definition submit_invoice `{PyRepr} (now : Z) (stamp at_time : string)
    (invoice_cache : gmap string InvoicePackage)
    (custom_rules_cache : gmap string (list ValidationRule))
    (uploaded_documents_cache : gmap string (list ProcessedDocument))
    (from_blob : option XMLInvoiceData) (invoice_id : string)
    (request : SubmitRequest) : response Submission :=
  let '(xml_data, validation_result) :=
    match invoice_cache !! invoice_id with
    | Some package => (package_xml_data package, package_validation_result package)
    | None => (from_blob, None)
    end in
  match xml_data with
  | None => HTTPException 404 "Invoice not found or XML not available"
  | Some xml_data =>
      let validation_result :=
        match validation_result with
        | Some validation_result => validation_result
        | None =>
            let custom_rules := default [] (custom_rules_cache !! invoice_id) in
            let uploaded_docs :=
              default [] (uploaded_documents_cache !! invoice_id) in
            let flat_data := build_flat_data xml_data uploaded_docs in
            Rules.validate now invoice_id (Some xml_data) (Some custom_rules)
              (Some (flat_value <$> flat_data))
        end in
      if negb (force request) && negb (can_submit validation_result)
      then
        HTTPException 400
          ("Cannot submit: " ++ str_of_nat (blocking_failures validation_result)
           ++ " blocking failures. Use force=true to submit anyway.")
      else
        ApiResponse
          ("Invoice submitted to SAP"
           ++ (if force request && negb (can_submit validation_result)
               then " (forced despite failures)" else ""))
          {| submitted_invoice := invoice_id;
             submitted_number := invoice_number xml_data;
             sap_document_number := "SAP-" ++ invoice_id ++ "-" ++ stamp;
             submitted_at := at_time;
             submitted_fields := selected_fields request;
             submission_notes := request_notes request;
             total_amount := payable_amount (monetary_total xml_data);
             forced := force request && negb (can_submit validation_result);
             validation_passed := can_submit validation_result |}
  end.

(** [ChatRequest], of which the code modelled here reads the
    invoice id and the three pieces of context it copies. *)
Record ChatRequest : Type := {
  chat_invoice_id : string;
  validation_results : option (list (list (string * pyval)));
  oc_discrepancies : option (list (list (string * pyval)));
  invoice_totals : option (gmap string pyval);
}.

(** The list [confidential_fields] of [chat], and the words it looks
    for in the names of document fields. *)
Definition confidential_fields : list string :=
  [ "supplier_nit"; "supplier_name"; "supplier_registration_name";
    "customer_nit"; "customer_name"; "customer_registration_name";
    "supplier_company_id"; "customer_company_id" ].

Definition confidential_words : list string :=
  [ "nit"; "nombre"; "razon_social"; "company" ].

(** The loop of [chat] over the fields of one uploaded document. *)
Definition add_chat_document (invoice_data : gmap string dval)
    (doc : ProcessedDocument) : gmap string dval :=
  map_fold
    (fun field_name field invoice_data =>
       if existsb (fun conf => PyStr.contains conf (PyStr.lower field_name))
            confidential_words
       then invoice_data
       else <[DocumentType_value (document_type doc) ++ "_" ++ field_name :=
                Scalar (field_value field)]> invoice_data)
    invoice_data (extracted_fields doc).

(** The dict [invoice_data] that [chat] hands to the language-model
    service. *)
Definition chat_invoice_data (invoice_cache : gmap string InvoicePackage)
    (uploaded_documents_cache : gmap string (list ProcessedDocument))
    (request : ChatRequest) : gmap string dval :=
  let invoice_data : gmap string dval := ∅ in
  let invoice_data :=
    if PyStr.truthy (chat_invoice_id request) then
      match invoice_cache !! chat_invoice_id request with
      | Some package =>
          let invoice_data :=
            match package_xml_data package with
            | Some xml_data =>
                filter
                  (fun kv : string * dval =>
                     Rules.string_in (PyStr.lower kv.1)
                       (map PyStr.lower confidential_fields) = false)
                  (xml_to_dict xml_data)
            | None => invoice_data
            end in
          fold_left add_chat_document
            (default [] (uploaded_documents_cache !! chat_invoice_id request))
            invoice_data
      | None => invoice_data
      end
    else invoice_data in
  let invoice_data :=
    match validation_results request with
    | Some (row :: rows) => <["_validation_results" := Rows (row :: rows)]> invoice_data
    | _ => invoice_data
    end in
  let invoice_data :=
    match oc_discrepancies request with
    | Some (row :: rows) => <["_oc_discrepancies" := Rows (row :: rows)]> invoice_data
    | _ => invoice_data
    end in
  match invoice_totals request with
  | Some totals =>
      map_fold (fun key value invoice_data => <[key := Scalar value]> invoice_data)
        invoice_data totals
  | None => invoice_data
  end.

End Flat.

(** * Sample data *)

Module Samples.

Import Documents.

(** [repr] of a float where it is a whole number below 10^16 in
    absolute value, a zero, an infinity or NaN: the digits followed by
    [.0], and the names.  The sample data holds no other float; on
    the others this function drops the fraction, which [repr] does
    not. *)
Definition repr_whole : PyRepr :=
  fun f =>
    match f with
    | S754_zero s => if s then "-0.0" else "0.0"
    | S754_infinity s => if s then "-inf" else "inf"
    | S754_nan => "nan"
    | S754_finite s m e =>
        let n := if (0 <=? e)%Z then (Z.pos m * 2 ^ e)%Z
                 else (Z.pos m / 2 ^ (- e))%Z in
        (if s then "-" else "")
        ++ NilZero.string_of_uint (N.to_uint (Z.to_N n)) ++ ".0"
    end.

(** A blocking rule on the currency, and the same rule written with
    [=], an operator the engine does not know. *)
Definition currency_rule (operator : string) : ValidationRule :=
  {| rule_ident := "C001"; nombre := "Moneda"; descripcion := "Factura en pesos";
     tipo := BLOCKING; fuentes := ["xml"];
     condicion := Some {| campo := "currency_code"; operador := operator;
                          valor := VStr "COP" |};
     is_custom := true |}.

(** The invoice of the examples, payable 119000 with one IVA entry. *)
Definition invoice : XMLInvoiceData :=
  Examples.invoice Examples.one_iva (of_decimal false 119000 0).

(** The invoice cache holding the sample invoice. *)
Definition packages : gmap string InvoicePackage :=
  {[ "FE-1" := {| package_xml_data := Some invoice;
                  package_validation_result := None |} ]}.

(** A processed purchase order with the given field values. *)
Definition purchase_order (values : list (string * pyval)) : ProcessedDocument :=
  {| document_type := ORDEN_COMPRA;
     file_name := "OC_4500799306.pdf";
     file_path := "FE-1/OC_4500799306.pdf";
     extracted_fields :=
       list_to_map
         (map (fun kv =>
                 (kv.1, {| field_name := kv.1; field_value := kv.2;
                           confidence := of_decimal false 95 (-2) |}))
            values);
     confidence_score := of_decimal false 95 (-2);
     page_count := 1;
     processing_time_ms := None |}.

(** A purchase order as the OCR reads it: amounts in Colombian
    format, the supplier name as the order spells it. *)
Definition scanned_order : ProcessedDocument :=
  purchase_order
    [ ("ProviderNit", VStr "830099847");
      ("ProviderName", VStr "Softtek Renovation S.A.S.");
      ("InvoiceTotal", VStr "119.000 COP");
      ("TotalBruto", VStr "100.000 COP");
      ("TotalIva", VStr "19.000 COP") ].

(** A purchase order that carries the values of the sample invoice. *)
Definition echoed_order : ProcessedDocument :=
  purchase_order
    [ ("ProviderNit", VStr "830099847");
      ("ProviderName", VStr "SOFTTEK RENOVATION SAS");
      ("InvoiceTotal", VFloat (of_decimal false 119000 0));
      ("TotalBruto", VStr "100000.0");
      ("TotalIva", VFloat (of_decimal false 19000 0)) ].

(** A [cac:InvoiceLine] with the given quantity text. *)
Definition invoice_line (id quantity_text amount : string) : Examples.doc :=
  Examples.node "cac" "InvoiceLine"
    [ Examples.leaf "cbc" "ID" id;
      Examples.leaf "cbc" "InvoicedQuantity" quantity_text;
      Examples.leaf "cbc" "LineExtensionAmount" amount;
      Examples.node "cac" "Item" [ Examples.leaf "cbc" "Description" "Servicio" ] ].

(** An invoice with two lines, an order reference with the given ID
    and no [cbc:LineCountNumeric]. *)
Definition ordered (order_id second_quantity : string) : Examples.doc :=
  Examples.invoice_doc
    [ Examples.leaf "cbc" "ID" "FE-2";
      Examples.leaf "cbc" "UUID" "0123456789abcdef0123456789abcdef01234567";
      Examples.leaf "cbc" "IssueDate" "2024-05-17";
      Examples.node "cac" "OrderReference" [ Examples.leaf "cbc" "ID" order_id ];
      invoice_line "1" "2.00" "60000.00";
      invoice_line "2" second_quantity "40000.00" ].

(** The same invoice with a line count that is not written in
    digits only. *)
Definition counted : Examples.doc :=
  Examples.invoice_doc
    [ Examples.leaf "cbc" "ID" "FE-3";
      Examples.leaf "cbc" "LineCountNumeric" "2.0";
      invoice_line "1" "2.00" "60000.00";
      invoice_line "2" "1.00" "40000.00" ].

(** The library seen on the sample documents, as [Examples.lib] is
    on its own. *)
Definition lib : XmlLib :=
  {| et_fromstring s :=
       if s =? Examples.text (ordered "4500799306" "1.00")
       then Some (Examples.tree (ordered "4500799306" "1.00"))
       else if s =? Examples.text (ordered "   " "1.00")
       then Some (Examples.tree (ordered "   " "1.00"))
       else if s =? Examples.text (ordered "4500799306" "una")
       then Some (Examples.tree (ordered "4500799306" "una"))
       else if s =? Examples.text counted then Some (Examples.tree counted)
       else None;
     date_fromisoformat := Examples.iso_date;
     re_search_qr _ := None;
     re_search_cdata _ := None;
     re_search_invoice _ := None |}.

(** A chat request about the sample invoice, with no context of its
    own. *)
Definition chat_request : Flat.ChatRequest :=
  {| Flat.chat_invoice_id := "FE-1";
     Flat.validation_results := None;
     Flat.oc_discrepancies := None;
     Flat.invoice_totals := None |}.

(** A request whose invoice totals name a key of the purchase order. *)
Definition request_with_totals : Flat.ChatRequest :=
  {| Flat.chat_invoice_id := "FE-1";
     Flat.validation_results := None;
     Flat.oc_discrepancies := None;
     Flat.invoice_totals :=
       Some {[ "orden_compra_ProviderNit" := VStr "830.099.847-1" ]} |}.

(** The uploads of the sample invoice: the scanned purchase order. *)
Definition uploads : gmap string (list ProcessedDocument) :=
  {[ "FE-1" := [scanned_order] ]}.

End Samples.

(** * Theorems *)

(** ** Floats *)

Lemma feqb_zero_inv (x : float) :
  feqb x zero = true -> exists s, x = S754_zero s.
Proof.
  destruct x as [s | s | | s m e]; cbn; try discriminate.
  - intros _. now exists s.
  - destruct s; discriminate.
  - destruct s; discriminate.
Qed.

Lemma feqb_abs_zero (x : float) : feqb (fabs x) zero = feqb x zero.
Proof. destruct x as [s | s | | s m e]; cbn; try reflexivity; now destruct s. Qed.

Lemma feqb_zero_l (s : bool) (y : float) :
  feqb (S754_zero s) y = feqb y zero.
Proof. destruct y as [t | t | | t m e]; cbn; try reflexivity; now destruct t. Qed.

Lemma truediv_ok (x y : float) :
  feqb y zero = false -> truediv x y = Ok (fdiv x y).
Proof. intros H. unfold truediv. now rewrite H. Qed.

(** ** Reconciliation comparator *)

(** The four worked examples of the Colombian-number parser. *)
Lemma colombian_examples :
  Comparator._parse_colombian_number "137.310.992" = Ok (of_decimal false 137310992 0)
  /\ Comparator._parse_colombian_number "1.234,56" = Ok (of_decimal false 123456 (-2))
  /\ Comparator._parse_colombian_number "123.45" = Ok (of_decimal false 12345 (-2))
  /\ Comparator._parse_colombian_number "$ 1.500.000 COP" = Ok (of_decimal false 1500000 0).
Proof. repeat split; vm_compute; reflexivity. Qed.

(** The code and the specification's wording hand the same text to the
    float conversion, except possibly when the one dot is followed by
    three characters that are not all digits. *)
Lemma colombian_text_wording (value : string) :
  let s :=
    PyStr.strip (PyStr.replace " " ""
      (PyStr.replace "COP" "" (PyStr.replace "$" "" (PyStr.strip value)))) in
  Comparator.colombian_text value = Wording.colombian_text value
  \/ exists before after,
       PyStr.split "." s = [before; after]
       /\ String.length after = 3%nat
       /\ PyStr.all_chars is_digit after = false.
Proof.
  intros s.
  unfold Comparator.colombian_text, Wording.colombian_text,
    Wording.three_digits_follow_dot.
  fold s.
  destruct (PyStr.contains "." s && PyStr.contains "," s); [now left |].
  destruct (PyStr.contains "." s); [| now left].
  destruct (1 <? PyStr.count "." s)%nat; [now left |].
  destruct (PyStr.split "." s) as [| before [| after [| x rest]]] eqn:Hs;
    cbn [length nth Nat.eqb andb]; try now left.
  destruct (String.length after =? 3)%nat eqn:Hlen; cbn [andb]; [| now left].
  destruct (PyStr.all_chars is_digit after) eqn:Hd; cbn [andb]; [now left |].
  right. exists before, after. repeat split; try assumption.
  now apply Nat.eqb_eq.
Qed.

(** C1.  On the text [1234.5e2] the code drops the dot, because three
    characters follow it in a text longer than six, and reads
    1234500.0; read as the claim words it, with the dot kept because
    those three characters are not three digits, the text denotes
    123450.0. *)
Theorem parse_colombian_exponent_text :
  Comparator._parse_colombian_number "1234.5e2" = Ok (of_decimal false 1234500 0)
  /\ Wording.parse_colombian_number "1234.5e2" = Ok (of_decimal false 123450 0)
  /\ feqb (of_decimal false 1234500 0) (of_decimal false 123450 0) = false.
Proof. repeat split; vm_compute; reflexivity. Qed.

(** The comparator returns a result on every input: no exception, in
    particular no division by zero, escapes it. *)
Lemma compare_values_returns (xml_val oc_val : option string)
    (compare_type : string) (tolerance : float) :
  exists r, Comparator._compare_values xml_val oc_val compare_type tolerance = Ok r.
Proof.
  unfold Comparator._compare_values.
  destruct xml_val as [x |], oc_val as [o |]; try (eexists; reflexivity).
  repeat match goal with
         | |- context [if ?b then _ else _] =>
             lazymatch b with
             | context [if _ then _ else _] => fail
             | _ => destruct b eqn:?
             end
         end; try (eexists; reflexivity).
  all: unfold Comparator._parse_colombian_number, float_of_str in *.
  all: destruct (of_string (Comparator.colombian_text x)) as [xn |];
    cbn; try (eexists; reflexivity).
  all: destruct (of_string (Comparator.colombian_text o)) as [on |];
    cbn; try (eexists; reflexivity).
  all: destruct (feqb xn on); try (eexists; reflexivity).
  all: unfold fneb; destruct (feqb xn zero) eqn:Hz; cbn;
    try (eexists; reflexivity).
  all: rewrite truediv_ok by (now rewrite feqb_abs_zero); cbn.
  all: destruct (fleb _ tolerance); eexists; reflexivity.
Qed.

(** C9.  In the numeric comparison, when the XML-side value parses to
    zero and the OCR-side value parses to a value other than zero, the
    result is [match = False] with type [mismatch], whatever the
    tolerance: the relative difference is never computed. *)
Theorem numeric_zero_xml_is_mismatch (xml_val oc_val : string)
    (tolerance xml_num oc_num : float) :
  Comparator._parse_colombian_number xml_val = Ok xml_num ->
  Comparator._parse_colombian_number oc_val = Ok oc_num ->
  feqb xml_num zero = true ->
  feqb oc_num zero = false ->
  Comparator._compare_values (Some xml_val) (Some oc_val) "numeric" tolerance
  = Ok (false, "mismatch", Some (Comparator.Amounts xml_num oc_num)).
Proof.
  intros Hx Ho Hzero Hnonzero.
  unfold Comparator._compare_values.
  change ("numeric" =? "exact") with false.
  change ("numeric" =? "contains") with false.
  change ("numeric" =? "numeric") with true.
  cbv iota. rewrite Hx, Ho. cbn [rbind except_value_type].
  destruct (feqb_zero_inv _ Hzero) as [s ->].
  rewrite feqb_zero_l, Hnonzero.
  unfold fneb. rewrite Hzero. reflexivity.
Qed.

Lemma numeric_zero_xml_is_mismatch_witness :
  Comparator._parse_colombian_number "0" = Ok zero
  /\ Comparator._parse_colombian_number "$ 5.000.000" = Ok (of_decimal false 5000000 0)
  /\ feqb zero zero = true
  /\ feqb (of_decimal false 5000000 0) zero = false
  /\ Comparator._compare_values (Some "0") (Some "$ 5.000.000") "numeric"
       (of_decimal false 5 (-2))
     = Ok (false, "mismatch",
           Some (Comparator.Amounts zero (of_decimal false 5000000 0))).
Proof.
  assert (Hx : Comparator._parse_colombian_number "0" = Ok zero)
    by (vm_compute; reflexivity).
  assert (Ho : Comparator._parse_colombian_number "$ 5.000.000"
               = Ok (of_decimal false 5000000 0))
    by (vm_compute; reflexivity).
  assert (Hz : feqb zero zero = true) by reflexivity.
  assert (Hn : feqb (of_decimal false 5000000 0) zero = false)
    by (vm_compute; reflexivity).
  exact (conj Hx (conj Ho (conj Hz (conj Hn
    (numeric_zero_xml_is_mismatch "0" "$ 5.000.000" (of_decimal false 5 (-2))
       zero (of_decimal false 5000000 0) Hx Ho Hz Hn))))).
Defined.

(** ** Rules engine: static rules *)


(** R004 is decided by the first output tax with scheme 01. *)
Lemma r004_status (d : XMLInvoiceData) :
  status (Rules._evaluate_r004 (Some d))
  = match List.find Rules.is_iva (taxes d) with
    | None => SKIPPED
    | Some first =>
        if feqb (tax_percentage first) Rules.nineteen then PASSED else FAILED
    end.
Proof.
  unfold Rules._evaluate_r004.
  destruct (taxes d) as [| t ts] eqn:Ht; [reflexivity |].
  destruct (List.find Rules.is_iva (t :: ts)) as [first |]; [| reflexivity].
  now destruct (feqb (tax_percentage first) Rules.nineteen).
Qed.



(** When every entry with scheme 01 is at 19.0 and there is one, R004
    passes. *)
Lemma r004_all_nineteen (d : XMLInvoiceData) :
  existsb Rules.is_iva (taxes d) = true ->
  forallb (fun t => negb (Rules.is_iva t) || feqb (tax_percentage t) Rules.nineteen)
    (taxes d) = true ->
  status (Rules._evaluate_r004 (Some d)) = PASSED.
Proof.
  intros Hex Hall. rewrite r004_status.
  destruct (List.find Rules.is_iva (taxes d)) as [first |] eqn:Hf.
  - apply find_some in Hf as [Hin Hiva].
    rewrite forallb_forall in Hall. specialize (Hall _ Hin).
    rewrite Hiva in Hall. cbn [negb orb] in Hall. now rewrite Hall.
  - apply existsb_exists in Hex as [t [Hin Hiva]].
    pose proof (find_none _ _ Hf _ Hin) as Hn. congruence.
Qed.

(** ** Rules engine: [validate] *)

Lemma static_rule_ids (xml_data : option XMLInvoiceData) :
  rule_id (Rules._evaluate_r001 xml_data) = "R001"
  /\ rule_id (Rules._evaluate_r002 xml_data) = "R002"
  /\ rule_id (Rules._evaluate_r003 xml_data) = "R003"
  /\ rule_id (Rules._evaluate_r004 xml_data) = "R004"
  /\ rule_id (Rules._evaluate_r005 xml_data) = "R005".
Proof.
  unfold Rules._evaluate_r001, Rules._evaluate_r002, Rules._evaluate_r003,
    Rules._evaluate_r004, Rules._evaluate_r005.
  destruct xml_data as [d |]; [| repeat split; reflexivity].
  repeat split.
  - now destruct (Rules.string_in _ _).
  - now destruct (_ && _).
  - now destruct (fleb _ _).
  - destruct (taxes d); [reflexivity |].
    destruct (List.find _ _); [| reflexivity]. now destruct (feqb _ _).
  - destruct (order_reference d) as [o |]; [| reflexivity].
    now destruct (PyStr.truthy _).
Qed.

Lemma custom_rule_id `{PyRepr} (rule : ValidationRule) (data : gmap string pyval) :
  rule_id (Rules._evaluate_custom_rule rule data) = rule_ident rule.
Proof.
  unfold Rules._evaluate_custom_rule.
  destruct (condicion rule) as [c |]; [| reflexivity].
  destruct (data !! campo c) as [[] |]; try reflexivity;
    now destruct (Rules._compare_values _ _ _).
Qed.

(** C10.  [validate] returns 5 + n results for n custom rules: the
    results of R001 to R005 in that order, then the result of each
    custom rule in the order supplied, each under its rule's id. *)
Theorem validate_one_result_per_rule `{PyRepr} (now : Z) (inv : string)
    (xml_data : option XMLInvoiceData) (custom_rules : option (list ValidationRule))
    (flat_data : option (gmap string pyval)) :
  let v := Rules.validate now inv xml_data custom_rules flat_data in
  let custom := default [] custom_rules in
  length (results v) = (5 + length custom)%nat
  /\ firstn 5 (results v)
     = [ Rules._evaluate_r001 xml_data; Rules._evaluate_r002 xml_data;
         Rules._evaluate_r003 xml_data; Rules._evaluate_r004 xml_data;
         Rules._evaluate_r005 xml_data ]
  /\ skipn 5 (results v)
     = map (fun rule => Rules._evaluate_custom_rule rule (default ∅ flat_data)) custom
  /\ map rule_id (results v)
     = (["R001"; "R002"; "R003"; "R004"; "R005"] ++ map rule_ident custom)%list.
Proof.
  cbv zeta. unfold Rules.validate. cbn [results].
  repeat split.
  - cbn [app length]. now rewrite length_map.
  - cbn [app map]. destruct (static_rule_ids xml_data) as (-> & -> & -> & -> & ->).
    do 5 f_equal. rewrite map_map. apply map_ext. intros rule.
    apply custom_rule_id.
Qed.

Lemma counted_declared (ty : RuleType) (custom : list ValidationRule)
    (i : nat) (r : RuleResult) :
  Rules.counted ty custom (i, r)
  = bool_decide (status r = FAILED)
    && Rules.tipo_is ty ((Rules.STATIC_RULES ++ custom)%list !! i).
Proof.
  unfold Rules.counted. f_equal.
  destruct (i <? length Rules.STATIC_RULES)%nat eqn:Hlt.
  - apply Nat.ltb_lt in Hlt.
    rewrite lookup_app_l by exact Hlt.
    replace (length Rules.STATIC_RULES <=? i)%nat with false
      by (symmetry; apply Nat.leb_gt; exact Hlt).
    cbn [andb orb]. now rewrite orb_false_r.
  - apply Nat.ltb_ge in Hlt.
    rewrite lookup_app_r by exact Hlt.
    replace (length Rules.STATIC_RULES <=? i)%nat with true
      by (symmetry; apply Nat.leb_le; exact Hlt).
    reflexivity.
Qed.

(** Counting over [enumerate(results)] with the rule read by index is
    counting over the pairs of a rule and its result. *)
Lemma count_by_index {A B : Type} (p : B -> bool) (q : option A -> bool)
    (res : list B) :
  forall (before rules : list A),
    length rules = length res ->
    length (List.filter (fun ir : nat * B =>
                           p ir.2 && q ((before ++ rules)%list !! ir.1))
              (Rules.enumerate_from (length before) res))
    = length (List.filter (fun rr : A * B => p rr.2 && q (Some rr.1))
                (combine rules res)).
Proof.
  induction res as [| r res IH]; intros before rules Hlen.
  - destruct rules; reflexivity.
  - destruct rules as [| a rules]; [discriminate |].
    cbn [Rules.enumerate_from combine List.filter fst snd].
    rewrite list_lookup_middle by reflexivity.
    specialize (IH (before ++ [a])%list rules).
    rewrite length_app, Nat.add_1_r, <- app_assoc in IH. cbn [app] in IH.
    injection Hlen as Hlen.
    destruct (p r && q (Some a)); cbn [length]; now rewrite IH.
Qed.

Lemma validate_count (ty : RuleType) (custom : list ValidationRule)
    (res : list RuleResult) :
  length res = length (Rules.STATIC_RULES ++ custom)%list ->
  length (List.filter (Rules.counted ty custom) (Rules.enumerate res))
  = length (List.filter
              (fun rr : ValidationRule * RuleResult =>
                 bool_decide (status rr.2 = FAILED) && bool_decide (tipo rr.1 = ty))
              (combine (Rules.STATIC_RULES ++ custom)%list res)).
Proof.
  intros Hlen. unfold Rules.enumerate.
  rewrite (filter_ext (Rules.counted ty custom)
             (fun ir : nat * RuleResult =>
                bool_decide (status ir.2 = FAILED)
                && Rules.tipo_is ty ((Rules.STATIC_RULES ++ custom)%list !! ir.1)))
    by (intros [i r]; apply counted_declared).
  exact (count_by_index (fun r => bool_decide (status r = FAILED))
           (Rules.tipo_is ty) res [] (Rules.STATIC_RULES ++ custom)%list
           (eq_sym Hlen)).
Qed.

Lemma combine_evaluations {A B : Type} (g : A -> B) (l : list A) :
  combine l (map g l) = map (fun a => (a, g a)) l.
Proof. induction l as [| a l IH]; [reflexivity |]. cbn. now rewrite IH. Qed.

Lemma count_second {A B : Type} (p : B -> bool) (l : list (A * B)) :
  length (List.filter p (map snd l))
  = length (List.filter (fun ab : A * B => p ab.2) l).
Proof.
  induction l as [| [a b] l IH]; [reflexivity |].
  cbn [map List.filter snd]. destruct (p b); cbn [length]; now rewrite IH.
Qed.

Lemma count_zero {A : Type} (p : A -> bool) (l : list A) :
  length (List.filter p l) = 0%nat <-> forall x, x ∈ l -> p x = false.
Proof.
  induction l as [| a l IH]; cbn [List.filter].
  - split; [intros _ x Hx; now apply elem_of_nil in Hx | reflexivity].
  - destruct (p a) eqn:Ha; cbn [length].
    + split; [discriminate |]. intros Hall.
      rewrite (Hall a) in Ha by apply list_elem_of_here. discriminate.
    + rewrite IH. split.
      * intros Hall x Hx. apply elem_of_cons in Hx as [-> | Hx]; [exact Ha | now apply Hall].
      * intros Hall x Hx. apply Hall. now apply list_elem_of_further.
Qed.

(** C3.  [validate] evaluates each rule once: the five static rules by
    their routines, then each custom rule on the flattened map.  In its
    result, [blocking_failures] is the number of these rules that failed
    and are declared blocking, [warnings] the number that failed and are
    declared warnings, [passed] the number that passed, whatever their
    severity; and [can_submit] holds exactly when [blocking_failures] is
    zero, that is, when no blocking rule failed. *)
Theorem validate_counts `{PyRepr} (now : Z) (inv : string)
    (xml_data : option XMLInvoiceData) (custom_rules : option (list ValidationRule))
    (flat_data : option (gmap string pyval)) :
  let v := Rules.validate now inv xml_data custom_rules flat_data in
  let custom := default [] custom_rules in
  let evaluated : list (ValidationRule * RuleResult) :=
    (combine Rules.STATIC_RULES
       [ Rules._evaluate_r001 xml_data; Rules._evaluate_r002 xml_data;
         Rules._evaluate_r003 xml_data; Rules._evaluate_r004 xml_data;
         Rules._evaluate_r005 xml_data ]
     ++ map (fun rule =>
               (rule, Rules._evaluate_custom_rule rule (default ∅ flat_data)))
          custom)%list in
  let failed_as (ty : RuleType) (rr : ValidationRule * RuleResult) : bool :=
    bool_decide (status rr.2 = FAILED) && bool_decide (tipo rr.1 = ty) in
  map fst evaluated = (Rules.STATIC_RULES ++ custom)%list
  /\ map snd evaluated = results v
  /\ Forall (fun rr : ValidationRule * RuleResult => rule_id rr.2 = rule_ident rr.1)
       evaluated
  /\ blocking_failures v = length (List.filter (failed_as BLOCKING) evaluated)
  /\ warnings v = length (List.filter (failed_as WARNING) evaluated)
  /\ passed v
     = length (List.filter
                 (fun rr : ValidationRule * RuleResult =>
                    bool_decide (status rr.2 = PASSED)) evaluated)
  /\ (can_submit v = true <-> blocking_failures v = 0%nat)
  /\ (can_submit v = true <->
      forall (rule : ValidationRule) (result : RuleResult),
        (rule, result) ∈ evaluated -> tipo rule = BLOCKING -> status result <> FAILED).
Proof.
  cbv zeta.
  set (custom := default [] custom_rules).
  set (evaluated :=
         (combine Rules.STATIC_RULES
            [ Rules._evaluate_r001 xml_data; Rules._evaluate_r002 xml_data;
              Rules._evaluate_r003 xml_data; Rules._evaluate_r004 xml_data;
              Rules._evaluate_r005 xml_data ]
          ++ map (fun rule =>
                    (rule, Rules._evaluate_custom_rule rule (default ∅ flat_data)))
               custom)%list).
  assert (Hrules : map fst evaluated = (Rules.STATIC_RULES ++ custom)%list).
  { subst evaluated. rewrite map_app, map_map. cbn [fst]. rewrite map_id.
    reflexivity. }
  assert (Hresults :
    map snd evaluated = results (Rules.validate now inv xml_data custom_rules flat_data)).
  { subst evaluated. rewrite map_app, map_map. reflexivity. }
  assert (Hpairs :
    combine (Rules.STATIC_RULES ++ custom)%list
      (results (Rules.validate now inv xml_data custom_rules flat_data))
    = evaluated).
  { subst evaluated. unfold Rules.validate. cbn [results].
    change (Rules.STATIC_RULES ++ default [] custom_rules)%list
      with (Rules.STATIC_RULES ++ custom)%list.
    unfold Rules.STATIC_RULES. cbn [app combine]. do 5 f_equal.
    apply combine_evaluations. }
  assert (Hlen :
    length (results (Rules.validate now inv xml_data custom_rules flat_data))
    = length (Rules.STATIC_RULES ++ custom)%list).
  { rewrite <- Hresults, <- Hrules, !length_map. reflexivity. }
  assert (Hblocking :
    blocking_failures (Rules.validate now inv xml_data custom_rules flat_data)
    = length (List.filter
                (fun rr : ValidationRule * RuleResult =>
                   bool_decide (status rr.2 = FAILED)
                   && bool_decide (tipo rr.1 = BLOCKING)) evaluated)).
  { rewrite <- Hpairs. unfold Rules.validate at 1. cbn [blocking_failures].
    apply (validate_count BLOCKING). exact Hlen. }
  assert (Hsubmit :
    can_submit (Rules.validate now inv xml_data custom_rules flat_data) = true
    <-> blocking_failures (Rules.validate now inv xml_data custom_rules flat_data)
        = 0%nat).
  { unfold Rules.validate. cbn [can_submit blocking_failures]. apply Nat.eqb_eq. }
  split; [exact Hrules |].
  split; [exact Hresults |].
  split.
  { subst evaluated. apply Forall_app. split.
    - destruct (static_rule_ids xml_data) as (H1 & H2 & H3 & H4 & H5).
      cbn [Rules.STATIC_RULES combine].
      repeat (apply Forall_cons; split; [eassumption |]). apply Forall_nil_2.
    - apply Forall_forall. intros rr Hin. apply list_elem_of_fmap in Hin as (rule & -> & _).
      apply custom_rule_id. }
  split; [exact Hblocking |].
  split.
  { rewrite <- Hpairs. unfold Rules.validate at 1. cbn [warnings].
    apply (validate_count WARNING). exact Hlen. }
  split.
  { transitivity
      (length (List.filter (fun r => bool_decide (status r = PASSED))
                 (results (Rules.validate now inv xml_data custom_rules flat_data))));
      [reflexivity |].
    rewrite <- Hresults.
    apply (count_second (fun r => bool_decide (status r = PASSED))). }
  split; [exact Hsubmit |].
  rewrite Hsubmit, Hblocking, count_zero. split.
  - intros Hall rule result Hin Hty Hst.
    specialize (Hall _ Hin). cbn [fst snd] in Hall.
    rewrite !bool_decide_eq_true_2 in Hall by assumption. discriminate.
  - intros Hall [rule result] Hin. cbn [fst snd].
    apply andb_false_iff.
    destruct (decide (status result = FAILED)) as [Hst | Hst];
      [| left; now apply bool_decide_eq_false_2].
    right. apply bool_decide_eq_false_2. intros Hty. exact (Hall _ _ Hin Hty Hst).
Qed.

(** ** Rules engine: dynamic rules *)

Lemma to_number_raises (v : pyval) (e : pyexc) :
  Rules.to_number v = Raise e -> e = ValueError \/ e = TypeError.
Proof.
  destruct v; cbn; try discriminate; try (intros [= <-]; now right).
  unfold float_of_str. destruct (of_string s); cbn; [discriminate |].
  intros [= <-]. now left.
Qed.

Lemma relational_cases (op : string) :
  Rules.string_in op Rules.relational = true ->
  op = ">" \/ op = "<" \/ op = ">=" \/ op = "<=" \/ op = "==" \/ op = "!=".
Proof.
  unfold Rules.string_in, Rules.relational. cbn [existsb].
  rewrite !orb_true_iff, !String.eqb_eq. intuition discriminate.
Qed.

Lemma compare_values_try_returns `{PyRepr} (v1 : pyval) (op : string) (v2 : pyval) :
  exists b, Rules._compare_values_try v1 op v2 = Ok b.
Proof.
  unfold Rules._compare_values_try.
  destruct (Rules.is_none v1); [eexists; reflexivity |].
  destruct (op =? "exists"); [eexists; reflexivity |].
  destruct (op =? "contains"); [eexists; reflexivity |].
  destruct (Rules.string_in op Rules.relational); [| eexists; reflexivity].
  destruct (Rules.to_number v1) as [a | e1] eqn:H1.
  - destruct (Rules.to_number v2) as [b | e2] eqn:H2; [eexists; reflexivity |].
    apply to_number_raises in H2.
    destruct H2 as [-> | ->]; cbn;
      destruct (op =? "=="); try (eexists; reflexivity);
      destruct (op =? "!="); eexists; reflexivity.
  - apply to_number_raises in H1.
    destruct H1 as [-> | ->]; cbn;
      destruct (op =? "=="); try (eexists; reflexivity);
      destruct (op =? "!="); eexists; reflexivity.
Qed.

(** *** Binary64 values

    What rounding, division and the reading of a text return is a
    binary64 value: a mantissa of 53 digits, or of fewer digits at the
    least exponent. *)

Section Binary64.

Local Open Scope Z_scope.

Lemma digits2_pos_size (m : positive) : digits2_pos m = Pos.size m.
Proof. induction m as [m IH | m IH |]; cbn; now rewrite ?IH. Qed.

Lemma Zdigits2_log2 (m : Z) :
  0 < m -> Zdigits2 m = Z.log2 m + 1.
Proof.
  destruct m as [| p | p]; try lia. intros _. cbn [Zdigits2].
  rewrite digits2_pos_size. destruct p; cbn; lia.
Qed.

Lemma Zdigits2_nonneg (m : Z) : 0 <= Zdigits2 m.
Proof. destruct m; cbn; lia. Qed.

Lemma Zdigits2_mono (m n : Z) :
  0 <= m <= n -> Zdigits2 m <= Zdigits2 n.
Proof.
  intros [Hm Hmn]. destruct (Z.eq_dec m 0) as [-> | Hne].
  - apply Zdigits2_nonneg.
  - rewrite !Zdigits2_log2 by lia. pose proof (Z.log2_le_mono m n Hmn). lia.
Qed.

Lemma fexp_mono (a b : Z) :
  a <= b -> fexp prec emax a <= fexp prec emax b.
Proof. unfold fexp. lia. Qed.

Lemma iter_pos_iter {A : Type} (f : A -> A) (p : positive) (x : A) :
  SpecFloat.iter_pos f p x = Pos.iter f x p.
Proof.
  revert x. induction p as [p IH | p IH |]; intros x;
    cbn [SpecFloat.iter_pos Pos.iter].
  - rewrite !IH. now rewrite <- !Pos.iter_swap.
  - now rewrite !IH.
  - reflexivity.
Qed.

Lemma shr_1_m (r : shr_record) :
  0 <= shr_m r -> shr_m (shr_1 r) = Z.div2 (shr_m r).
Proof.
  destruct r as [m r s]. cbn [shr_m]. intros Hm.
  destruct m as [| [p | p |] | p]; try lia; reflexivity.
Qed.

Lemma shr_m_iter (p : positive) (r : shr_record) :
  0 <= shr_m r ->
  0 <= shr_m (SpecFloat.iter_pos shr_1 p r)
  /\ shr_m (SpecFloat.iter_pos shr_1 p r) = Z.shiftr (shr_m r) (Z.pos p).
Proof.
  intros Hm. rewrite iter_pos_iter.
  change (Z.shiftr (shr_m r) (Z.pos p)) with (Pos.iter Z.div2 (shr_m r) p).
  revert r Hm. induction p as [| p IH] using Pos.peano_ind; intros r Hm.
  - cbn [Pos.iter]. rewrite shr_1_m by exact Hm. split; [| reflexivity].
    rewrite Z.div2_div. apply Z.div_pos; lia.
  - rewrite !Pos.iter_succ. destruct (IH r Hm) as [Hnonneg Heq].
    rewrite shr_1_m by exact Hnonneg. rewrite Heq. split; [| reflexivity].
    rewrite Z.div2_div. apply Z.div_pos; lia.
Qed.

(** What [shr_fexp] leaves: a mantissa with the exponent its number of
    digits asks for. *)
Lemma shr_fexp_canonical (m e : Z) (l : location) :
  0 <= m ->
  e <= fexp prec emax (Zdigits2 m + e) ->
  let '(r, e') := shr_fexp prec emax m e l in
  0 <= shr_m r /\ fexp prec emax (Zdigits2 (shr_m r) + e') = e'.
Proof.
  intros Hm He. unfold shr_fexp, shr.
  assert (Hrec : shr_m (shr_record_of_loc m l) = m)
    by (destruct l as [| []]; reflexivity).
  destruct (fexp prec emax (Zdigits2 m + e) - e) as [| n | n] eqn:Hn; try lia.
  - rewrite Hrec. split; [exact Hm | lia].
  - destruct (shr_m_iter n (shr_record_of_loc m l)) as [Hnonneg Heq];
      [now rewrite Hrec |].
    rewrite Hrec in Heq. split; [exact Hnonneg |]. rewrite Heq.
    replace (e + Z.pos n) with (fexp prec emax (Zdigits2 m + e)) by lia.
    destruct (Z.eq_dec (Z.shiftr m (Z.pos n)) 0) as [Hzero | Hpos].
    + rewrite Hzero. cbn [Zdigits2]. rewrite Z.add_0_l.
      assert (Hsmall : Zdigits2 m <= Z.pos n).
      { destruct (Z.eq_dec m 0) as [-> | Hne]; [cbn; lia |].
        rewrite Zdigits2_log2 by lia.
        apply Z.shiftr_eq_0_iff in Hzero as [-> | [_ Hlog]]; lia. }
      unfold fexp, emin, prec, emax in *. lia.
    + assert (Hmpos : 0 < m).
      { destruct (Z.eq_dec m 0) as [-> | Hne]; [| lia].
        rewrite Z.shiftr_0_l in Hpos. lia. }
      assert (Hshift : 0 <= Z.shiftr m (Z.pos n)) by (apply Z.shiftr_nonneg; lia).
      rewrite (Zdigits2_log2 (Z.shiftr m (Z.pos n))) by lia.
      rewrite Z.log2_shiftr by exact Hmpos.
      assert (Hlog : Z.pos n <= Z.log2 m).
      { destruct (Z_lt_le_dec (Z.log2 m) (Z.pos n)) as [Hlt | Hle]; [| exact Hle].
        exfalso. apply Hpos. apply Z.shiftr_eq_0; lia. }
      rewrite Zdigits2_log2 in Hn |- * by exact Hmpos.
      unfold fexp, emin, prec, emax in *. lia.
Qed.

Lemma round_nearest_even_cases (m : Z) (l : location) :
  round_nearest_even m l = m \/ round_nearest_even m l = m + 1.
Proof.
  destruct l as [| []]; cbn; auto. destruct (Z.even m); auto.
Qed.

(** Rounding ends in a binary64 value. *)
Lemma binary_round_aux_valid (s : bool) (m e : Z) (l : location) :
  0 <= m ->
  e <= fexp prec emax (Zdigits2 m + e) ->
  valid_binary prec emax (binary_round_aux prec emax s m e l) = true.
Proof.
  intros Hm He. unfold binary_round_aux.
  pose proof (shr_fexp_canonical m e l Hm He) as H1.
  destruct (shr_fexp prec emax m e l) as [r1 e1]. destruct H1 as [Hr1 He1].
  set (m2 := round_nearest_even (shr_m r1) (loc_of_shr_record r1)).
  assert (Hm2 : shr_m r1 <= m2 <= shr_m r1 + 1)
    by (subst m2;
        destruct (round_nearest_even_cases (shr_m r1) (loc_of_shr_record r1));
        lia).
  assert (H2 : e1 <= fexp prec emax (Zdigits2 m2 + e1)).
  { rewrite <- He1 at 1. apply fexp_mono.
    pose proof (Zdigits2_mono (shr_m r1) m2). lia. }
  pose proof (shr_fexp_canonical m2 e1 loc_Exact ltac:(lia) H2) as H3.
  destruct (shr_fexp prec emax m2 e1 loc_Exact) as [r2 e2]. destruct H3 as [Hr2 He2].
  destruct (shr_m r2) as [| p | p] eqn:Hp; try reflexivity.
  destruct (e2 <=? emax - prec) eqn:Hle; [| reflexivity].
  cbn [valid_binary]. unfold bounded, canonical_mantissa.
  cbn [Zdigits2] in He2. rewrite He2, Z.eqb_refl. exact Hle.
Qed.

Lemma iter_xO (m d : positive) :
  Z.pos (Pos.iter xO m d) = Z.pos m * 2 ^ Z.pos d.
Proof.
  induction d as [| d IH] using Pos.peano_ind.
  - cbn [Pos.iter]. lia.
  - rewrite Pos.iter_succ, Pos2Z.inj_succ, Z.pow_succ_r by lia.
    rewrite Pos2Z.inj_xO, IH. lia.
Qed.

Lemma binary_round_valid (s : bool) (m : positive) (e : Z) :
  valid_binary prec emax (binary_round prec emax s m e) = true.
Proof.
  unfold binary_round, shl_align.
  destruct (fexp prec emax (Z.pos (digits2_pos m) + e) - e) as [| d | d] eqn:Hd.
  - apply binary_round_aux_valid; [lia |]. cbn [Zdigits2]. lia.
  - apply binary_round_aux_valid; [lia |]. cbn [Zdigits2]. lia.
  - apply binary_round_aux_valid; [lia |].
    rewrite Zdigits2_log2 by lia. rewrite iter_xO.
    rewrite <- Z.shiftl_mul_pow2, Z.log2_shiftl by lia.
    change (Z.pos (digits2_pos m)) with (Zdigits2 (Z.pos m)) in Hd |- *.
    rewrite Zdigits2_log2 in Hd |- * by lia.
    apply Z.eq_le_incl.
    replace (Z.log2 (Z.pos m) + Z.pos d + 1
             + fexp prec emax (Z.log2 (Z.pos m) + 1 + e))
      with (Z.log2 (Z.pos m) + 1 + e) by lia.
    reflexivity.
Qed.

(** The quotient handed to the rounding has digits enough. *)
Lemma div_core_exponent (m1 m2 : positive) (e1 e2 : Z) :
  let '(q, e', l) := SFdiv_core_binary prec emax (Z.pos m1) e1 (Z.pos m2) e2 in
  0 <= q /\ e' <= fexp prec emax (Zdigits2 q + e').
Proof.
  unfold SFdiv_core_binary.
  set (d1 := Zdigits2 (Z.pos m1)). set (d2 := Zdigits2 (Z.pos m2)).
  set (e' := Z.min (fexp prec emax (d1 + e1 - (d2 + e2))) (e1 - e2)).
  set (s := e1 - e2 - e').
  set (m' := match s with
             | 0 => Z.pos m1
             | Z.pos _ => Z.shiftl (Z.pos m1) s
             | Z.neg _ => 0
             end).
  assert (Hs : 0 <= s) by (subst s e'; lia).
  assert (Hm' : m' = Z.pos m1 * 2 ^ s).
  { subst m'. destruct s as [| p | p] eqn:Hp; [lia | | lia].
    now rewrite Z.shiftl_mul_pow2 by lia. }
  assert (Hq : fst (Z.div_eucl m' (Z.pos m2)) = m' / Z.pos m2) by reflexivity.
  destruct (Z.div_eucl m' (Z.pos m2)) as [q r]. cbn [fst] in Hq. subst q.
  assert (Hpow : 0 < 2 ^ s) by (apply Z.pow_pos_nonneg; lia).
  assert (Hnonneg : 0 <= m' / Z.pos m2) by (apply Z.div_pos; nia).
  split; [exact Hnonneg |].
  assert (Hdigits : d1 + s - d2 <= Zdigits2 (m' / Z.pos m2)).
  { destruct (Z_le_gt_dec (d1 + s - d2) 0) as [Hle | Hgt].
    - pose proof (Zdigits2_nonneg (m' / Z.pos m2)). lia.
    - assert (Hlow : 2 ^ (d1 + s - d2 - 1) <= m' / Z.pos m2).
      { apply Z.div_le_lower_bound; [lia |].
        assert (H1 : 2 ^ (d1 - 1) <= Z.pos m1).
        { subst d1. rewrite Zdigits2_log2 by lia.
          replace (Z.log2 (Z.pos m1) + 1 - 1) with (Z.log2 (Z.pos m1)) by lia.
          apply Z.log2_spec. lia. }
        assert (H2 : Z.pos m2 < 2 ^ d2).
        { subst d2. rewrite Zdigits2_log2 by lia.
          replace (Z.log2 (Z.pos m2) + 1) with (Z.succ (Z.log2 (Z.pos m2))) by lia.
          apply Z.log2_spec. lia. }
        assert (Hd1 : 1 <= d1)
          by (subst d1; rewrite Zdigits2_log2 by lia;
              pose proof (Z.log2_nonneg (Z.pos m1)); lia).
        assert (Hd2 : 1 <= d2)
          by (subst d2; rewrite Zdigits2_log2 by lia;
              pose proof (Z.log2_nonneg (Z.pos m2)); lia).
        rewrite Hm'.
        assert (Hsplit : 2 ^ (d1 - 1) * 2 ^ s = 2 ^ (d1 + s - d2 - 1) * 2 ^ d2).
        { rewrite <- !Z.pow_add_r by lia. f_equal. lia. }
        assert (Hp1 : 0 < 2 ^ (d1 + s - d2 - 1)) by (apply Z.pow_pos_nonneg; lia).
        nia. }
      assert (Hqpos : 0 < m' / Z.pos m2) by lia.
      rewrite Zdigits2_log2 by exact Hqpos.
      apply Z.log2_le_pow2 in Hlow; lia. }
  transitivity (fexp prec emax (d1 + e1 - (d2 + e2))); [subst e'; lia |].
  apply fexp_mono. subst s. lia.
Qed.

Lemma SFdiv_valid (x y : spec_float) :
  valid_binary prec emax (SFdiv prec emax x y) = true.
Proof.
  destruct x as [sx | sx | | sx mx ex], y as [sy | sy | | sy my ey];
    try reflexivity.
  unfold SFdiv.
  pose proof (div_core_exponent mx my ex ey) as Hcore.
  destruct (SFdiv_core_binary prec emax (Z.pos mx) ex (Z.pos my) ey) as [[q e'] l].
  destruct Hcore as [Hq He]. now apply binary_round_aux_valid.
Qed.

Lemma of_decimal_valid (neg : bool) (m : N) (e10 : Z) :
  valid_binary prec emax (of_decimal neg m e10) = true.
Proof.
  unfold of_decimal. destruct m as [| p]; [reflexivity |].
  destruct (0 <=? e10); [apply binary_round_valid | apply SFdiv_valid].
Qed.

(** [float(s)] is a binary64 value. *)
Lemma float_of_str_valid (s : string) (f : float) :
  float_of_str s = Ok f -> valid_binary prec emax f = true.
Proof.
  unfold float_of_str, of_string.
  destruct (underscores_ok _ _); [| discriminate].
  unfold parse_literal.
  destruct (parse_sign _) as [neg r].
  destruct (parse_number r) as [[m e10] |].
  - intros [= <-]. apply of_decimal_valid.
  - unfold parse_inf_nan. destruct (parse_sign _) as [neg' r'].
    destruct (_ || _); [now intros [= <-] |].
    destruct (_ =? "nan")%string; [now intros [= <-] | discriminate].
Qed.

(** The canonical mantissa of a binary64 value. *)
Lemma bounded_digits (m : positive) (e : Z) :
  bounded prec emax m e = true ->
  Z.pos m < 2 ^ 53 /\ - 1074 <= e /\ (- 1074 < e -> 2 ^ 52 <= Z.pos m).
Proof.
  unfold bounded, canonical_mantissa. intros Hb.
  apply andb_true_iff in Hb as [Hc _]. apply Z.eqb_eq in Hc.
  change (Z.pos (digits2_pos m)) with (Zdigits2 (Z.pos m)) in Hc.
  rewrite Zdigits2_log2 in Hc by lia.
  pose proof (Z.log2_spec (Z.pos m) ltac:(lia)) as [Hlow Hhigh].
  unfold fexp, emin, prec, emax in Hc.
  repeat split.
  - apply Z.lt_le_trans with (1 := Hhigh). apply Z.pow_le_mono_r; lia.
  - lia.
  - intros He. apply Z.le_trans with (2 := Hlow). apply Z.pow_le_mono_r; lia.
Qed.

Lemma compare_cont_Eq (m n : positive) :
  Pos.compare_cont Eq m n = (Z.pos m ?= Z.pos n).
Proof. reflexivity. Qed.

(** On binary64 values, the comparison of floats is the order of the
    numbers they stand for. *)
Lemma SFcompare_order (f g : float) :
  valid_binary prec emax f = true ->
  valid_binary prec emax g = true ->
  SFcompare f g = Wording.order (Wording.number_of_float f) (Wording.number_of_float g).
Proof.
  destruct f as [s | s | | s m e], g as [t | t | | t n k];
    cbn [valid_binary Wording.number_of_float]; intros Hf Hg;
    try reflexivity.
  - cbn [SFcompare Wording.order]. f_equal.
    assert (Hpow : 0 < 2 ^ (k - Z.min 0 k)) by (apply Z.pow_pos_nonneg; lia).
    destruct t; symmetry; [apply Z.compare_gt_iff | apply Z.compare_lt_iff]; nia.
  - cbn [SFcompare Wording.order]. f_equal.
    assert (Hpow : 0 < 2 ^ (e - Z.min e 0)) by (apply Z.pow_pos_nonneg; lia).
    destruct s; symmetry; [apply Z.compare_lt_iff | apply Z.compare_gt_iff]; nia.
  - apply bounded_digits in Hf as (Hm & He & Hnormal_m).
    apply bounded_digits in Hg as (Hn & Hk & Hnormal_n).
    cbn [SFcompare Wording.order]. f_equal.
    assert (Hpe : 0 < 2 ^ (e - Z.min e k)) by (apply Z.pow_pos_nonneg; lia).
    assert (Hpk : 0 < 2 ^ (k - Z.min e k)) by (apply Z.pow_pos_nonneg; lia).
    destruct (Z.compare_spec e k) as [Heq | Hlt | Hgt].
    + subst k. rewrite Z.min_id, Z.sub_diag, Z.pow_0_r, !Z.mul_1_r.
      rewrite compare_cont_Eq.
      destruct s, t; reflexivity.
    + assert (Hk2 : 2 ^ 1 <= 2 ^ (k - e)) by (apply Z.pow_le_mono_r; lia).
      replace (Z.min e k) with e by lia.
      rewrite Z.sub_diag, Z.pow_0_r, Z.mul_1_r.
      specialize (Hnormal_n ltac:(lia)).
      change (2 ^ 1) with 2 in Hk2. change (2 ^ 53) with (2 * 2 ^ 52) in Hm.
      destruct s, t; symmetry;
        first [apply Z.compare_lt_iff | apply Z.compare_gt_iff]; nia.
    + assert (Hk2 : 2 ^ 1 <= 2 ^ (e - k)) by (apply Z.pow_le_mono_r; lia).
      replace (Z.min e k) with k by lia.
      rewrite Z.sub_diag, Z.pow_0_r, Z.mul_1_r.
      specialize (Hnormal_m ltac:(lia)).
      change (2 ^ 1) with 2 in Hk2. change (2 ^ 53) with (2 * 2 ^ 52) in Hn.
      destruct s, t; symmetry;
        first [apply Z.compare_lt_iff | apply Z.compare_gt_iff]; nia.
Qed.

(** An integer and a float compare as the numbers they stand for. *)
Lemma compare_Z_float_order (z : Z) (f : float) :
  Rules.compare_Z_float z f
  = Wording.order (Wording.Dyadic z 0) (Wording.number_of_float f).
Proof.
  destruct f as [s | s | | s m e]; cbn [Rules.compare_Z_float Wording.number_of_float
                                        Wording.order]; try reflexivity.
  - now rewrite Z.min_id, Z.sub_diag, Z.pow_0_r, !Z.mul_1_r.
  - f_equal. destruct (0 <=? e) eqn:He.
    + apply Z.leb_le in He. replace (Z.min 0 e) with 0 by lia.
      now rewrite !Z.sub_0_r, Z.pow_0_r, Z.mul_1_r.
    + apply Z.leb_gt in He. replace (Z.min 0 e) with e by lia.
      now rewrite Z.sub_diag, Z.pow_0_r, Z.mul_1_r.
Qed.

Lemma order_opp (a b : Wording.number) :
  Wording.order b a = CompOpp <$> Wording.order a b.
Proof.
  destruct a as [m e | s |], b as [n k | t |]; cbn; try reflexivity.
  - rewrite Z.min_comm. f_equal. apply Z.compare_antisym.
  - now destruct t.
  - now destruct s.
  - now destruct s, t.
Qed.

End Binary64.

(** The number of a value, as the code takes it. *)
Lemma coerce_to_number (v : pyval) :
  Wording.coerce v
  = match Rules.to_number v with
    | Ok (Rules.NInt z) => Some (Wording.Dyadic z 0)
    | Ok (Rules.NFloat f) => Some (Wording.number_of_float f)
    | Raise _ => None
    end.
Proof.
  destruct v as [| [] | | | s |]; cbn; try reflexivity.
  now destruct (float_of_str s).
Qed.

Lemma to_number_valid (v : pyval) (f : float) :
  Rules.binary64 v = true ->
  Rules.to_number v = Ok (Rules.NFloat f) ->
  valid_binary prec emax f = true.
Proof.
  destruct v as [| [] | | | s |]; cbn; try discriminate.
  - now intros Hv [= <-].
  - intros _. destruct (float_of_str s) as [g |] eqn:Hs; cbn; [| discriminate].
    intros [= <-]. now apply float_of_str_valid in Hs.
Qed.

(** Two numbers of the code compare as the numbers they stand for. *)
Lemma num_compare_order (a b : Rules.pynum) :
  match a with Rules.NFloat f => valid_binary prec emax f = true | _ => True end ->
  match b with Rules.NFloat f => valid_binary prec emax f = true | _ => True end ->
  Rules.num_compare a b
  = Wording.order
      match a with
      | Rules.NInt z => Wording.Dyadic z 0
      | Rules.NFloat f => Wording.number_of_float f
      end
      match b with
      | Rules.NInt z => Wording.Dyadic z 0
      | Rules.NFloat f => Wording.number_of_float f
      end.
Proof.
  destruct a as [x | f], b as [y | g]; cbn [Rules.num_compare]; intros Ha Hb.
  - cbn. now rewrite !Z.mul_1_r.
  - apply compare_Z_float_order.
  - rewrite compare_Z_float_order. symmetry. apply order_opp.
  - now apply SFcompare_order.
Qed.

Lemma compare_numbers_relation (op : string) (c : option comparison) :
  Rules.string_in op Rules.relational = true ->
  (if op =? ">" then Some (Rules.is_cmp c [Gt])
   else if op =? "<" then Some (Rules.is_cmp c [Lt])
   else if op =? ">=" then Some (Rules.is_cmp c [Gt; Eq])
   else if op =? "<=" then Some (Rules.is_cmp c [Lt; Eq])
   else if op =? "==" then Some (Rules.is_cmp c [Eq])
   else if op =? "!=" then Some (negb (Rules.is_cmp c [Eq]))
   else None)
  = Some (Wording.relation_holds op c).
Proof.
  intros Hop. apply relational_cases in Hop.
  destruct Hop as [-> | [-> | [-> | [-> | [-> | ->]]]]];
    destruct c as [[] |]; vm_compute; reflexivity.
Qed.

(** On a field value that is not null, the body of [_compare_values]
    returns what the specification's wording of the operators gives. *)
Lemma compare_values_try_wording `{PyRepr} (v1 : pyval) (op : string) (v2 : pyval) :
  Rules.is_none v1 = false ->
  Rules.binary64 v1 = true ->
  Rules.binary64 v2 = true ->
  Rules._compare_values_try v1 op v2 = Ok (Wording.operator_holds v1 op v2).
Proof.
  intros Hnone Hv1 Hv2. unfold Rules._compare_values_try, Wording.operator_holds.
  rewrite Hnone. cbn [negb andb].
  change (Wording.text v1) with (Rules.py_str v1).
  change (Wording.text v2) with (Rules.py_str v2).
  destruct (op =? "exists") eqn:He; [reflexivity |].
  destruct (op =? "contains") eqn:Hc; [reflexivity |].
  change (existsb (String.eqb op) [">"; "<"; ">="; "<="; "=="; "!="])
    with (Rules.string_in op Rules.relational).
  destruct (Rules.string_in op Rules.relational) eqn:Hr; [| reflexivity].
  rewrite !coerce_to_number.
  destruct (Rules.to_number v1) as [a | e1] eqn:H1.
  - destruct (Rules.to_number v2) as [b | e2] eqn:H2.
    + cbn [rbind except_value_type]. unfold Rules.compare_numbers.
      rewrite (compare_numbers_relation op _ Hr). cbn [default from_option id].
      rewrite num_compare_order.
      * destruct a, b; reflexivity.
      * destruct a as [| f]; [exact I |]. exact (to_number_valid v1 f Hv1 H1).
      * destruct b as [| g]; [exact I |]. exact (to_number_valid v2 g Hv2 H2).
    + apply to_number_raises in H2. apply relational_cases in Hr.
      destruct H2 as [-> | ->];
        destruct Hr as [-> | [-> | [-> | [-> | [-> | ->]]]]];
        destruct a; reflexivity.
  - apply to_number_raises in H1. apply relational_cases in Hr.
    destruct H1 as [-> | ->];
      destruct Hr as [-> | [-> | [-> | [-> | [-> | ->]]]]]; reflexivity.
Qed.

(** C7.  A dynamic rule with no condition is skipped; one whose field
    is absent from the flattened map, or null there, is skipped;
    otherwise the rule passes or fails as its operator decides:
    [exists] asks for a text that is not empty once trimmed, [contains]
    for the value inside the field, both in lower case, and the six
    relational operators compare the two operands as numbers when both
    coerce, or else compare their texts for [==] and [!=] and fail for
    the other four.  The floats at hand are binary64 values, as every
    float of a program is.  The comparison raises nothing, whatever
    its operands. *)
Theorem custom_rule_resolves `{PyRepr} (rule : ValidationRule)
    (data : gmap string pyval) :
  map_Forall (fun _ v => Rules.binary64 v = true) data ->
  (forall c, condicion rule = Some c -> Rules.binary64 (valor c) = true) ->
  status (Rules._evaluate_custom_rule rule data)
  = match condicion rule with
    | None => SKIPPED
    | Some c =>
        match data !! campo c with
        | None | Some VNone => SKIPPED
        | Some field =>
            if Wording.operator_holds field (operador c) (valor c)
            then PASSED else FAILED
        end
    end
  /\ forall (v1 : pyval) (op : string) (v2 : pyval),
       exists b, Rules._compare_values_try v1 op v2 = Ok b.
Proof.
  intros Hdata Hvalue.
  split; [| intros; apply compare_values_try_returns].
  unfold Rules._evaluate_custom_rule.
  destruct (condicion rule) as [c |]; [| reflexivity].
  specialize (Hvalue c eq_refl).
  destruct (data !! campo c) as [field |] eqn:Hfield; [| reflexivity].
  apply Hdata in Hfield.
  destruct field; try reflexivity;
    unfold Rules._compare_values;
    rewrite compare_values_try_wording by (reflexivity || assumption);
    now destruct (Wording.operator_holds _ _ _).
Qed.

Lemma custom_rule_resolves_witness :
  map_Forall (fun _ v => Rules.binary64 v = true) Examples.amount_data
  /\ Wording.coerce (VStr "119000.50")
     = Some (Wording.Dyadic 8177652091322368 (-36))
  /\ status (@Rules._evaluate_custom_rule Samples.repr_whole
               (Examples.amount_rule ">=" (VInt 119000)) Examples.amount_data)
     = PASSED
  /\ status (@Rules._evaluate_custom_rule Samples.repr_whole
               (Examples.amount_rule "<" (VFloat (of_decimal false 1190005 (-1))))
               Examples.amount_data)
     = FAILED.
Proof.
  assert (Hdata : map_Forall (fun _ v => Rules.binary64 v = true)
                    Examples.amount_data).
  { unfold Examples.amount_data.
    apply map_Forall_insert_2; [reflexivity |].
    now apply map_Forall_singleton. }
  assert (Hno_float : forall c,
            condicion (Examples.amount_rule ">=" (VInt 119000)) = Some c ->
            Rules.binary64 (valor c) = true)
    by (now intros c [= <-]).
  assert (Hfloat : forall c,
            condicion (Examples.amount_rule "<"
                         (VFloat (of_decimal false 1190005 (-1)))) = Some c ->
            Rules.binary64 (valor c) = true)
    by (intros c [= <-]; vm_compute; reflexivity).
  pose proof (@custom_rule_resolves Samples.repr_whole
                (Examples.amount_rule ">=" (VInt 119000)) Examples.amount_data
                Hdata Hno_float) as [Hpassed _].
  pose proof (@custom_rule_resolves Samples.repr_whole
                (Examples.amount_rule "<" (VFloat (of_decimal false 1190005 (-1))))
                Examples.amount_data Hdata Hfloat) as [Hfailed _].
  split; [exact Hdata |].
  split; [vm_compute; reflexivity |].
  split; [exact Hpassed | exact Hfailed].
Defined.

(** ** XML parser *)

(** [parse_dian_xml] is the tree reader applied to the parse of the
    unwrapped text. *)
Lemma parse_dian_xml_root `{XmlLib} (today : date) (content : string)
    (path : option string) :
  Xml.parse_dian_xml today content path
  = match et_fromstring (Xml.unwrap content).1 with
    | Some root => Xml.parse_root today path (Xml.unwrap content).2 root
    | None => Raise ParseError
    end.
Proof.
  unfold Xml.parse_dian_xml. now destruct (Xml.unwrap content) as [inner refs].
Qed.

(** The fields of a parsed invoice that the claims speak of. *)
Lemma parse_root_fields `{XmlLib} (today : date) (path : option string)
    (refs : list AttachmentReference) (root : element) (d : XMLInvoiceData) :
  Xml.parse_root today path refs root = Ok d ->
  taxes d = Xml.kept_taxes root (Xml.cac "TaxTotal")
  /\ withholding_taxes d = Xml.kept_taxes root (Xml.cac "WithholdingTaxTotal")
  /\ total_iva d = fsum (map tax_amount (List.filter Rules.is_iva (taxes d)))
  /\ total_retenciones d = fsum (map tax_amount (withholding_taxes d))
  /\ issue_date d
     = default today (Xml._parse_date (Xml._find_text root (Xml.cbc "IssueDate") "")).
Proof.
  unfold Xml.parse_root.
  destruct (fold_left _ _ _) as [total_discount total_charges].
  destruct (rmap _ _) as [lines | e]; cbn [rbind]; [| discriminate].
  destruct (match Xml.find root (Xml.cac "OrderReference") with
            | Some _ => _ | None => _ end) as [oref arefs].
  destruct (Xml.int_or _ _) as [n | e]; cbn [rbind]; [| discriminate].
  intros [= <-]. cbn. repeat split; reflexivity.
Qed.

(** C4.  In every parsed invoice, [total_iva] is the sum of the amounts
    of the kept output taxes with scheme 01, and [total_retenciones]
    the sum of the amounts of all kept withholding taxes. *)
Theorem derived_totals `{XmlLib} (today : date) (content : string)
    (path : option string) (d : XMLInvoiceData) :
  Xml.parse_dian_xml today content path = Ok d ->
  total_iva d = fsum (map tax_amount (List.filter Rules.is_iva (taxes d)))
  /\ total_retenciones d = fsum (map tax_amount (withholding_taxes d)).
Proof.
  intros Hparse. rewrite parse_dian_xml_root in Hparse.
  destruct (et_fromstring _) as [root |]; [| discriminate].
  apply parse_root_fields in Hparse. tauto.
Qed.

Lemma derived_totals_witness :
  exists d : XMLInvoiceData,
    @Xml.parse_dian_xml Examples.lib Examples.day1
      (Examples.text Examples.undated) None = Ok d
    /\ map tax_scheme_id (taxes d) = ["01"; "03"]
    /\ total_iva d = of_decimal false 19000 0
    /\ total_retenciones d = of_decimal false 3460 0
    /\ total_iva d = fsum (map tax_amount (List.filter Rules.is_iva (taxes d)))
    /\ total_retenciones d = fsum (map tax_amount (withholding_taxes d)).
Proof.
  destruct (@Xml.parse_dian_xml Examples.lib Examples.day1
              (Examples.text Examples.undated) None) as [d | e] eqn:Hparse;
    [| vm_compute in Hparse; discriminate].
  exists d.
  pose proof (@derived_totals Examples.lib Examples.day1
                (Examples.text Examples.undated) None d Hparse) as Htotals.
  vm_compute in Hparse. injection Hparse as <-.
  split; [reflexivity |].
  split; [reflexivity |].
  split; [vm_compute; reflexivity |].
  split; [vm_compute; reflexivity |].
  exact Htotals.
Defined.

Lemma scheme_name_lookup (k : string) :
  default ("Tax-" ++ k) (Xml.TAX_SCHEME_NAMES !! k)
  = if k =? "01" then "IVA"
    else if k =? "04" then "INC"
    else if k =? "05" then "ReteIVA"
    else if k =? "06" then "ReteRenta"
    else if k =? "07" then "ReteICA"
    else if k =? "ZZ" then "Otros"
    else "Tax-" ++ k.
Proof.
  unfold Xml.TAX_SCHEME_NAMES.
  rewrite !list_to_map_cons, list_to_map_nil.
  repeat (rewrite lookup_insert;
          match goal with
          | |- context [decide (?a = k)] =>
              destruct (decide (a = k)) as [<- | Hne];
              [reflexivity |
               apply not_eq_sym, String.eqb_neq in Hne; rewrite Hne; clear Hne]
          end).
  now rewrite lookup_empty.
Qed.

(** C6, as the code has it.  A tax entry is named IVA, INC, ReteIVA,
    ReteRenta, ReteICA or Otros when its scheme ID is 01, 04, 05, 06,
    07 or ZZ, and [Tax-] followed by the scheme ID otherwise; a parsed
    invoice keeps, in document order, exactly the entries whose scheme
    ID is not empty. *)
Theorem tax_scheme_resolution `{XmlLib} :
  (forall tax_element : element,
     let tax := Xml._parse_tax tax_element in
     let k := tax_scheme_id tax in
     tax_name tax
     = if k =? "01" then "IVA"
       else if k =? "04" then "INC"
       else if k =? "05" then "ReteIVA"
       else if k =? "06" then "ReteRenta"
       else if k =? "07" then "ReteICA"
       else if k =? "ZZ" then "Otros"
       else "Tax-" ++ k)
  /\ (forall (today : date) (content : string) (path : option string)
        (d : XMLInvoiceData),
        Xml.parse_dian_xml today content path = Ok d ->
        exists root : element,
          et_fromstring (Xml.unwrap content).1 = Some root
          /\ taxes d
          = List.filter (fun tax => PyStr.truthy (tax_scheme_id tax))
              (map Xml._parse_tax (Xml.findall root (Xml.cac "TaxTotal")))
          /\ withholding_taxes d
             = List.filter (fun tax => PyStr.truthy (tax_scheme_id tax))
                 (map Xml._parse_tax
                    (Xml.findall root (Xml.cac "WithholdingTaxTotal")))).
Proof.
  split.
  - intros tax_element. cbv zeta. unfold Xml._parse_tax.
    destruct (Xml.find (default tax_element _) (Xml.cac "TaxCategory"))
      as [category |]; cbn [tax_name tax_scheme_id].
    + apply scheme_name_lookup.
    + reflexivity.
  - intros today content path d Hparse. rewrite parse_dian_xml_root in Hparse.
    destruct (et_fromstring _) as [root |]; [| discriminate].
    exists root. apply parse_root_fields in Hparse.
    destruct Hparse as (-> & -> & _). repeat split; reflexivity.
Qed.

Lemma tax_scheme_resolution_witness :
  exists (d : XMLInvoiceData) (root : element),
    @Xml.parse_dian_xml Examples.lib Examples.day1
      (Examples.text Examples.undated) None = Ok d
    /\ map tax_scheme_id (taxes d) = ["01"; "03"]
    /\ map tax_scheme_id (withholding_taxes d) = ["06"; "07"]
    /\ taxes d
       = List.filter (fun tax => PyStr.truthy (tax_scheme_id tax))
           (map Xml._parse_tax (Xml.findall root (Xml.cac "TaxTotal")))
    /\ withholding_taxes d
       = List.filter (fun tax => PyStr.truthy (tax_scheme_id tax))
           (map Xml._parse_tax (Xml.findall root (Xml.cac "WithholdingTaxTotal"))).
Proof.
  destruct (@Xml.parse_dian_xml Examples.lib Examples.day1
              (Examples.text Examples.undated) None) as [d | e] eqn:Hparse;
    [| vm_compute in Hparse; discriminate].
  destruct (proj2 (@tax_scheme_resolution Examples.lib) Examples.day1
              (Examples.text Examples.undated) None d Hparse)
    as (root & _ & Htaxes & Hwithholding).
  exists d, root.
  vm_compute in Hparse. injection Hparse as Hd.
  split; [reflexivity |].
  split; [rewrite <- Hd; reflexivity |].
  split; [rewrite <- Hd; reflexivity |].
  split; [exact Htaxes | exact Hwithholding].
Defined.

(** C6 as stated fails: scheme ID 03 is not in the table, the
    specification's registry would name it Otros, and the code names
    the entry Tax-03 and keeps it, while it drops the entry with no
    scheme ID. *)
Lemma unknown_scheme_named_by_id :
  Wording.registry_name "03" = "Otros"
  /\ tax_name (Xml._parse_tax
                 (Examples.tree (Examples.tax_total "TaxTotal" "03" "8.00" "800.00")))
     = "Tax-03"
  /\ length (Xml.findall (Examples.tree Examples.undated) (Xml.cac "TaxTotal")) = 3%nat
  /\ exists d : XMLInvoiceData,
       @Xml.parse_dian_xml Examples.lib Examples.day1
         (Examples.text Examples.undated) None = Ok d
       /\ map tax_name (taxes d) = ["IVA"; "Tax-03"].
Proof.
  split; [reflexivity |].
  split; [vm_compute; reflexivity |].
  split; [vm_compute; reflexivity |].
  eexists. split; [vm_compute; reflexivity | reflexivity].
Qed.

(** C8, as the code has it.  Two runs of [parse_dian_xml] on the same
    bytes, on the days [day1] and [day2], end alike: both raise the
    same error, or both return an invoice, and the two invoices are
    equal in every field but [issue_date].  When the text of the
    document's [cbc:IssueDate] parses as a date, both invoices carry
    that date and are equal; otherwise each invoice is dated by the day
    of its run, so that the two are equal when both runs fall on the
    same day. *)
Theorem parse_twice `{XmlLib} (day1 day2 : date) (content : string)
    (path : option string) :
  match Xml.parse_dian_xml day1 content path,
        Xml.parse_dian_xml day2 content path with
  | Ok a, Ok b =>
      exists root : element,
        et_fromstring (Xml.unwrap content).1 = Some root
        /\ b = Xml.with_issue_date a (issue_date b)
        /\ match Xml._parse_date (Xml._find_text root (Xml.cbc "IssueDate") "") with
           | Some issued => issue_date a = issued /\ issue_date b = issued /\ a = b
           | None =>
               issue_date a = day1 /\ issue_date b = day2 /\ (day1 = day2 -> a = b)
           end
  | Raise e1, Raise e2 => e1 = e2
  | _, _ => False
  end.
Proof.
  rewrite !parse_dian_xml_root.
  destruct (et_fromstring _) as [root |]; [| reflexivity].
  unfold Xml.parse_root.
  destruct (fold_left _ _ _) as [total_discount total_charges].
  destruct (rmap _ _) as [lines | e]; cbn [rbind]; [| reflexivity].
  destruct (match Xml.find root (Xml.cac "OrderReference") with
            | Some _ => _ | None => _ end) as [oref arefs].
  destruct (Xml.int_or _ _) as [n | e]; cbn [rbind]; [| reflexivity].
  exists root. split; [reflexivity |].
  split; [reflexivity |].
  cbn [issue_date].
  destruct (Xml._parse_date _) as [issued |]; cbn [default from_option id].
  - repeat split; reflexivity.
  - repeat split; try reflexivity. now intros ->.
Qed.

(** C8 as stated fails: the invoice with no [cbc:IssueDate], parsed on
    1 March 2026 and again on 2 March 2026, gives two invoices with
    different issue dates. *)
Lemma undated_invoice_two_days :
  exists a b : XMLInvoiceData,
    @Xml.parse_dian_xml Examples.lib Examples.day1
      (Examples.text Examples.undated) None = Ok a
    /\ @Xml.parse_dian_xml Examples.lib Examples.day2
         (Examples.text Examples.undated) None = Ok b
    /\ issue_date a = {| year := 2026; month := 3; day := 1 |}
    /\ issue_date b = {| year := 2026; month := 3; day := 2 |}.
Proof.
  do 2 eexists.
  split; [vm_compute; reflexivity |].
  split; [vm_compute; reflexivity |].
  split; reflexivity.
Qed.

(** A dated invoice parses to the same value on both days. *)
Lemma dated_invoice_two_days :
  exists a : XMLInvoiceData,
    @Xml.parse_dian_xml Examples.lib Examples.day1
      (Examples.text Examples.dated) None = Ok a
    /\ @Xml.parse_dian_xml Examples.lib Examples.day2
         (Examples.text Examples.dated) None = Ok a
    /\ issue_date a = {| year := 2024; month := 5; day := 17 |}.
Proof.
  eexists.
  split; [vm_compute; reflexivity |].
  split; [vm_compute; reflexivity |].
  reflexivity.
Qed.

(** * Further properties of the code *)

(** ** Floats, continued *)

Lemma pos_compare_cont_refl (m : positive) : Pos.compare_cont Eq m m = Eq.
Proof. exact (Pos.compare_refl m). Qed.

Lemma feqb_refl (x : float) : x <> S754_nan -> feqb x x = true.
Proof.
  destruct x as [s | s | | s m e]; intros Hnan; cbn.
  - reflexivity.
  - now destruct s.
  - now contradict Hnan.
  - unfold feqb, SFeqb, SFcompare.
    destruct s; rewrite Z.compare_refl, pos_compare_cont_refl; reflexivity.
Qed.

Lemma fleb_trans (a b c : float) :
  fleb a b = true -> fleb b c = true -> fleb a c = true.
Proof.
  unfold fleb, SFleb, SFcompare.
  destruct a as [sa | sa | | sa ma ea], b as [sb | sb | | sb mb eb],
    c as [sc | sc | | sc mc ec];
    try destruct sa; try destruct sb; try destruct sc;
    try reflexivity; try discriminate.
  all: change (Pos.compare_cont Eq) with Pos.compare.
  all: destruct (Z.compare_spec ea eb), (Z.compare_spec eb ec),
         (Z.compare_spec ea ec); subst;
       try reflexivity; try discriminate; try lia.
  all: destruct (Pos.compare_spec ma mb), (Pos.compare_spec mb mc),
         (Pos.compare_spec ma mc); subst;
       cbn; try reflexivity; try discriminate; try lia.
Qed.

(** ** Reconciliation comparator, continued *)

Lemma prefix_refl (s : string) : String.prefix s s = true.
Proof.
  induction s as [| c s IH]; [reflexivity |].
  cbn. now destruct (ascii_dec c c).
Qed.

Lemma contains_refl (s : string) : PyStr.contains s s = true.
Proof.
  destruct s as [| c s]; [reflexivity |].
  change (PyStr.contains (String c s) (String c s))
    with (String.prefix (String c s) (String c s)
          || PyStr.contains (String c s) s).
  now rewrite prefix_refl.
Qed.

Lemma parse_colombian_number_raises (value : string) (e : pyexc) :
  Comparator._parse_colombian_number value = Raise e -> e = ValueError.
Proof.
  unfold Comparator._parse_colombian_number, float_of_str.
  destruct (of_string _); [discriminate | now intros [= <-]].
Qed.

(** X1.  [_compare_values] of [main.py] returns a triple on every
    pair of values, comparison type and tolerance: no exception leaves
    it, and the division by [abs(xml_num)] is never a division by
    zero. *)
Theorem comparator_never_raises (xml_val oc_val : option string)
    (compare_type : string) (tolerance : float) :
  exists (matched : bool) (match_type : string) (notes : option Comparator.note),
    Comparator._compare_values xml_val oc_val compare_type tolerance
    = Ok (matched, match_type, notes).
Proof.
  destruct (compare_values_returns xml_val oc_val compare_type tolerance)
    as [[[m t] n] H].
  now exists m, t, n.
Qed.

(** X2.  With both values present, the comparison types [exact] and
    [contains] are symmetric: exchanging the XML-side and the OCR-side
    value changes neither [match] nor the match type. *)
Theorem text_comparison_symmetric (a b : string) (tolerance : float) :
  (forall r,
     Comparator._compare_values (Some a) (Some b) "exact" tolerance = Ok r ->
     exists r',
       Comparator._compare_values (Some b) (Some a) "exact" tolerance = Ok r'
       /\ r'.1 = r.1)
  /\ (forall r,
        Comparator._compare_values (Some a) (Some b) "contains" tolerance = Ok r ->
        exists r',
          Comparator._compare_values (Some b) (Some a) "contains" tolerance = Ok r'
          /\ r'.1 = r.1).
Proof.
  unfold Comparator._compare_values.
  change ("exact" =? "exact") with true.
  change ("contains" =? "exact") with false.
  change ("contains" =? "contains") with true.
  cbv iota.
  set (x := PyStr.lower (PyStr.strip a)). set (y := PyStr.lower (PyStr.strip b)).
  rewrite (String.eqb_sym y x).
  rewrite (orb_comm (PyStr.contains y x) (PyStr.contains x y)).
  split; intros r.
  - destruct (x =? y); [intros [= <-]; eexists; split; reflexivity |].
    destruct (PyStr.contains x y || PyStr.contains y x);
      intros [= <-]; eexists; split; reflexivity.
  - destruct (PyStr.contains x y || PyStr.contains y x);
      [intros [= <-]; eexists; split; reflexivity |].
    rewrite (Nat.min_comm (size (Comparator.word_set y))).
    replace (Comparator.word_set y ∩ Comparator.word_set x)
      with (Comparator.word_set x ∩ Comparator.word_set y)
      by apply (comm_L (∩)).
    destruct (_ <=? _)%nat; intros [= <-]; eexists; split; reflexivity.
Qed.

(** The comparison of a text with itself. *)
Lemma same_text_comparison (v : string) (tolerance : float) :
  Comparator._compare_values (Some v) (Some v) "exact" tolerance
  = Ok (true, "exact", None)
  /\ Comparator._compare_values (Some v) (Some v) "contains" tolerance
     = Ok (true, "exact", None)
  /\ (Comparator._compare_values (Some v) (Some v) "numeric" tolerance
      = Ok (true, "exact", None)
      \/ (Comparator._parse_colombian_number v = Ok S754_nan
          /\ Comparator._compare_values (Some v) (Some v) "numeric" tolerance
             = Ok (false, "mismatch",
                   Some (Comparator.Amounts S754_nan S754_nan)))).
Proof.
  unfold Comparator._compare_values.
  change ("exact" =? "exact") with true.
  change ("contains" =? "exact") with false.
  change ("contains" =? "contains") with true.
  change ("numeric" =? "exact") with false.
  change ("numeric" =? "contains") with false.
  change ("numeric" =? "numeric") with true.
  cbv iota.
  rewrite String.eqb_refl, contains_refl. cbn [orb].
  repeat split.
  destruct (Comparator._parse_colombian_number v) as [x | e] eqn:Hparse.
  - cbn [rbind].
    destruct x as [s | s | | s m e];
      try (left; rewrite feqb_refl by discriminate; reflexivity).
    right. split; reflexivity.
  - left. apply parse_colombian_number_raises in Hparse as ->. reflexivity.
Qed.

(** X3.  A value compared with itself matches with type [exact] under
    each of the three comparison types, with one exception: a text the
    Colombian-number parser reads as NaN does not match itself in the
    numeric comparison. *)
Theorem comparison_with_itself (v : string) (tolerance : float) :
  Comparator._compare_values (Some v) (Some v) "exact" tolerance
  = Ok (true, "exact", None)
  /\ Comparator._compare_values (Some v) (Some v) "contains" tolerance
     = Ok (true, "exact", None)
  /\ (Comparator._compare_values (Some v) (Some v) "numeric" tolerance
      = Ok (true, "exact", None)
      \/ (Comparator._parse_colombian_number v = Ok S754_nan
          /\ Comparator._compare_values (Some v) (Some v) "numeric" tolerance
             = Ok (false, "mismatch",
                   Some (Comparator.Amounts S754_nan S754_nan)))).
Proof. apply same_text_comparison. Qed.

(** NaN is reached: the text [nan] does not match itself numerically. *)
Lemma nan_text_mismatch :
  Comparator._compare_values (Some "nan") (Some "nan") "numeric"
    (of_decimal false 5 (-2))
  = Ok (false, "mismatch", Some (Comparator.Amounts S754_nan S754_nan)).
Proof. vm_compute. reflexivity. Qed.

(** X4.  A match survives a wider tolerance: when a comparison matches
    under [t1] and [t1 <= t2], it gives the same result under [t2]. *)
Theorem wider_tolerance_keeps_match (xml_val oc_val : option string)
    (compare_type match_type : string) (notes : option Comparator.note)
    (t1 t2 : float) :
  fleb t1 t2 = true ->
  Comparator._compare_values xml_val oc_val compare_type t1
  = Ok (true, match_type, notes) ->
  Comparator._compare_values xml_val oc_val compare_type t2
  = Ok (true, match_type, notes).
Proof.
  intros Hle. unfold Comparator._compare_values.
  destruct xml_val as [x |], oc_val as [o |]; try (intros H; exact H).
  destruct (compare_type =? "exact"); [intros H; exact H |].
  destruct (compare_type =? "contains"); [intros H; exact H |].
  destruct (compare_type =? "numeric"); [| intros H; exact H].
  destruct (Comparator._parse_colombian_number x) as [xn | ex];
    [| intros H; exact H].
  destruct (Comparator._parse_colombian_number o) as [on | eo];
    [| intros H; exact H].
  cbn [rbind].
  destruct (feqb xn on); [intros H; exact H |].
  destruct (fneb xn zero); [| intros H; exact H].
  destruct (truediv (fabs (fsub xn on)) (fabs xn)) as [d | ed];
    [| intros H; exact H].
  cbn [rbind].
  destruct (fleb d t1) eqn:Hd1; cbn [except_value_type]; [| discriminate].
  now rewrite (fleb_trans d t1 t2 Hd1 Hle).
Qed.

Lemma wider_tolerance_keeps_match_witness :
  fleb (of_decimal false 5 (-2)) (of_decimal false 1 (-1)) = true
  /\ Comparator._compare_values (Some "100.000") (Some "$ 104.000 COP") "numeric"
       (of_decimal false 5 (-2))
     = Ok (true, "numeric_close", Some (Comparator.DiffPct (of_decimal false 4 (-2))))
  /\ Comparator._compare_values (Some "100.000") (Some "$ 104.000 COP") "numeric"
       (of_decimal false 1 (-1))
     = Ok (true, "numeric_close", Some (Comparator.DiffPct (of_decimal false 4 (-2)))).
Proof.
  assert (Hle : fleb (of_decimal false 5 (-2)) (of_decimal false 1 (-1)) = true)
    by (vm_compute; reflexivity).
  assert (H1 : Comparator._compare_values (Some "100.000") (Some "$ 104.000 COP")
                 "numeric" (of_decimal false 5 (-2))
               = Ok (true, "numeric_close",
                     Some (Comparator.DiffPct (of_decimal false 4 (-2)))))
    by (vm_compute; reflexivity).
  exact (conj Hle (conj H1
    (wider_tolerance_keeps_match (Some "100.000") (Some "$ 104.000 COP") "numeric"
       "numeric_close" (Some (Comparator.DiffPct (of_decimal false 4 (-2))))
       (of_decimal false 5 (-2)) (of_decimal false 1 (-1)) Hle H1))).
Defined.

(** X5.  When the Colombian-number parser rejects either value, the
    numeric comparison is the comparison of the two texts, trimmed and
    in lower case: equal texts match with type [exact], others are a
    mismatch. *)
Theorem numeric_falls_back_to_text (xml_val oc_val : string) (tolerance : float)
    (e : pyexc) :
  Comparator._parse_colombian_number xml_val = Raise e
  \/ Comparator._parse_colombian_number oc_val = Raise e ->
  Comparator._compare_values (Some xml_val) (Some oc_val) "numeric" tolerance
  = Ok (if PyStr.lower (PyStr.strip xml_val) =? PyStr.lower (PyStr.strip oc_val)
        then (true, "exact", None)
        else (false, "mismatch", Some Comparator.NotNumeric)).
Proof.
  intros Hraise. unfold Comparator._compare_values.
  change ("numeric" =? "exact") with false.
  change ("numeric" =? "contains") with false.
  change ("numeric" =? "numeric") with true.
  cbv iota.
  destruct Hraise as [Hx | Ho].
  - rewrite Hx. apply parse_colombian_number_raises in Hx as ->.
    cbn [rbind except_value_type]. now destruct (_ =? _).
  - rewrite Ho. apply parse_colombian_number_raises in Ho as ->.
    destruct (Comparator._parse_colombian_number xml_val) as [xn | ex] eqn:Hx.
    + cbn [rbind except_value_type]. now destruct (_ =? _).
    + apply parse_colombian_number_raises in Hx as ->.
      cbn [rbind except_value_type]. now destruct (_ =? _).
Qed.

Lemma numeric_falls_back_to_text_witness :
  (Comparator._parse_colombian_number "N/A" = Raise ValueError
   \/ Comparator._parse_colombian_number " n/a" = Raise ValueError)
  /\ Comparator._compare_values (Some "N/A") (Some " n/a") "numeric"
       (of_decimal false 5 (-2))
     = Ok (true, "exact", None).
Proof.
  assert (H : Comparator._parse_colombian_number "N/A" = Raise ValueError
              \/ Comparator._parse_colombian_number " n/a" = Raise ValueError)
    by (left; vm_compute; reflexivity).
  exact (conj H
    (numeric_falls_back_to_text "N/A" " n/a" (of_decimal false 5 (-2)) ValueError H)).
Defined.

(** ** Strings made of digits *)

Lemma all_chars_app (p : ascii -> bool) (a b : string) :
  PyStr.all_chars p (a ++ b) = PyStr.all_chars p a && PyStr.all_chars p b.
Proof.
  induction a as [| c a IH]; [reflexivity |].
  change (String c a ++ b) with (String c (a ++ b)).
  cbn [PyStr.all_chars]. now rewrite IH, andb_assoc.
Qed.

Lemma all_chars_impl (p q : ascii -> bool) (s : string) :
  (forall c, p c = true -> q c = true) ->
  PyStr.all_chars p s = true -> PyStr.all_chars q s = true.
Proof.
  intros Hpq. induction s as [| c s IH]; [reflexivity |].
  cbn [PyStr.all_chars]. rewrite !andb_true_iff. intros [Hc Hs]. split; auto.
Qed.

Lemma digit_is_not (x c : ascii) :
  is_digit x = false -> is_digit c = true -> negb (Ascii.eqb x c) = true.
Proof.
  intros Hx Hc. destruct (Ascii.eqb_spec x c) as [-> |]; [congruence | reflexivity].
Qed.

Lemma digit_not_space (c : ascii) : is_digit c = true -> PyStr.isspace c = false.
Proof.
  destruct c as [[] [] [] [] [] [] [] []]; vm_compute; congruence.
Qed.

Lemma prefix_head_ne (c0 c : ascii) (rest r : string) :
  negb (Ascii.eqb c0 c) = true ->
  String.prefix (String c0 rest) (String c r) = false.
Proof.
  intros H. cbn. destruct (ascii_dec c0 c) as [-> |]; [| reflexivity].
  now rewrite Ascii.eqb_refl in H.
Qed.

(** A text in which the first character of [old] does not occur holds
    no occurrence of [old]. *)
Lemma replace_absent (c0 : ascii) (rest new s : string) :
  PyStr.all_chars (fun c => negb (Ascii.eqb c0 c)) s = true ->
  PyStr.replace (String c0 rest) new s = s.
Proof.
  unfold PyStr.replace. induction s as [| c s IH]; [reflexivity |].
  cbn [PyStr.all_chars PyStr.replace_from]. rewrite andb_true_iff. intros [Hc Hs].
  rewrite prefix_head_ne by exact Hc. now rewrite IH.
Qed.

Lemma contains_absent (c0 : ascii) (rest s : string) :
  PyStr.all_chars (fun c => negb (Ascii.eqb c0 c)) s = true ->
  PyStr.contains (String c0 rest) s = false.
Proof.
  induction s as [| c s IH]; [reflexivity |].
  cbn [PyStr.all_chars]. rewrite andb_true_iff. intros [Hc Hs].
  change (PyStr.contains (String c0 rest) (String c s))
    with (String.prefix (String c0 rest) (String c s)
          || PyStr.contains (String c0 rest) s).
  rewrite prefix_head_ne by exact Hc. now rewrite IH.
Qed.

Lemma count_absent (c0 : ascii) (rest s : string) :
  PyStr.all_chars (fun c => negb (Ascii.eqb c0 c)) s = true ->
  PyStr.count (String c0 rest) s = 0%nat.
Proof.
  unfold PyStr.count. induction s as [| c s IH]; [reflexivity |].
  cbn [PyStr.all_chars PyStr.count_from]. rewrite andb_true_iff. intros [Hc Hs].
  rewrite prefix_head_ne by exact Hc. now rewrite IH.
Qed.

Lemma split_absent (c0 : ascii) (rest s : string) :
  PyStr.all_chars (fun c => negb (Ascii.eqb c0 c)) s = true ->
  PyStr.split (String c0 rest) s = [s].
Proof.
  unfold PyStr.split. induction s as [| c s IH]; [reflexivity |].
  cbn [PyStr.all_chars PyStr.split_from]. rewrite andb_true_iff. intros [Hc Hs].
  rewrite prefix_head_ne by exact Hc. now rewrite IH.
Qed.

Lemma lstrip_no_space (s : string) :
  PyStr.all_chars (fun c => negb (PyStr.isspace c)) s = true -> PyStr.lstrip s = s.
Proof.
  destruct s as [| c s]; [reflexivity |].
  cbn. rewrite andb_true_iff. intros [Hc _].
  now destruct (PyStr.isspace c).
Qed.

Lemma rstrip_no_space (s : string) :
  PyStr.all_chars (fun c => negb (PyStr.isspace c)) s = true -> PyStr.rstrip s = s.
Proof.
  induction s as [| c s IH]; [reflexivity |].
  cbn [PyStr.all_chars PyStr.rstrip]. rewrite andb_true_iff. intros [Hc Hs].
  rewrite IH by exact Hs.
  destruct s; [| reflexivity]. now destruct (PyStr.isspace c).
Qed.

Lemma strip_no_space (s : string) :
  PyStr.all_chars (fun c => negb (PyStr.isspace c)) s = true -> PyStr.strip s = s.
Proof.
  intros H. unfold PyStr.strip. rewrite lstrip_no_space by exact H.
  now apply rstrip_no_space.
Qed.

Lemma prefix_one_char (c : ascii) (s : string) :
  String.prefix (String c "") (String c s) = true.
Proof. cbn. destruct (ascii_dec c c); [now destruct s | congruence]. Qed.

(** The one dot of [a.b], [a] and [b] holding none. *)
Section OneDot.

Variables a b : string.
Hypothesis a_plain : PyStr.all_chars (fun c => negb (Ascii.eqb "." c)) a = true.
Hypothesis b_plain : PyStr.all_chars (fun c => negb (Ascii.eqb "." c)) b = true.

Lemma one_dot_contains : PyStr.contains "." (a ++ "." ++ b) = true.
Proof.
  revert a_plain. induction a as [| c s IH].
  { intros _.
    change (PyStr.contains "." ("" ++ "." ++ b))
      with (String.prefix "." (String "." b) || PyStr.contains "." b).
    now rewrite prefix_one_char. }
  cbn [PyStr.all_chars]. rewrite andb_true_iff. intros [Hc Hs].
  change (PyStr.contains "." (String c s ++ "." ++ b))
    with (String.prefix "." (String c (s ++ "." ++ b))
          || PyStr.contains "." (s ++ "." ++ b)).
  rewrite IH by exact Hs. apply orb_true_r.
Qed.

Lemma one_dot_count : PyStr.count "." (a ++ "." ++ b) = 1%nat.
Proof.
  unfold PyStr.count. revert a_plain. induction a as [| c s IH].
  - intros _. change ("" ++ "." ++ b) with (String "." b).
    cbn [PyStr.count_from]. rewrite prefix_one_char. cbn [String.length Nat.sub].
    f_equal. now apply count_absent.
  - cbn [PyStr.all_chars]. rewrite andb_true_iff. intros [Hc Hs].
    change (String c s ++ "." ++ b) with (String c (s ++ "." ++ b)).
    cbn [PyStr.count_from]. rewrite prefix_head_ne by exact Hc. now apply IH.
Qed.

Lemma one_dot_split : PyStr.split "." (a ++ "." ++ b) = [a; b].
Proof.
  unfold PyStr.split. revert a_plain. induction a as [| c s IH].
  - intros _. change ("" ++ "." ++ b) with (String "." b).
    cbn [PyStr.split_from]. rewrite prefix_one_char. cbn [String.length Nat.sub].
    f_equal. now apply split_absent.
  - cbn [PyStr.all_chars]. rewrite andb_true_iff. intros [Hc Hs].
    change (String c s ++ "." ++ b) with (String c (s ++ "." ++ b)).
    cbn [PyStr.split_from]. rewrite prefix_head_ne by exact Hc.
    now rewrite IH.
Qed.

Lemma one_dot_removed : PyStr.replace "." "" (a ++ "." ++ b) = a ++ b.
Proof.
  unfold PyStr.replace. revert a_plain. induction a as [| c s IH].
  - intros _. change ("" ++ "." ++ b) with (String "." b).
    cbn [PyStr.replace_from]. rewrite prefix_one_char. cbn [String.length Nat.sub].
    now apply replace_absent.
  - cbn [PyStr.all_chars]. rewrite andb_true_iff. intros [Hc Hs].
    change (String c s ++ "." ++ b) with (String c (s ++ "." ++ b)).
    cbn [PyStr.replace_from]. rewrite prefix_head_ne by exact Hc.
    now rewrite IH.
Qed.

End OneDot.

Lemma string_length_app (a b : string) :
  String.length (a ++ b) = (String.length a + String.length b)%nat.
Proof.
  induction a as [| c a IH]; [reflexivity |].
  change (String c a ++ b) with (String c (a ++ b)).
  cbn [String.length]. now rewrite IH.
Qed.

(** X6.  A text [a.b] of two runs of digits around one dot: the
    Colombian-number parser takes the dot for a thousands separator,
    and hands [ab] to the float conversion, exactly when [b] has three
    digits and [a] at least three; otherwise the dot stays a decimal
    point.  So [123.456] reads as 123456 and [50.000] as 50.0. *)
Theorem one_dot_reading (a b : string) :
  PyStr.all_chars is_digit a = true ->
  PyStr.all_chars is_digit b = true ->
  Comparator._parse_colombian_number (a ++ "." ++ b)
  = float_of_str
      (if ((String.length b =? 3) && (3 <=? String.length a))%nat
       then a ++ b else a ++ "." ++ b).
Proof.
  intros Ha Hb. unfold Comparator._parse_colombian_number. f_equal.
  assert (Habsent : forall x : ascii,
             is_digit x = false -> negb (Ascii.eqb x ".") = true ->
             PyStr.all_chars (fun c => negb (Ascii.eqb x c)) (a ++ "." ++ b) = true).
  { intros x Hx Hdot. rewrite !all_chars_app, !andb_true_iff. repeat split.
    - revert Ha. apply all_chars_impl. intros c. now apply digit_is_not.
    - cbn. now rewrite Hdot.
    - revert Hb. apply all_chars_impl. intros c. now apply digit_is_not. }
  assert (Hnospace : PyStr.all_chars (fun c => negb (PyStr.isspace c))
                       (a ++ "." ++ b) = true).
  { rewrite !all_chars_app, !andb_true_iff. repeat split.
    - revert Ha. apply all_chars_impl. intros c Hc. now rewrite digit_not_space.
    - revert Hb. apply all_chars_impl. intros c Hc. now rewrite digit_not_space. }
  assert (Hda : PyStr.all_chars (fun c => negb (Ascii.eqb "." c)) a = true).
  { revert Ha. apply all_chars_impl. intros c. now apply digit_is_not. }
  assert (Hdb : PyStr.all_chars (fun c => negb (Ascii.eqb "." c)) b = true).
  { revert Hb. apply all_chars_impl. intros c. now apply digit_is_not. }
  unfold Comparator.colombian_text.
  rewrite (strip_no_space _ Hnospace).
  rewrite (replace_absent "$" "" "" _ (Habsent "$"%char eq_refl eq_refl)).
  rewrite (replace_absent "C" "OP" "" _ (Habsent "C"%char eq_refl eq_refl)).
  rewrite (replace_absent " " "" "" _ (Habsent " "%char eq_refl eq_refl)).
  rewrite (strip_no_space _ Hnospace).
  rewrite (one_dot_contains a b Hda).
  rewrite (contains_absent "," "" _ (Habsent ","%char eq_refl eq_refl)).
  rewrite (one_dot_count a b Hda Hdb), (one_dot_split a b Hda Hdb),
    (one_dot_removed a b Hda Hdb).
  change (1 <? 1)%nat with false.
  change (length [a; b] =? 2)%nat with true.
  cbn [andb nth].
  rewrite !string_length_app. cbn [String.length].
  destruct (String.length b =? 3)%nat eqn:Hlen; cbn [andb]; [| reflexivity].
  apply Nat.eqb_eq in Hlen. rewrite Hlen.
  replace (6 <? String.length a + (1 + 3))%nat with (3 <=? String.length a)%nat;
    [reflexivity |].
  destruct (3 <=? String.length a)%nat eqn:H3; symmetry.
  - apply Nat.leb_le in H3. apply Nat.ltb_lt. lia.
  - apply Nat.leb_gt in H3. apply Nat.ltb_ge. lia.
Qed.

Lemma one_dot_reading_witness :
  PyStr.all_chars is_digit "50" = true
  /\ PyStr.all_chars is_digit "000" = true
  /\ Comparator._parse_colombian_number "50.000" = Ok (of_decimal false 50 0)
  /\ Comparator._parse_colombian_number "123.456" = Ok (of_decimal false 123456 0)
  /\ Comparator._parse_colombian_number ("50" ++ "." ++ "000")
     = float_of_str
         (if ((String.length "000" =? 3) && (3 <=? String.length "50"))%nat
          then "50" ++ "000" else "50" ++ "." ++ "000").
Proof.
  assert (Ha : PyStr.all_chars is_digit "50" = true) by reflexivity.
  assert (Hb : PyStr.all_chars is_digit "000" = true) by reflexivity.
  assert (H1 : Comparator._parse_colombian_number "50.000"
               = Ok (of_decimal false 50 0)) by (vm_compute; reflexivity).
  assert (H2 : Comparator._parse_colombian_number "123.456"
               = Ok (of_decimal false 123456 0)) by (vm_compute; reflexivity).
  exact (conj Ha (conj Hb (conj H1 (conj H2 (one_dot_reading "50" "000" Ha Hb))))).
Defined.

(** ** Rules engine, continued *)

Lemma failed_by_type (rules : list ValidationRule) :
  forall res : list RuleResult,
    length rules = length res ->
    (length (List.filter
               (fun rr : ValidationRule * RuleResult =>
                  bool_decide (status rr.2 = FAILED)
                  && bool_decide (tipo rr.1 = BLOCKING)) (combine rules res))
     + length (List.filter
                 (fun rr : ValidationRule * RuleResult =>
                    bool_decide (status rr.2 = FAILED)
                    && bool_decide (tipo rr.1 = WARNING)) (combine rules res))
     = length (List.filter (fun r => bool_decide (status r = FAILED)) res))%nat.
Proof.
  induction rules as [| a rules IH]; intros [| r res] Hlen; try discriminate;
    [reflexivity |].
  injection Hlen as Hlen. specialize (IH res Hlen).
  cbn [combine List.filter fst snd].
  destruct (status r), (tipo a); repeat case_bool_decide; try congruence;
    cbn [andb length]; lia.
Qed.

Lemma status_partition (res : list RuleResult) :
  (length (List.filter (fun r => bool_decide (status r = PASSED)) res)
   + length (List.filter (fun r => bool_decide (status r = FAILED)) res)
   + length (List.filter (fun r => bool_decide (status r = SKIPPED)) res)
   = length res)%nat.
Proof.
  induction res as [| r res IH]; [reflexivity |].
  cbn [List.filter]. destruct (status r); repeat case_bool_decide; try congruence;
    cbn [length]; lia.
Qed.

Lemma validate_results_length `{PyRepr} (now : Z) (inv : string)
    (xml_data : option XMLInvoiceData) (custom_rules : option (list ValidationRule))
    (flat_data : option (gmap string pyval)) :
  length (results (Rules.validate now inv xml_data custom_rules flat_data))
  = length (Rules.STATIC_RULES ++ default [] custom_rules)%list.
Proof.
  unfold Rules.validate. cbn [results].
  rewrite !length_app, length_map. reflexivity.
Qed.

(** X7.  In the result of [validate] every failed result is counted
    once, as a blocking failure or as a warning, and the three
    counters with the number of skipped results add up to the number
    of rules, 5 + n. *)
Theorem validate_counters_add_up `{PyRepr} (now : Z) (inv : string)
    (xml_data : option XMLInvoiceData) (custom_rules : option (list ValidationRule))
    (flat_data : option (gmap string pyval)) :
  let v := Rules.validate now inv xml_data custom_rules flat_data in
  (blocking_failures v + warnings v
   = length (List.filter (fun r => bool_decide (status r = FAILED)) (results v)))%nat
  /\ (passed v + blocking_failures v + warnings v
      + length (List.filter (fun r => bool_decide (status r = SKIPPED)) (results v))
      = 5 + length (default [] custom_rules))%nat.
Proof.
  cbv zeta.
  pose proof (validate_results_length now inv xml_data custom_rules flat_data) as Hlen.
  assert (Hfailed :
    (blocking_failures (Rules.validate now inv xml_data custom_rules flat_data)
     + warnings (Rules.validate now inv xml_data custom_rules flat_data)
     = length (List.filter (fun r => bool_decide (status r = FAILED))
                 (results (Rules.validate now inv xml_data custom_rules flat_data))))%nat).
  { rewrite <- (failed_by_type (Rules.STATIC_RULES ++ default [] custom_rules)%list)
      by (symmetry; exact Hlen).
    f_equal.
    - unfold Rules.validate at 1. cbn [blocking_failures].
      apply (validate_count BLOCKING). exact Hlen.
    - unfold Rules.validate at 1. cbn [warnings].
      apply (validate_count WARNING). exact Hlen. }
  split; [exact Hfailed |].
  pose proof (status_partition
                (results (Rules.validate now inv xml_data custom_rules flat_data)))
    as Hpart.
  rewrite Hlen, length_app in Hpart.
  change (length Rules.STATIC_RULES) with 5%nat in Hpart.
  assert (Hpassed :
    passed (Rules.validate now inv xml_data custom_rules flat_data)
    = length (List.filter (fun r => bool_decide (status r = PASSED))
                (results (Rules.validate now inv xml_data custom_rules flat_data))))
    by reflexivity.
  lia.
Qed.

Lemma filter_none_forallb {A : Type} (g : A -> bool) (l : list A) :
  (length (List.filter g l) =? 0)%nat = forallb (fun x => negb (g x)) l.
Proof.
  induction l as [| x l IH]; [reflexivity |].
  cbn [List.filter forallb]. destruct (g x); [reflexivity | exact IH].
Qed.

Lemma forallb_combine_map {A B : Type} (g : A * B -> bool) (f : A -> B) (l : list A) :
  forallb g (combine l (map f l)) = forallb (fun a => g (a, f a)) l.
Proof.
  induction l as [| a l IH]; [reflexivity |].
  cbn [map combine forallb]. now rewrite IH.
Qed.

Lemma r001_status (d : XMLInvoiceData) :
  status (Rules._evaluate_r001 (Some d))
  = if Rules.string_in (company_id (supplier d)) Rules.VALID_NITS
    then PASSED else FAILED.
Proof. unfold Rules._evaluate_r001. now destruct (Rules.string_in _ _). Qed.

Lemma r002_status (d : XMLInvoiceData) :
  status (Rules._evaluate_r002 (Some d))
  = if (10 <? String.length (cufe d))%nat then PASSED else FAILED.
Proof.
  unfold Rules._evaluate_r002.
  destruct (cufe d) as [| c s]; [reflexivity |].
  cbn [PyStr.truthy andb]. now destruct (10 <? _)%nat.
Qed.

(** The value of [can_submit], read off the rules and their results. *)
Lemma can_submit_eq `{PyRepr} (now : Z) (inv : string)
    (xml_data : option XMLInvoiceData) (custom_rules : option (list ValidationRule))
    (flat_data : option (gmap string pyval)) :
  can_submit (Rules.validate now inv xml_data custom_rules flat_data)
  = match xml_data with
    | None => true
    | Some d =>
        Rules.string_in (company_id (supplier d)) Rules.VALID_NITS
        && (10 <? String.length (cufe d))%nat
    end
    && forallb
         (fun rule =>
            negb (bool_decide (tipo rule = BLOCKING)
                  && bool_decide
                       (status (Rules._evaluate_custom_rule rule (default ∅ flat_data))
                        = FAILED)))
         (default [] custom_rules).
Proof.
  pose proof (validate_results_length now inv xml_data custom_rules flat_data) as Hlen.
  assert (Hcount := validate_count BLOCKING (default [] custom_rules) _ Hlen).
  unfold Rules.validate in Hcount |- *. cbn [results] in Hcount.
  cbn [can_submit blocking_failures]. rewrite Hcount, filter_none_forallb.
  clear Hlen Hcount.
  remember (Rules._evaluate_r001 xml_data) as r1 eqn:E1.
  remember (Rules._evaluate_r002 xml_data) as r2 eqn:E2.
  remember (Rules._evaluate_r003 xml_data) as r3 eqn:E3.
  remember (Rules._evaluate_r004 xml_data) as r4 eqn:E4.
  remember (Rules._evaluate_r005 xml_data) as r5 eqn:E5.
  unfold Rules.STATIC_RULES.
  cbn [app combine forallb fst snd tipo Rules.static_rule].
  rewrite forallb_combine_map. cbn [fst snd].
  rewrite !(bool_decide_false (WARNING = BLOCKING)) by discriminate.
  rewrite !(bool_decide_true (BLOCKING = BLOCKING)) by reflexivity.
  rewrite !andb_false_r, !andb_true_r. cbn [negb andb].
  rewrite andb_assoc. f_equal.
  - subst r1 r2. destruct xml_data as [d |]; [| reflexivity].
    rewrite r001_status, r002_status.
    destruct (Rules.string_in _ _), (10 <? _)%nat; reflexivity.
  - induction (default [] custom_rules) as [| rule l IH]; [reflexivity |].
    cbn [forallb]. rewrite IH. do 2 f_equal. apply andb_comm.
Qed.

(** X8.  [can_submit] depends on the two blocking static rules and on
    the blocking custom rules only: an invoice can be submitted
    exactly when its supplier NIT is in the provider master, its CUFE
    is longer than ten characters, and no custom rule declared
    blocking fails.  A failure of R003, R004, R005 or of a custom
    warning never blocks, and with no XML data the static rules block
    nothing. *)
Theorem can_submit_blockers `{PyRepr} (now : Z) (inv : string)
    (xml_data : option XMLInvoiceData) (custom_rules : option (list ValidationRule))
    (flat_data : option (gmap string pyval)) :
  can_submit (Rules.validate now inv xml_data custom_rules flat_data)
  = match xml_data with
    | None => true
    | Some d =>
        Rules.string_in (company_id (supplier d)) Rules.VALID_NITS
        && (10 <? String.length (cufe d))%nat
    end
    && forallb
         (fun rule =>
            negb (bool_decide (tipo rule = BLOCKING)
                  && bool_decide
                       (status (Rules._evaluate_custom_rule rule (default ∅ flat_data))
                        = FAILED)))
         (default [] custom_rules).
Proof. apply can_submit_eq. Qed.

(** The relational branch of [_compare_values], on a field value that
    is not null. *)
Lemma compare_values_relational `{PyRepr} (v1 : pyval) (op : string) (v2 : pyval) :
  Rules.is_none v1 = false ->
  Rules.string_in op Rules.relational = true ->
  Rules._compare_values v1 op v2
  = match Rules.to_number v1, Rules.to_number v2 with
    | Ok a, Ok b => default false (Rules.compare_numbers op a b)
    | _, _ =>
        if op =? "==" then Rules.py_str v1 =? Rules.py_str v2
        else if op =? "!=" then negb (Rules.py_str v1 =? Rules.py_str v2)
        else false
    end.
Proof.
  intros Hnone Hrel. unfold Rules._compare_values, Rules._compare_values_try.
  rewrite Hnone, Hrel.
  assert (He : (op =? "exists") = false)
    by (apply relational_cases in Hrel; intuition (subst; reflexivity)).
  assert (Hc : (op =? "contains") = false)
    by (apply relational_cases in Hrel; intuition (subst; reflexivity)).
  rewrite He, Hc.
  destruct (Rules.to_number v1) as [a | e1] eqn:H1.
  - destruct (Rules.to_number v2) as [b | e2] eqn:H2; [reflexivity |].
    apply to_number_raises in H2.
    destruct H2 as [-> | ->]; cbn;
      destruct (op =? "=="); try reflexivity; destruct (op =? "!="); reflexivity.
  - apply to_number_raises in H1.
    destruct H1 as [-> | ->]; cbn;
      destruct (op =? "=="); try reflexivity; destruct (op =? "!="); reflexivity.
Qed.

(** X9.  On a field value that is not null, [!=] is the negation of
    [==], whether the operands compare as numbers or as texts.  A null
    left operand is different: it equals nothing, not even null, and
    differs from everything but null. *)
Theorem ne_is_not_eq `{PyRepr} (v1 v2 : pyval) :
  Rules._compare_values v1 "!=" v2
  = (if Rules.is_none v1 then negb (Rules.is_none v2)
     else negb (Rules._compare_values v1 "==" v2))
  /\ Rules._compare_values VNone "==" v2 = false.
Proof.
  split; [| reflexivity].
  destruct (Rules.is_none v1) eqn:Hnone.
  - unfold Rules._compare_values, Rules._compare_values_try. now rewrite Hnone.
  - rewrite !compare_values_relational by (exact Hnone || reflexivity).
    destruct (Rules.to_number v1) as [a |]; [| reflexivity].
    destruct (Rules.to_number v2) as [b |]; reflexivity.
Qed.

(** X10.  The four order operators need two numbers: when either
    operand does not convert, [>], [<], [>=] and [<=] all give false,
    so the rule fails; [<=] and [>=] then fail even between two equal
    texts, for which [==] holds. *)
Theorem order_needs_numbers `{PyRepr} (v1 : pyval) (op : string) (v2 : pyval)
    (e : pyexc) :
  Rules.string_in op [">"; "<"; ">="; "<="] = true ->
  Rules.to_number v1 = Raise e \/ Rules.to_number v2 = Raise e ->
  Rules._compare_values v1 op v2 = false.
Proof.
  intros Hop Hraise.
  assert (Hcases : op = ">" \/ op = "<" \/ op = ">=" \/ op = "<=").
  { unfold Rules.string_in in Hop. cbn [existsb] in Hop.
    rewrite !orb_true_iff, !String.eqb_eq in Hop. intuition discriminate. }
  destruct (Rules.is_none v1) eqn:Hnone.
  - unfold Rules._compare_values, Rules._compare_values_try. rewrite Hnone.
    intuition (subst; reflexivity).
  - rewrite compare_values_relational;
      [| exact Hnone | intuition (subst; reflexivity)].
    destruct Hraise as [-> | H2].
    + intuition (subst; reflexivity).
    + rewrite H2. destruct (Rules.to_number v1);
        intuition (subst; reflexivity).
Qed.

Lemma order_needs_numbers_witness :
  Rules.string_in "<=" [">"; "<"; ">="; "<="] = true
  /\ Rules.to_number (VStr "SETT-1") = Raise ValueError
  /\ @Rules._compare_values Samples.repr_whole (VStr "SETT-1") "==" (VStr "SETT-1")
     = true
  /\ @Rules._compare_values Samples.repr_whole (VStr "SETT-1") "<=" (VStr "SETT-1")
     = false.
Proof.
  assert (Hop : Rules.string_in "<=" [">"; "<"; ">="; "<="] = true) by reflexivity.
  assert (Hraise : Rules.to_number (VStr "SETT-1") = Raise ValueError)
    by (vm_compute; reflexivity).
  assert (Heq : @Rules._compare_values Samples.repr_whole
                   (VStr "SETT-1") "==" (VStr "SETT-1") = true)
    by (vm_compute; reflexivity).
  exact (conj Hop (conj Hraise (conj Heq
           (@order_needs_numbers Samples.repr_whole
              (VStr "SETT-1") "<=" (VStr "SETT-1") ValueError
              Hop (or_introl Hraise))))).
Defined.

(** X11.  An operator outside the eight the engine knows makes the
    comparison false on every pair of operands, so a dynamic rule
    written with it never passes: it is skipped when the field is
    absent or null and fails otherwise. *)
Theorem unknown_operator_never_passes `{PyRepr} (rule : ValidationRule)
    (c : RuleCondition) (data : gmap string pyval) :
  condicion rule = Some c ->
  Rules.string_in (operador c) ("exists" :: "contains" :: Rules.relational) = false ->
  (forall v1 v2, Rules._compare_values v1 (operador c) v2 = false)
  /\ status (Rules._evaluate_custom_rule rule data)
     = match data !! campo c with
       | None | Some VNone => SKIPPED
       | Some _ => FAILED
       end.
Proof.
  intros Hc Hop.
  unfold Rules.string_in in Hop. cbn [existsb] in Hop.
  apply orb_false_elim in Hop as [He Hop].
  apply orb_false_elim in Hop as [Hcont Hrel].
  assert (Hne : (operador c =? "!=") = false).
  { unfold Rules.relational in Hrel. cbn [existsb] in Hrel.
    rewrite !orb_false_iff in Hrel. tauto. }
  assert (Hfalse : forall v1 v2, Rules._compare_values v1 (operador c) v2 = false).
  { intros v1 v2. unfold Rules._compare_values, Rules._compare_values_try.
    unfold Rules.string_in. rewrite He, Hcont, Hrel, Hne.
    now destruct (Rules.is_none v1). }
  split; [exact Hfalse |].
  unfold Rules._evaluate_custom_rule. rewrite Hc.
  destruct (data !! campo c) as [[] |]; try reflexivity; now rewrite Hfalse.
Qed.

Lemma unknown_operator_never_passes_witness :
  status (@Rules._evaluate_custom_rule Samples.repr_whole
            (Samples.currency_rule "=") {[ "currency_code" := VStr "COP" ]})
  = FAILED
  /\ status (@Rules._evaluate_custom_rule Samples.repr_whole
               (Samples.currency_rule "==") {[ "currency_code" := VStr "COP" ]})
     = PASSED.
Proof.
  split; [| vm_compute; reflexivity].
  exact (proj2 (@unknown_operator_never_passes Samples.repr_whole
                  (Samples.currency_rule "=")
                  {| campo := "currency_code"; operador := "="; valor := VStr "COP" |}
                  {[ "currency_code" := VStr "COP" ]} eq_refl eq_refl)).
Defined.

(** ** The list of rules and the rule cache *)

(** X12.  The list [get_all_rules] shows and the results [validate]
    returns run over the same rules in the same order: entry i of the
    one and result i of the other carry the same rule id.  The first
    five entries are marked static and every later one custom,
    whatever the rule's own [is_custom] says. *)
Theorem rule_list_matches_results `{PyRepr} (now : Z) (inv : string)
    (xml_data : option XMLInvoiceData) (custom_rules : option (list ValidationRule))
    (flat_data : option (gmap string pyval)) :
  map Listing.entry_id (Listing.get_all_rules custom_rules)
  = map rule_id (results (Rules.validate now inv xml_data custom_rules flat_data))
  /\ map Listing.entry_is_custom (Listing.get_all_rules custom_rules)
     = (replicate 5 false ++ replicate (length (default [] custom_rules)) true)%list.
Proof.
  unfold Listing.get_all_rules, Rules.validate. cbn [results].
  rewrite !map_app, !map_map. cbn [Listing.entry_id Listing.entry_is_custom].
  split.
  - destruct (static_rule_ids xml_data) as (H1 & H2 & H3 & H4 & H5).
    cbn [map]. rewrite H1, H2, H3, H4, H5.
    change (map (fun x => rule_ident x) Rules.STATIC_RULES)
      with ["R001"; "R002"; "R003"; "R004"; "R005"].
    cbn [app]. do 5 f_equal. apply map_ext. intros rule. symmetry.
    apply custom_rule_id.
  - f_equal. induction (default [] custom_rules) as [| r l IH]; [reflexivity |].
    cbn [map length replicate]. now rewrite IH.
Qed.

Lemma filter_keeps_all {A : Type} (p : A -> bool) (l : list A) :
  forallb p l = true -> List.filter p l = l.
Proof.
  induction l as [| x l IH]; [reflexivity |].
  cbn [forallb List.filter]. intros [Hx Hl]%andb_true_iff.
  rewrite Hx. now rewrite IH.
Qed.

Lemma filter_drops_some {A : Type} (p : A -> bool) (l : list A) :
  forallb p l = false -> (length (List.filter p l) < length l)%nat.
Proof.
  induction l as [| x l IH]; [discriminate |].
  cbn [forallb List.filter]. destruct (p x); cbn [andb length].
  - intros Hl. specialize (IH Hl). lia.
  - intros _. pose proof (List.filter_length_le p l). lia.
Qed.

Lemma forallb_not_existsb {A : Type} (p : A -> bool) (l : list A) :
  forallb (fun x => negb (p x)) l = negb (existsb p l).
Proof.
  induction l as [| x l IH]; [reflexivity |].
  cbn [forallb existsb]. rewrite IH. now destruct (p x).
Qed.

(** X13.  Deleting a custom rule removes every rule of the invoice
    that carries the id and keeps the others in their order.  It is
    refused, with status 404, when the invoice has no rule list or no
    rule of the list carries the id, and the cache is then as it
    was. *)
Theorem delete_custom_rule_outcome
    (cache : gmap string (list ValidationRule)) (rule_id inv : string) :
  Listing.delete_custom_rule cache rule_id inv
  = match cache !! inv with
    | None =>
        (cache, Endpoint.HTTPException 404 "No custom rules for this invoice")
    | Some rules =>
        if existsb (fun r => rule_ident r =? rule_id) rules
        then (<[inv := List.filter (fun r => negb (rule_ident r =? rule_id)) rules]>
                cache,
              Endpoint.ApiResponse ("Rule " ++ rule_id ++ " deleted") tt)
        else (cache, Endpoint.HTTPException 404 "Rule not found")
    end.
Proof.
  unfold Listing.delete_custom_rule.
  destruct (cache !! inv) as [rules |] eqn:Hrules; [| reflexivity].
  pose proof (forallb_not_existsb (fun r => rule_ident r =? rule_id) rules) as Hall.
  destruct (existsb (fun r => rule_ident r =? rule_id) rules); cbn [negb] in Hall.
  - apply filter_drops_some in Hall.
    replace (length (List.filter _ rules) =? length rules)%nat with false;
      [reflexivity |].
    symmetry. apply Nat.eqb_neq. lia.
  - rewrite (filter_keeps_all _ _ Hall), Nat.eqb_refl.
    now rewrite insert_id.
Qed.

(** X14.  Deleting the id of a rule that was just added always
    succeeds.  It removes that rule and, with it, every older rule of
    the invoice with the same id, since adding does not check ids;
    the other rules stay, and so do the rules of other invoices. *)
Theorem add_then_delete (cache : gmap string (list ValidationRule))
    (rule : ValidationRule) (inv : string) :
  Listing.delete_custom_rule (Listing.add_custom_rule cache rule inv).1
    (rule_ident rule) inv
  = (<[inv := List.filter (fun r => negb (rule_ident r =? rule_ident rule))
                (default [] (cache !! inv))]> cache,
     Endpoint.ApiResponse ("Rule " ++ rule_ident rule ++ " deleted") tt).
Proof.
  unfold Listing.add_custom_rule. cbn [fst].
  set (cache1 := match cache !! inv with
                 | None => <[inv := []]> cache
                 | Some _ => cache
                 end).
  assert (H1 : cache1 !! inv = Some (default [] (cache !! inv))).
  { subst cache1. destruct (cache !! inv) eqn:Hc; cbn [default].
    - exact Hc.
    - apply lookup_insert_eq. }
  assert (Hother : forall k, k <> inv -> cache1 !! k = cache !! k).
  { intros k Hk. subst cache1. destruct (cache !! inv); [reflexivity |].
    now apply lookup_insert_ne. }
  unfold Listing.delete_custom_rule.
  rewrite lookup_alter_eq, H1. cbn [fmap option_fmap option_map].
  rewrite List.filter_app. cbn [List.filter].
  rewrite String.eqb_refl. cbn [negb]. rewrite app_nil_r, length_app.
  cbn [length].
  pose proof (List.filter_length_le
                (fun r => negb (rule_ident r =? rule_ident rule))
                (default [] (cache !! inv))) as Hle.
  replace (length (List.filter _ (default [] (cache !! inv)))
           =? length (default [] (cache !! inv)) + 1)%nat with false
    by (symmetry; apply Nat.eqb_neq; lia).
  f_equal. apply map_eq. intros k.
  destruct (decide (k = inv)) as [-> | Hk].
  - now rewrite !lookup_insert_eq.
  - rewrite !lookup_insert_ne by congruence.
    rewrite lookup_alter_ne by congruence. now apply Hother.
Qed.

(** X15.  Custom rules can block a submission and never unblock one:
    if an invoice can be submitted under a list of custom rules, it
    can be submitted under any list made of rules of that list, so
    deleting a rule never blocks and adding one never unblocks. *)
Theorem fewer_rules_still_submit `{PyRepr} (now : Z) (inv : string)
    (xml_data : option XMLInvoiceData) (fewer more : list ValidationRule)
    (flat_data : option (gmap string pyval)) :
  fewer ⊆ more ->
  can_submit (Rules.validate now inv xml_data (Some more) flat_data) = true ->
  can_submit (Rules.validate now inv xml_data (Some fewer) flat_data) = true.
Proof.
  intros Hsub. rewrite !can_submit_eq. cbn [default].
  rewrite !andb_true_iff, !forallb_forall.
  intros [Hstatic Hmore]. split; [exact Hstatic |].
  intros rule Hin. apply Hmore.
  apply list_elem_of_In, Hsub, list_elem_of_In, Hin.
Qed.

Lemma fewer_rules_still_submit_witness :
  [] ⊆ [Samples.currency_rule "=="]
  /\ can_submit (@Rules.validate Samples.repr_whole 0 "FE-1" (Some Samples.invoice)
                   (Some [Samples.currency_rule "=="])
                   (Some {[ "currency_code" := VStr "COP" ]}))
     = true
  /\ can_submit (@Rules.validate Samples.repr_whole 0 "FE-1" (Some Samples.invoice)
                   (Some []) (Some {[ "currency_code" := VStr "COP" ]}))
     = true.
Proof.
  assert (Hsub : ([] : list ValidationRule) ⊆ [Samples.currency_rule "=="])
    by apply list_subseteq_nil.
  assert (Hmore :
    can_submit (@Rules.validate Samples.repr_whole 0 "FE-1" (Some Samples.invoice)
                  (Some [Samples.currency_rule "=="])
                  (Some {[ "currency_code" := VStr "COP" ]}))
    = true) by (vm_compute; reflexivity).
  exact (conj Hsub (conj Hmore
           (@fewer_rules_still_submit Samples.repr_whole 0 "FE-1"
              (Some Samples.invoice) [] [Samples.currency_rule "=="]
              (Some {[ "currency_code" := VStr "COP" ]}) Hsub Hmore))).
Defined.

(** ** Reconciliation of an invoice with its purchase order *)

Lemma rmap_returns {A B C : Type} (f : A -> result B) (g : B -> C) (h : A -> C)
    (l : list A) :
  (forall a, exists b, f a = Ok b /\ g b = h a) ->
  exists bs, rmap f l = Ok bs /\ map g bs = map h l.
Proof.
  intros Hf. induction l as [| a l (bs & Hbs & Hmap)].
  - exists []. split; reflexivity.
  - destruct (Hf a) as (b & Hb & Hg). exists (b :: bs).
    cbn [rmap map]. rewrite Hb, Hbs, Hg, Hmap. split; reflexivity.
Qed.

Lemma compare_field_returns `{PyRepr} (xml_values : gmap string pyval)
    (oc_fields : gmap string Documents.ExtractedField)
    (entry : string * Documents.field_mapping) :
  exists c,
    Reconciliation.compare_field xml_values oc_fields entry = Ok c
    /\ Documents.compared_field c = entry.1.
Proof.
  destruct entry as [xml_field mapping]. unfold Reconciliation.compare_field.
  match goal with
  | |- context [Comparator._compare_values ?a ?b ?c ?d] =>
      destruct (compare_values_returns a b c d) as [[[m t] n] Heq]; rewrite Heq
  end.
  eexists. split; reflexivity.
Qed.

Lemma run_oc_comparison_absent `{PyRepr}
    (invoice_cache : gmap string Documents.InvoicePackage)
    (cache : gmap string Documents.OCComparisonResult)
    (inv : string) (oc_doc : Documents.ProcessedDocument) :
  invoice_cache !! inv ≫= Documents.package_xml_data = None ->
  Reconciliation._run_oc_comparison invoice_cache cache inv oc_doc
  = Reconciliation.Returns cache.
Proof.
  unfold Reconciliation._run_oc_comparison.
  destruct (invoice_cache !! inv) as [package |]; [| reflexivity].
  cbn. now intros ->.
Qed.

(** [_run_oc_comparison] on an invoice that is cached with its XML
    data: the six comparisons are made, and the result is stored
    unless the purchase number is refused. *)
Lemma run_oc_comparison_present `{PyRepr}
    (invoice_cache : gmap string Documents.InvoicePackage)
    (cache : gmap string Documents.OCComparisonResult)
    (inv : string) (oc_doc : Documents.ProcessedDocument) (d : XMLInvoiceData) :
  invoice_cache !! inv ≫= Documents.package_xml_data = Some d ->
  exists cs,
    map Documents.compared_field cs = map fst Documents.XML_TO_OC_FIELD_MAPPING
    /\ rmap (Reconciliation.compare_field (Reconciliation.xml_values d)
               (Documents.extracted_fields oc_doc))
         Documents.XML_TO_OC_FIELD_MAPPING = Ok cs
    /\ Reconciliation._run_oc_comparison invoice_cache cache inv oc_doc
       = let count := length (List.filter Documents.matched cs) in
         let percentage := Reconciliation.percentage_of count (length cs) in
         match
           Reconciliation.optional_str
             match Documents.extracted_fields oc_doc !! "PurchaseNumber" with
             | Some purchase_number => Documents.field_value purchase_number
             | None => VNone
             end
         with
         | None => Reconciliation.RaisesValidationError
         | Some number =>
             Reconciliation.Returns
               (<[inv :=
                    {| Documents.compared_invoice := inv;
                       Documents.xml_oc_reference :=
                         match default VNone
                                 (Reconciliation.xml_values d !! "order_reference")
                         with
                         | VStr s => PyStr.or_else s "N/A"
                         | _ => "N/A"
                         end;
                       Documents.oc_document_number := number;
                       Documents.oc_file_name := Documents.file_name oc_doc;
                       Documents.comparisons := cs;
                       Documents.overall_match :=
                         fleb (Reconciliation.float_of_nat 80) percentage;
                       Documents.match_percentage := percentage;
                       Documents.matched_fields := count;
                       Documents.total_fields := length cs;
                       Documents.conclusion :=
                         (Reconciliation.conclusion_of percentage count (length cs)).1;
                       Documents.conclusion_type :=
                         (Reconciliation.conclusion_of percentage count (length cs)).2
                    |}]> cache)
         end.
Proof.
  intros Hd. unfold Reconciliation._run_oc_comparison.
  destruct (invoice_cache !! inv) as [package |]; [| discriminate].
  cbn in Hd. rewrite Hd.
  destruct (rmap_returns
              (Reconciliation.compare_field (Reconciliation.xml_values d)
                 (Documents.extracted_fields oc_doc))
              Documents.compared_field fst Documents.XML_TO_OC_FIELD_MAPPING
              (compare_field_returns _ _)) as (cs & Hcs & Hnames).
  exists cs. split; [exact Hnames |]. split; [exact Hcs |].
  rewrite Hcs. cbv zeta.
  destruct (Reconciliation.conclusion_of _ _ _) as [conclusion conclusion_type].
  reflexivity.
Qed.

(** X16.  No exception of the comparisons leaves
    [_run_oc_comparison].  It returns with the comparison cache
    untouched when the invoice is not cached or has no XML data;
    otherwise it stores a result under the invoice id and changes no
    other entry, unless the value read for [PurchaseNumber] is neither
    a text nor null: the construction of the result then fails with a
    validation error and nothing is stored. *)
Theorem oc_comparison_ends `{PyRepr}
    (invoice_cache : gmap string Documents.InvoicePackage)
    (cache : gmap string Documents.OCComparisonResult)
    (inv : string) (oc_doc : Documents.ProcessedDocument) :
  match Reconciliation._run_oc_comparison invoice_cache cache inv oc_doc with
  | Reconciliation.Returns cache' =>
      (forall k, k <> inv -> cache' !! k = cache !! k)
      /\ match invoice_cache !! inv ≫= Documents.package_xml_data with
         | None => cache' = cache
         | Some _ => is_Some (cache' !! inv)
         end
  | Reconciliation.Raises _ => False
  | Reconciliation.RaisesValidationError =>
      is_Some (invoice_cache !! inv ≫= Documents.package_xml_data)
      /\ exists purchase_number,
           Documents.extracted_fields oc_doc !! "PurchaseNumber" = Some purchase_number
           /\ match Documents.field_value purchase_number with
              | VNone | VStr _ => False
              | _ => True
              end
  end.
Proof.
  destruct (invoice_cache !! inv ≫= Documents.package_xml_data) as [d |] eqn:Hd.
  - destruct (run_oc_comparison_present invoice_cache cache inv oc_doc d Hd)
      as (cs & _ & _ & ->).
    cbv zeta.
    destruct (Documents.extracted_fields oc_doc !! "PurchaseNumber")
      as [purchase_number |]; cbn [Reconciliation.optional_str].
    + destruct (Documents.field_value purchase_number) eqn:Hv;
        cbn [Reconciliation.optional_str];
        try (split; [eexists; reflexivity |];
             exists purchase_number; split; [reflexivity | now rewrite Hv]);
        (split; [intros k Hk; now apply lookup_insert_ne |];
         rewrite lookup_insert_eq; eexists; reflexivity).
    + split; [intros k Hk; now apply lookup_insert_ne |].
      rewrite lookup_insert_eq. eexists; reflexivity.
  - rewrite run_oc_comparison_absent by exact Hd. split; reflexivity.
Qed.

Lemma verdict_by_count (m : nat) :
  (m <= 6)%nat ->
  fleb (Reconciliation.float_of_nat 80) (Reconciliation.percentage_of m 6)
  = (5 <=? m)%nat
  /\ (Reconciliation.conclusion_of (Reconciliation.percentage_of m 6) m 6).2
     = (if (6 <=? m)%nat then "success"
        else if (5 <=? m)%nat then "warning" else "error").
Proof.
  intros Hm.
  do 7 (destruct m as [| m]; [split; vm_compute; reflexivity |]).
  lia.
Qed.

(** X17.  A stored reconciliation always holds the six comparisons of
    the field mapping, in its order.  With m of them matching, the
    overall verdict is a match exactly when m is at least 5, and the
    conclusion is [success] for 6, [warning] for 5 and [error] below:
    no count of six fields gives a percentage from 70 up to 80, so a
    warning always comes with an overall match. *)
Theorem oc_comparison_verdict `{PyRepr}
    (invoice_cache : gmap string Documents.InvoicePackage)
    (cache : gmap string Documents.OCComparisonResult)
    (inv : string) (oc_doc : Documents.ProcessedDocument) (d : XMLInvoiceData)
    (number : option string) :
  invoice_cache !! inv ≫= Documents.package_xml_data = Some d ->
  Reconciliation.optional_str
    match Documents.extracted_fields oc_doc !! "PurchaseNumber" with
    | Some purchase_number => Documents.field_value purchase_number
    | None => VNone
    end = Some number ->
  exists r,
    Reconciliation._run_oc_comparison invoice_cache cache inv oc_doc
    = Reconciliation.Returns (<[inv := r]> cache)
    /\ map Documents.compared_field (Documents.comparisons r)
       = ["order_reference"; "supplier_nit"; "supplier_name"; "total_payable";
          "line_extension_amount"; "total_iva"]
    /\ Documents.total_fields r = 6%nat
    /\ Documents.matched_fields r
       = length (List.filter Documents.matched (Documents.comparisons r))
    /\ (Documents.matched_fields r <= 6)%nat
    /\ Documents.overall_match r = (5 <=? Documents.matched_fields r)%nat
    /\ Documents.conclusion_type r
       = (if (6 <=? Documents.matched_fields r)%nat then "success"
          else if (5 <=? Documents.matched_fields r)%nat then "warning"
          else "error")
    /\ Documents.oc_document_number r = number.
Proof.
  intros Hd Hnumber.
  destruct (run_oc_comparison_present invoice_cache cache inv oc_doc d Hd)
    as (cs & Hnames & _ & ->).
  cbv zeta. rewrite Hnumber.
  assert (Hlen : length cs = 6%nat)
    by (rewrite <- (length_map Documents.compared_field), Hnames; reflexivity).
  assert (Hcount : (length (List.filter Documents.matched cs) <= 6)%nat)
    by (rewrite <- Hlen; apply List.filter_length_le).
  eexists. split; [reflexivity |].
  cbn [Documents.comparisons Documents.total_fields Documents.matched_fields
       Documents.overall_match Documents.conclusion_type
       Documents.oc_document_number].
  rewrite Hlen.
  destruct (verdict_by_count _ Hcount) as [Hoverall Hconclusion].
  repeat split; try assumption; reflexivity.
Qed.

Lemma oc_comparison_verdict_witness :
  Samples.packages !! "FE-1" ≫= Documents.package_xml_data = Some Samples.invoice
  /\ Documents.matched_fields
     <$> match @Reconciliation._run_oc_comparison Samples.repr_whole
                 Samples.packages ∅ "FE-1" Samples.scanned_order with
         | Reconciliation.Returns cache => cache !! "FE-1"
         | _ => None
         end = Some 5%nat
  /\ exists r,
       @Reconciliation._run_oc_comparison Samples.repr_whole
         Samples.packages ∅ "FE-1" Samples.scanned_order
       = Reconciliation.Returns (<["FE-1" := r]> ∅)
       /\ map Documents.compared_field (Documents.comparisons r)
          = ["order_reference"; "supplier_nit"; "supplier_name"; "total_payable";
             "line_extension_amount"; "total_iva"]
       /\ Documents.total_fields r = 6%nat
       /\ Documents.matched_fields r
          = length (List.filter Documents.matched (Documents.comparisons r))
       /\ (Documents.matched_fields r <= 6)%nat
       /\ Documents.overall_match r = (5 <=? Documents.matched_fields r)%nat
       /\ Documents.conclusion_type r
          = (if (6 <=? Documents.matched_fields r)%nat then "success"
             else if (5 <=? Documents.matched_fields r)%nat then "warning"
             else "error")
       /\ Documents.oc_document_number r = None.
Proof.
  assert (Hd : Samples.packages !! "FE-1" ≫= Documents.package_xml_data
               = Some Samples.invoice) by reflexivity.
  assert (Hfive :
    Documents.matched_fields
    <$> match @Reconciliation._run_oc_comparison Samples.repr_whole
                Samples.packages ∅ "FE-1" Samples.scanned_order with
        | Reconciliation.Returns cache => cache !! "FE-1"
        | _ => None
        end = Some 5%nat) by (vm_compute; reflexivity).
  exact (conj Hd (conj Hfive
           (@oc_comparison_verdict Samples.repr_whole Samples.packages ∅ "FE-1"
              Samples.scanned_order Samples.invoice None Hd eq_refl))).
Defined.

Lemma xml_values_lookup (d : XMLInvoiceData) :
  Reconciliation.xml_values d !! "order_reference"
  = Some (match order_reference d with
          | Some ref => VStr (order_id ref)
          | None => VNone
          end)
  /\ Reconciliation.xml_values d !! "supplier_nit"
     = Some (VStr (company_id (supplier d)))
  /\ Reconciliation.xml_values d !! "supplier_name"
     = Some (VStr (registration_name (supplier d)))
  /\ Reconciliation.xml_values d !! "total_payable"
     = Some (VFloat (payable_amount (monetary_total d)))
  /\ Reconciliation.xml_values d !! "line_extension_amount"
     = Some (VFloat (line_extension_amount (monetary_total d)))
  /\ Reconciliation.xml_values d !! "total_iva" = Some (VFloat (total_iva d)).
Proof. repeat split; reflexivity. Qed.

(** X18.  A processed document that holds none of the six mapped
    fields reconciles with nothing: every comparison is reported as
    missing on the order side and counts as a mismatch, except that an
    invoice without order reference counts the purchase number, absent
    on both sides, as a match.  At most one field of six matches and
    the conclusion is [error]. *)
Theorem order_without_fields `{PyRepr}
    (invoice_cache : gmap string Documents.InvoicePackage)
    (cache : gmap string Documents.OCComparisonResult)
    (inv : string) (oc_doc : Documents.ProcessedDocument) (d : XMLInvoiceData) :
  invoice_cache !! inv ≫= Documents.package_xml_data = Some d ->
  (forall name,
     In name (map (fun entry => Documents.oc_field entry.2)
                Documents.XML_TO_OC_FIELD_MAPPING) ->
     Documents.extracted_fields oc_doc !! name = None) ->
  exists r,
    Reconciliation._run_oc_comparison invoice_cache cache inv oc_doc
    = Reconciliation.Returns (<[inv := r]> cache)
    /\ map Documents.match_type (Documents.comparisons r)
       = [ match order_reference d with Some _ => "missing_oc" | None => "both_missing" end;
           "missing_oc"; "missing_oc"; "missing_oc"; "missing_oc"; "missing_oc" ]
    /\ Documents.matched_fields r
       = match order_reference d with Some _ => 0%nat | None => 1%nat end
    /\ Documents.overall_match r = false
    /\ Documents.conclusion_type r = "error".
Proof.
  intros Hd Hnone.
  destruct (run_oc_comparison_present invoice_cache cache inv oc_doc d Hd)
    as (cs & _ & Hcs & ->).
  cbv zeta. rewrite (Hnone "PurchaseNumber") by (cbn; tauto).
  cbn [Reconciliation.optional_str].
  eexists. split; [reflexivity |].
  cbn [Documents.comparisons Documents.matched_fields Documents.overall_match
       Documents.conclusion_type].
  unfold Documents.XML_TO_OC_FIELD_MAPPING in Hcs.
  cbn [rmap] in Hcs. unfold Reconciliation.compare_field in Hcs.
  cbn [Documents.oc_field Documents.compare_type Documents.tolerance
       Documents.label default] in Hcs.
  destruct (xml_values_lookup d) as (H1 & H2 & H3 & H4 & H5 & H6).
  rewrite H1, H2, H3, H4, H5, H6 in Hcs. cbn [default] in Hcs.
  rewrite (Hnone "PurchaseNumber"), (Hnone "ProviderNit"), (Hnone "ProviderName"),
    (Hnone "InvoiceTotal"), (Hnone "TotalBruto"), (Hnone "TotalIva") in Hcs
    by (cbn; tauto).
  destruct (order_reference d) as [ref |];
    cbn in Hcs; injection Hcs as <-; repeat split; vm_compute; reflexivity.
Qed.

Lemma order_without_fields_witness :
  exists r,
    @Reconciliation._run_oc_comparison Samples.repr_whole
      Samples.packages ∅ "FE-1" (Samples.purchase_order [])
    = Reconciliation.Returns (<["FE-1" := r]> ∅)
    /\ map Documents.match_type (Documents.comparisons r)
       = [ match order_reference Samples.invoice with
           | Some _ => "missing_oc"
           | None => "both_missing"
           end;
           "missing_oc"; "missing_oc"; "missing_oc"; "missing_oc"; "missing_oc" ]
    /\ Documents.matched_fields r
       = match order_reference Samples.invoice with
         | Some _ => 0%nat
         | None => 1%nat
         end
    /\ Documents.overall_match r = false
    /\ Documents.conclusion_type r = "error".
Proof.
  exact (@order_without_fields Samples.repr_whole Samples.packages ∅ "FE-1"
           (Samples.purchase_order []) Samples.invoice eq_refl
           (fun name _ => eq_refl)).
Defined.

(** X19.  A purchase order whose six fields read as the invoice's own
    values reconciles in full: every comparison matches, as [exact] or,
    for a purchase number absent on both sides, as [both_missing]; six
    fields of six match, the percentage is 100 and the conclusion is
    [success].  The one way out is an amount whose text the
    Colombian-number parser reads as NaN. *)
Theorem echoed_order_matches `{PyRepr}
    (invoice_cache : gmap string Documents.InvoicePackage)
    (cache : gmap string Documents.OCComparisonResult)
    (inv : string) (oc_doc : Documents.ProcessedDocument) (d : XMLInvoiceData)
    (number : option string) :
  invoice_cache !! inv ≫= Documents.package_xml_data = Some d ->
  Reconciliation.optional_str
    match Documents.extracted_fields oc_doc !! "PurchaseNumber" with
    | Some purchase_number => Documents.field_value purchase_number
    | None => VNone
    end = Some number ->
  (forall xml_field mapping,
     In (xml_field, mapping) Documents.XML_TO_OC_FIELD_MAPPING ->
     Reconciliation.text_of_value
       match Documents.extracted_fields oc_doc !! Documents.oc_field mapping with
       | Some oc_extracted => Documents.field_value oc_extracted
       | None => VNone
       end
     = Reconciliation.text_of_value
         (default VNone (Reconciliation.xml_values d !! xml_field))) ->
  (forall x,
     In x [payable_amount (monetary_total d);
           line_extension_amount (monetary_total d); total_iva d] ->
     Comparator._parse_colombian_number (float_repr x) <> Ok S754_nan) ->
  exists r,
    Reconciliation._run_oc_comparison invoice_cache cache inv oc_doc
    = Reconciliation.Returns (<[inv := r]> cache)
    /\ map Documents.match_type (Documents.comparisons r)
       = [ match order_reference d with Some _ => "exact" | None => "both_missing" end;
           "exact"; "exact"; "exact"; "exact"; "exact" ]
    /\ Documents.matched_fields r = 6%nat
    /\ Documents.match_percentage r = of_decimal false 100 0
    /\ Documents.overall_match r = true
    /\ Documents.conclusion_type r = "success".
Proof.
  intros Hd Hnumber Hecho Hnan.
  destruct (run_oc_comparison_present invoice_cache cache inv oc_doc d Hd)
    as (cs & _ & Hcs & ->).
  cbv zeta. rewrite Hnumber.
  eexists. split; [reflexivity |].
  cbn [Documents.comparisons Documents.matched_fields Documents.overall_match
       Documents.conclusion_type Documents.match_percentage].
  unfold Documents.XML_TO_OC_FIELD_MAPPING in Hcs, Hecho.
  cbn [rmap] in Hcs. unfold Reconciliation.compare_field in Hcs.
  rewrite (Hecho _ _ (or_introl eq_refl)),
    (Hecho _ _ (or_intror (or_introl eq_refl))),
    (Hecho _ _ (or_intror (or_intror (or_introl eq_refl)))),
    (Hecho _ _ (or_intror (or_intror (or_intror (or_introl eq_refl))))),
    (Hecho _ _ (or_intror (or_intror (or_intror (or_intror (or_introl eq_refl)))))),
    (Hecho _ _ (or_intror (or_intror (or_intror (or_intror (or_intror
                  (or_introl eq_refl)))))))
    in Hcs.
  cbn [Documents.oc_field Documents.compare_type Documents.tolerance
       Documents.label default] in Hcs.
  destruct (xml_values_lookup d) as (H1 & H2 & H3 & H4 & H5 & H6).
  rewrite H1, H2, H3, H4, H5, H6 in Hcs.
  unfold Reconciliation.text_of_value in Hcs.
  cbn [default from_option id Rules.is_none Rules.py_str] in Hcs.
  assert (Hnumeric : forall x tolerance,
            In x [payable_amount (monetary_total d);
                  line_extension_amount (monetary_total d); total_iva d] ->
            Comparator._compare_values (Some (float_repr x)) (Some (float_repr x))
              "numeric" tolerance = Ok (true, "exact", None)).
  { intros x tolerance Hx.
    destruct (same_text_comparison (float_repr x) tolerance)
      as (_ & _ & [Hok | [Hbad _]]); [exact Hok |].
    now destruct (Hnan x Hx). }
  rewrite (proj1 (same_text_comparison (company_id (supplier d)) _)) in Hcs.
  rewrite (proj1 (proj2 (same_text_comparison (registration_name (supplier d)) _)))
    in Hcs.
  rewrite !Hnumeric in Hcs by (cbn; tauto).
  destruct (order_reference d) as [ref |]; cbn [Rules.is_none Rules.py_str] in Hcs.
  - rewrite (proj1 (same_text_comparison (order_id ref) _)) in Hcs.
    cbn in Hcs. injection Hcs as <-. repeat split; vm_compute; reflexivity.
  - cbn in Hcs. injection Hcs as <-. repeat split; vm_compute; reflexivity.
Qed.

Lemma echoed_order_matches_witness :
  exists r,
    @Reconciliation._run_oc_comparison Samples.repr_whole
      Samples.packages ∅ "FE-1" Samples.echoed_order
    = Reconciliation.Returns (<["FE-1" := r]> ∅)
    /\ map Documents.match_type (Documents.comparisons r)
       = [ match order_reference Samples.invoice with
           | Some _ => "exact"
           | None => "both_missing"
           end;
           "exact"; "exact"; "exact"; "exact"; "exact" ]
    /\ Documents.matched_fields r = 6%nat
    /\ Documents.match_percentage r = of_decimal false 100 0
    /\ Documents.overall_match r = true
    /\ Documents.conclusion_type r = "success".
Proof.
  refine (@echoed_order_matches Samples.repr_whole Samples.packages ∅ "FE-1"
            Samples.echoed_order Samples.invoice None eq_refl eq_refl _ _).
  - intros xml_field mapping Hin. cbn in Hin.
    repeat (destruct Hin as [[= <- <-] | Hin]; [vm_compute; reflexivity |]).
    destruct Hin.
  - intros x Hin. cbn in Hin.
    repeat (destruct Hin as [<- | Hin]; [vm_compute; discriminate |]).
    destruct Hin.
Defined.

(** ** The flattened field map *)

Lemma string_app_assoc (a b c : string) : (a ++ b) ++ c = a ++ (b ++ c).
Proof.
  induction a as [| x a IH]; [reflexivity |].
  change ((String x a ++ b) ++ c) with (String x ((a ++ b) ++ c)).
  now rewrite IH.
Qed.

Lemma chars_app (a b : string) :
  list_ascii_of_string (a ++ b)
  = (list_ascii_of_string a ++ list_ascii_of_string b)%list.
Proof.
  induction a as [| x a IH]; [reflexivity |].
  change (String x a ++ b) with (String x (a ++ b)).
  cbn [list_ascii_of_string app]. now rewrite IH.
Qed.

Lemma chars_inj (a b : string) :
  list_ascii_of_string a = list_ascii_of_string b -> a = b.
Proof.
  intros Heq. rewrite <- (string_of_list_ascii_of_string a),
    <- (string_of_list_ascii_of_string b). now rewrite Heq.
Qed.

Lemma chars_length (a : string) : length (list_ascii_of_string a) = String.length a.
Proof. induction a as [| x a IH]; cbn; [reflexivity | now rewrite IH]. Qed.

Lemma suffix_cancel (x y s : string) : x ++ s = y ++ s -> x = y.
Proof.
  intros Heq. apply chars_inj.
  apply (f_equal list_ascii_of_string) in Heq. rewrite !chars_app in Heq.
  now apply app_inv_tail in Heq.
Qed.

Lemma suffix_clash (x y s1 s2 : string) :
  String.length s1 = String.length s2 -> s1 <> s2 -> x ++ s1 <> y ++ s2.
Proof.
  intros Hlen Hne Heq. apply Hne, chars_inj.
  apply (f_equal list_ascii_of_string) in Heq. rewrite !chars_app in Heq.
  apply app_inj_2 in Heq; [tauto |].
  now rewrite !chars_length.
Qed.

Lemma prefix_cancel (p x y : string) : p ++ x = p ++ y -> x = y.
Proof.
  induction p as [| c p IH]; [trivial |].
  change (String c p ++ x) with (String c (p ++ x)).
  change (String c p ++ y) with (String c (p ++ y)).
  intros [= Heq]. now apply IH.
Qed.

Lemma prefix_append (a b : string) : String.prefix a (a ++ b) = true.
Proof.
  induction a as [| c a IH]; [now destruct b |].
  change (String c a ++ b) with (String c (a ++ b)).
  cbn [String.prefix]. now destruct (ascii_dec c c).
Qed.

(** Two texts that begin a common text begin alike. *)
Lemma prefix_first_char (c1 c2 : ascii) (p1 p2 k : string) :
  String.prefix (String c1 p1) k = true ->
  String.prefix (String c2 p2) k = true -> c1 = c2.
Proof.
  destruct k as [| c k]; [discriminate |]. cbn [String.prefix].
  destruct (ascii_dec c1 c), (ascii_dec c2 c); congruence.
Qed.

(** The three suffixes of the flat tax keys end differently. *)
Lemma flat_suffixes_differ (x y : string) :
  x ++ "_base" <> y ++ "_porcentaje"
  /\ x ++ "_base" <> y ++ "_valor"
  /\ x ++ "_porcentaje" <> y ++ "_valor".
Proof.
  repeat split.
  - change "_porcentaje" with ("_porce" ++ "ntaje"). rewrite <- string_app_assoc.
    now apply suffix_clash.
  - change "_valor" with ("_" ++ "valor"). rewrite <- string_app_assoc.
    now apply suffix_clash.
  - intros Heq. symmetry in Heq. revert Heq.
    change "_porcentaje" with ("_porc" ++ "entaje"). rewrite <- string_app_assoc.
    now apply suffix_clash.
Qed.

Lemma fold_insert_notin {A : Type} (items : list (string * A)) :
  forall (m : gmap string A) (k : string),
    ~ In k (map fst items) ->
    fold_left (fun d kv => <[kv.1 := kv.2]> d) items m !! k = m !! k.
Proof.
  induction items as [| [k0 v0] items IH]; intros m k Hk; [reflexivity |].
  cbn [fold_left fst snd]. rewrite IH by (cbn in Hk; tauto).
  apply lookup_insert_ne. cbn in Hk. tauto.
Qed.

Lemma fold_insert_in {A : Type} (items : list (string * A)) :
  forall (m : gmap string A) (k : string) (v : A),
    List.NoDup (map fst items) -> In (k, v) items ->
    fold_left (fun d kv => <[kv.1 := kv.2]> d) items m !! k = Some v.
Proof.
  induction items as [| [k0 v0] items IH]; intros m k v Hnodup Hin; [destruct Hin |].
  cbn [map fst] in Hnodup. apply List.NoDup_cons_iff in Hnodup as [Hk0 Hnodup].
  cbn [fold_left fst snd]. destruct Hin as [[= -> ->] | Hin].
  - rewrite fold_insert_notin by exact Hk0. apply lookup_insert_eq.
  - now apply IH.
Qed.

Lemma fold_insert_some {A : Type} (items : list (string * A)) :
  forall (m : gmap string A) (k : string),
    is_Some (fold_left (fun d kv => <[kv.1 := kv.2]> d) items m !! k) ->
    In k (map fst items) \/ is_Some (m !! k).
Proof.
  induction items as [| [k0 v0] items IH]; intros m k Hsome; [now right |].
  cbn [fold_left fst snd] in Hsome. apply IH in Hsome as [Hin | Hsome].
  - left. now right.
  - destruct (decide (k0 = k)) as [-> | Hne]; [left; now left |].
    rewrite lookup_insert_ne in Hsome by exact Hne. now right.
Qed.

(** The keys of the dict display [xml_to_dict] starts from. *)
Lemma header_keys (d : XMLInvoiceData) :
  map fst (Flat.header d)
  = [ "invoice_number"; "cufe"; "issue_date"; "issue_time"; "due_date";
      "currency_code"; "invoice_type_code"; "supplier_nit"; "supplier_name";
      "supplier_tax_level"; "supplier_address"; "supplier_city";
      "supplier_department"; "supplier_email"; "supplier_phone"; "customer_nit";
      "customer_name"; "customer_tax_level"; "customer_supplier_code";
      "customer_address"; "customer_city"; "subtotal"; "total_iva";
      "total_retenciones"; "total_con_iva"; "total_pagable"; "total_descuentos";
      "total_cargos"; "prepago"; "orden_compra"; "sales_order"; "qr_code";
      "notes"; "line_count" ].
Proof. reflexivity. Qed.

(** No key that [xml_to_dict] sets by name begins like a flat tax
    key or like the key of a document field, and the names differ. *)
Lemma named_keys_apart (d : XMLInvoiceData) (k : string) :
  In k (map fst (Flat.header d)
        ++ ["taxes"; "withholding_taxes"; "items"; "attachment_references"])%list ->
  String.prefix "tax_" k = false
  /\ String.prefix "retencion_" k = false
  /\ forall t, String.prefix (Documents.DocumentType_value t ++ "_") k = false.
Proof.
  rewrite header_keys. intros Hin.
  assert (Hall : forallb
            (fun k =>
               negb (String.prefix "tax_" k) && negb (String.prefix "retencion_" k)
               && forallb
                    (fun t => negb (String.prefix (Documents.DocumentType_value t ++ "_") k))
                    [Documents.ORDEN_COMPRA; Documents.FORMATO_CUMPLIMIENTO;
                     Documents.EXCEL_MANO_OBRA; Documents.EXCEL_FABRICANTES;
                     Documents.XML_FACTURA; Documents.UNKNOWN])
            ([ "invoice_number"; "cufe"; "issue_date"; "issue_time"; "due_date";
               "currency_code"; "invoice_type_code"; "supplier_nit"; "supplier_name";
               "supplier_tax_level"; "supplier_address"; "supplier_city";
               "supplier_department"; "supplier_email"; "supplier_phone";
               "customer_nit"; "customer_name"; "customer_tax_level";
               "customer_supplier_code"; "customer_address"; "customer_city";
               "subtotal"; "total_iva"; "total_retenciones"; "total_con_iva";
               "total_pagable"; "total_descuentos"; "total_cargos"; "prepago";
               "orden_compra"; "sales_order"; "qr_code"; "notes"; "line_count" ]
             ++ ["taxes"; "withholding_taxes"; "items"; "attachment_references"])%list
          = true) by (vm_compute; reflexivity).
  rewrite forallb_forall in Hall. specialize (Hall k Hin).
  rewrite !andb_true_iff, !negb_true_iff, forallb_forall in Hall.
  destruct Hall as [[Htax Hret] Hdoc].
  repeat split; [exact Htax | exact Hret |].
  intros t. apply negb_true_iff, Hdoc. destruct t; cbn; tauto.
Qed.

Lemma header_keys_distinct (d : XMLInvoiceData) : List.NoDup (map fst (Flat.header d)).
Proof.
  rewrite header_keys. apply NoDup_ListNoDup.
  apply (bool_decide_unpack _). vm_compute. exact I.
Qed.

(** A flat tax loop touches only keys that begin with its family. *)
Lemma flat_tax_other (family k : string) (taxes : list TaxDetail) :
  forall m : gmap string Flat.dval,
    String.prefix family k = false ->
    fold_left (Flat.set_flat_tax family) taxes m !! k = m !! k.
Proof.
  induction taxes as [| t taxes IH]; intros m Hk; [reflexivity |].
  cbn [fold_left]. rewrite IH by exact Hk. unfold Flat.set_flat_tax.
  rewrite !lookup_insert_ne; [reflexivity | | |];
    intros <-; rewrite string_app_assoc, prefix_append in Hk; discriminate.
Qed.

(** The lookups that find a named key of [xml_to_dict] where it was
    set. *)
Lemma xml_to_dict_named (d : XMLInvoiceData) (k : string) :
  In k (map fst (Flat.header d)) ->
  Flat.xml_to_dict d !! k = Flat.dict_of (Flat.header d) !! k.
Proof.
  intros Hin.
  destruct (named_keys_apart d k) as (Htax & Hret & _);
    [apply in_or_app; now left |].
  assert (Hnames : ~ In k ["taxes"; "withholding_taxes"; "items";
                           "attachment_references"]).
  { pose proof (header_keys_distinct d) as Hnodup. rewrite header_keys in Hin.
    intros Hk. cbn in Hk.
    destruct Hk as [<- | [<- | [<- | [<- | []]]]];
      cbn in Hin; intuition discriminate. }
  unfold Flat.xml_to_dict.
  rewrite !lookup_insert_ne by (intros <-; apply Hnames; cbn; tauto).
  rewrite !flat_tax_other by assumption.
  rewrite !lookup_insert_ne by (intros <-; apply Hnames; cbn; tauto).
  reflexivity.
Qed.

(** X20.  Every field the dict display of [xml_to_dict] names keeps
    its value in the map returned: no flat tax key and no list key
    stored later replaces one of the 34 header fields, whatever the
    names of the invoice's taxes. *)
Theorem header_fields_survive (d : XMLInvoiceData) :
  Forall (fun kv => Flat.xml_to_dict d !! kv.1 = Some kv.2) (Flat.header d).
Proof.
  apply Forall_forall. intros [k v] Hin. cbn [fst snd].
  apply list_elem_of_In in Hin.
  rewrite xml_to_dict_named by (apply in_map_iff; exists (k, v); now split).
  unfold Flat.dict_of. apply fold_insert_in; [apply header_keys_distinct | exact Hin].
Qed.

(** One step of a flat tax loop, seen from the three keys of a name. *)
Lemma set_flat_tax_lookup (family l : string) (m : gmap string Flat.dval)
    (t : TaxDetail) :
  Flat.set_flat_tax family m t !! ((family ++ l) ++ "_base")
  = (if PyStr.lower (tax_name t) =? l
     then Some (Flat.Scalar (VFloat (taxable_amount t)))
     else m !! ((family ++ l) ++ "_base"))
  /\ Flat.set_flat_tax family m t !! ((family ++ l) ++ "_porcentaje")
     = (if PyStr.lower (tax_name t) =? l
        then Some (Flat.Scalar (VFloat (tax_percentage t)))
        else m !! ((family ++ l) ++ "_porcentaje"))
  /\ Flat.set_flat_tax family m t !! ((family ++ l) ++ "_valor")
     = (if PyStr.lower (tax_name t) =? l
        then Some (Flat.Scalar (VFloat (tax_amount t)))
        else m !! ((family ++ l) ++ "_valor")).
Proof.
  unfold Flat.set_flat_tax.
  set (x := family ++ PyStr.lower (tax_name t)). set (y := family ++ l).
  destruct (flat_suffixes_differ x y) as (Hbp & Hbv & Hpv).
  destruct (flat_suffixes_differ y x) as (Hbp' & Hbv' & Hpv').
  assert (Hsame : forall s, x ++ s = y ++ s <-> PyStr.lower (tax_name t) = l).
  { intros s. subst x y. split.
    - intros Heq. apply suffix_cancel in Heq. now apply prefix_cancel in Heq.
    - now intros ->. }
  assert (Hapart : forall s1 s2, s1 <> s2 ->
            In s1 ["_base"; "_porcentaje"; "_valor"] ->
            In s2 ["_base"; "_porcentaje"; "_valor"] ->
            x ++ s1 <> y ++ s2).
  { intros s1 s2 Hs H1 H2. cbn in H1, H2.
    destruct H1 as [<- | [<- | [<- | []]]], H2 as [<- | [<- | [<- | []]]];
      try congruence; try assumption; apply not_eq_sym; assumption. }
  assert (Hlookup : forall s1 s2 v (m' : gmap string Flat.dval), s1 <> s2 ->
            In s1 ["_base"; "_porcentaje"; "_valor"] ->
            In s2 ["_base"; "_porcentaje"; "_valor"] ->
            <[x ++ s1 := v]> m' !! (y ++ s2) = m' !! (y ++ s2)).
  { intros s1 s2 v m' Hs H1 H2. apply lookup_insert_ne. now apply Hapart. }
  destruct (String.eqb_spec (PyStr.lower (tax_name t)) l) as [Heq | Hne].
  - assert (Hxy : x = y) by (subst x y; now rewrite Heq).
    repeat split.
    + rewrite !Hlookup by (cbn; intuition discriminate).
      rewrite Hxy. apply lookup_insert_eq.
    + rewrite !Hlookup by (cbn; intuition discriminate).
      rewrite Hxy. apply lookup_insert_eq.
    + rewrite Hxy. apply lookup_insert_eq.
  - assert (Hs : forall s, x ++ s <> y ++ s) by (intros s H; now apply Hsame in H).
    repeat split.
    + rewrite !Hlookup by (cbn; intuition discriminate).
      now rewrite lookup_insert_ne by apply Hs.
    + rewrite !Hlookup by (cbn; intuition discriminate).
      rewrite lookup_insert_ne by apply Hs.
      now rewrite !Hlookup by (cbn; intuition discriminate).
    + rewrite lookup_insert_ne by apply Hs.
      now rewrite !Hlookup by (cbn; intuition discriminate).
Qed.

Lemma last_filter_cons {A : Type} (p : A -> bool) (x : A) (l : list A) :
  last (List.filter p (x :: l))
  = match last (List.filter p l) with
    | Some y => Some y
    | None => if p x then Some x else None
    end.
Proof.
  cbn [List.filter]. destruct (p x); [| now destruct (last _)].
  destruct (List.filter p l) as [| y ys] eqn:Hf; [reflexivity |].
  rewrite last_cons. now destruct (last (y :: ys)).
Qed.

(** A flat tax loop leaves, under the three keys of a name, the values
    of the last entry with that name. *)
Lemma flat_taxes_lookup (family l : string) (taxes : list TaxDetail) :
  forall m : gmap string Flat.dval,
    let named := last (List.filter (fun t => PyStr.lower (tax_name t) =? l) taxes) in
    fold_left (Flat.set_flat_tax family) taxes m !! ((family ++ l) ++ "_base")
    = match named with
      | Some t => Some (Flat.Scalar (VFloat (taxable_amount t)))
      | None => m !! ((family ++ l) ++ "_base")
      end
    /\ fold_left (Flat.set_flat_tax family) taxes m !! ((family ++ l) ++ "_porcentaje")
       = match named with
         | Some t => Some (Flat.Scalar (VFloat (tax_percentage t)))
         | None => m !! ((family ++ l) ++ "_porcentaje")
         end
    /\ fold_left (Flat.set_flat_tax family) taxes m !! ((family ++ l) ++ "_valor")
       = match named with
         | Some t => Some (Flat.Scalar (VFloat (tax_amount t)))
         | None => m !! ((family ++ l) ++ "_valor")
         end.
Proof.
  induction taxes as [| t taxes IH]; intros m; [repeat split; reflexivity |].
  cbv zeta. rewrite last_filter_cons. cbn [fold_left].
  destruct (IH (Flat.set_flat_tax family m t)) as (Hb & Hp & Hv).
  destruct (set_flat_tax_lookup family l m t) as (Hb1 & Hp1 & Hv1).
  rewrite Hb, Hp, Hv, Hb1, Hp1, Hv1.
  destruct (last (List.filter _ taxes)); [repeat split; reflexivity |].
  destruct (PyStr.lower (tax_name t) =? l); repeat split; reflexivity.
Qed.

Lemma insert_lookup_congruence {A : Type} (m1 m2 : gmap string A)
    (a k : string) (v : A) :
  m1 !! k = m2 !! k -> <[a := v]> m1 !! k = <[a := v]> m2 !! k.
Proof.
  intros Hm. destruct (decide (a = k)) as [Heq | Hne].
  - subst a. now rewrite !lookup_insert_eq.
  - now rewrite !lookup_insert_ne by exact Hne.
Qed.

(** What a flat tax loop leaves under a key depends on the map it
    starts from through that key only. *)
Lemma flat_tax_congruence (family k : string) (taxes : list TaxDetail) :
  forall m1 m2 : gmap string Flat.dval,
    m1 !! k = m2 !! k ->
    fold_left (Flat.set_flat_tax family) taxes m1 !! k
    = fold_left (Flat.set_flat_tax family) taxes m2 !! k.
Proof.
  induction taxes as [| t ts IH]; intros m1 m2 Hm; [exact Hm |].
  cbn [fold_left]. apply IH. unfold Flat.set_flat_tax.
  now do 3 apply insert_lookup_congruence.
Qed.

(** A key that begins like a flat tax key is set by no name. *)
Lemma flat_key_not_named (d : XMLInvoiceData) (family k : string) :
  family = "tax_" \/ family = "retencion_" ->
  String.prefix family k = true ->
  ~ In k (map fst (Flat.header d)
          ++ ["taxes"; "withholding_taxes"; "items"; "attachment_references"])%list.
Proof.
  intros Hfamily Hk Hin.
  destruct (named_keys_apart d k Hin) as (Htax & Hret & _).
  destruct Hfamily as [-> | ->]; congruence.
Qed.

(** X21.  The flat tax fields of a name hold the values of the last
    tax entry with that name, in lower case: [tax_<name>_base],
    [tax_<name>_porcentaje] and [tax_<name>_valor] for the output
    taxes, [retencion_<name>_...] for the withholdings, and no key
    when no entry has the name.  An earlier entry of the same name is
    overwritten: with IVA at 19 % followed by IVA at 16 %,
    [tax_iva_porcentaje] is 16.0, while R004, which reads the first
    IVA entry, passes. *)
Theorem flat_tax_fields_hold_last (d : XMLInvoiceData) (l : string) :
  let named := fun taxes =>
    last (List.filter (fun t => PyStr.lower (tax_name t) =? l) taxes) in
  Flat.xml_to_dict d !! (("tax_" ++ l) ++ "_base")
  = (fun t => Flat.Scalar (VFloat (taxable_amount t))) <$> named (taxes d)
  /\ Flat.xml_to_dict d !! (("tax_" ++ l) ++ "_porcentaje")
     = (fun t => Flat.Scalar (VFloat (tax_percentage t))) <$> named (taxes d)
  /\ Flat.xml_to_dict d !! (("tax_" ++ l) ++ "_valor")
     = (fun t => Flat.Scalar (VFloat (tax_amount t))) <$> named (taxes d)
  /\ Flat.xml_to_dict d !! (("retencion_" ++ l) ++ "_base")
     = (fun t => Flat.Scalar (VFloat (taxable_amount t)))
       <$> named (withholding_taxes d)
  /\ Flat.xml_to_dict d !! (("retencion_" ++ l) ++ "_porcentaje")
     = (fun t => Flat.Scalar (VFloat (tax_percentage t)))
       <$> named (withholding_taxes d)
  /\ Flat.xml_to_dict d !! (("retencion_" ++ l) ++ "_valor")
     = (fun t => Flat.Scalar (VFloat (tax_amount t)))
       <$> named (withholding_taxes d)
  /\ Flat.xml_to_dict
       (Examples.invoice Examples.two_rates (of_decimal false 135000 0))
     !! "tax_iva_porcentaje"
     = Some (Flat.Scalar (VFloat (of_decimal false 16 0)))
  /\ status (Rules._evaluate_r004
               (Some (Examples.invoice Examples.two_rates
                        (of_decimal false 135000 0))))
     = PASSED.
Proof.
  cbv zeta.
  assert (Hbase : forall family sfx,
            family = "tax_" \/ family = "retencion_" ->
            Flat.dict_of (Flat.header d) !! ((family ++ l) ++ sfx) = None
            /\ "taxes" <> (family ++ l) ++ sfx
            /\ "withholding_taxes" <> (family ++ l) ++ sfx
            /\ "items" <> (family ++ l) ++ sfx
            /\ "attachment_references" <> (family ++ l) ++ sfx).
  { intros family sfx Hfamily.
    assert (Hk : String.prefix family ((family ++ l) ++ sfx) = true)
      by (rewrite string_app_assoc; apply prefix_append).
    pose proof (flat_key_not_named d family _ Hfamily Hk) as Hnot.
    split.
    - unfold Flat.dict_of. rewrite fold_insert_notin; [apply lookup_empty |].
      intros Hin. apply Hnot, in_or_app. now left.
    - repeat split; intros Heq; apply Hnot, in_or_app; right; rewrite <- Heq;
        cbn; tauto. }
  assert (Htax : forall sfx,
            Flat.xml_to_dict d !! (("tax_" ++ l) ++ sfx)
            = fold_left (Flat.set_flat_tax "tax_") (taxes d) ∅
              !! (("tax_" ++ l) ++ sfx)).
  { intros sfx. destruct (Hbase "tax_" sfx (or_introl eq_refl))
      as (Hnone & H1 & H2 & H3 & H4).
    unfold Flat.xml_to_dict.
    rewrite !lookup_insert_ne by assumption.
    rewrite flat_tax_other by reflexivity.
    apply flat_tax_congruence. rewrite !lookup_insert_ne by assumption.
    now rewrite Hnone, lookup_empty. }
  assert (Hret : forall sfx,
            Flat.xml_to_dict d !! (("retencion_" ++ l) ++ sfx)
            = fold_left (Flat.set_flat_tax "retencion_") (withholding_taxes d) ∅
              !! (("retencion_" ++ l) ++ sfx)).
  { intros sfx. destruct (Hbase "retencion_" sfx (or_intror eq_refl))
      as (Hnone & H1 & H2 & H3 & H4).
    unfold Flat.xml_to_dict.
    rewrite !lookup_insert_ne by assumption.
    apply flat_tax_congruence. rewrite flat_tax_other by reflexivity.
    rewrite !lookup_insert_ne by assumption.
    now rewrite Hnone, lookup_empty. }
  destruct (flat_taxes_lookup "tax_" l (taxes d) ∅) as (Hb & Hp & Hv).
  destruct (flat_taxes_lookup "retencion_" l (withholding_taxes d) ∅)
    as (Hb' & Hp' & Hv').
  cbv zeta in Hb, Hp, Hv, Hb', Hp', Hv'.
  rewrite !Htax, !Hret, Hb, Hp, Hv, Hb', Hp', Hv', !lookup_empty.
  repeat split;
    try (now destruct (last (List.filter _ _)));
    vm_compute; reflexivity.
Qed.

(** What the loop over the fields of one document leaves: each field
    under its prefixed key, every key without the prefix as it was. *)
Lemma add_document_lookup (flat_data : gmap string Flat.dval)
    (doc : Documents.ProcessedDocument) :
  let doc_prefix := Documents.DocumentType_value (Documents.document_type doc) in
  (forall name field,
     Documents.extracted_fields doc !! name = Some field ->
     Flat.add_document flat_data doc !! (doc_prefix ++ "_" ++ name)
     = Some (Flat.Scalar (Documents.field_value field)))
  /\ (forall k,
        String.prefix (doc_prefix ++ "_") k = false ->
        Flat.add_document flat_data doc !! k = flat_data !! k).
Proof.
  cbv zeta. unfold Flat.add_document.
  set (doc_prefix := Documents.DocumentType_value (Documents.document_type doc)).
  apply (map_fold_weak_ind
           (fun (r : gmap string Flat.dval) (m : gmap string Documents.ExtractedField) =>
              (forall name field,
                 m !! name = Some field ->
                 r !! (doc_prefix ++ "_" ++ name)
                 = Some (Flat.Scalar (Documents.field_value field)))
              /\ (forall k,
                    String.prefix (doc_prefix ++ "_") k = false ->
                    r !! k = flat_data !! k))).
  - split; [intros name field Hf; now rewrite lookup_empty in Hf | reflexivity].
  - intros i x m r Hi [IHfields IHother]. split.
    + intros name field Hf.
      destruct (decide (i = name)) as [-> | Hne].
      * rewrite lookup_insert_eq in Hf. injection Hf as ->.
        apply lookup_insert_eq.
      * rewrite lookup_insert_ne in Hf by exact Hne.
        rewrite lookup_insert_ne; [now apply IHfields |].
        intros Heq. apply Hne.
        apply prefix_cancel in Heq. now apply (prefix_cancel "_") in Heq.
    + intros k Hk. rewrite lookup_insert_ne; [now apply IHother |].
      intros <-. rewrite <- string_app_assoc, prefix_append in Hk. discriminate.
Qed.

Lemma documents_other (docs : list Documents.ProcessedDocument) (k : string) :
  (forall t, String.prefix (Documents.DocumentType_value t ++ "_") k = false) ->
  forall start : gmap string Flat.dval,
    fold_left Flat.add_document docs start !! k = start !! k.
Proof.
  intros Hk. induction docs as [| doc docs IH]; intros start; [reflexivity |].
  cbn [fold_left]. rewrite IH. now apply add_document_lookup.
Qed.

(** A key of [xml_to_dict] never begins like the key of a document
    field. *)
Lemma xml_keys_not_document_keys (d : XMLInvoiceData) (k : string) :
  is_Some (Flat.xml_to_dict d !! k) ->
  forall t, String.prefix (Documents.DocumentType_value t ++ "_") k = false.
Proof.
  intros Hsome.
  assert (Hnamed :
    In k (map fst (Flat.header d)
          ++ ["taxes"; "withholding_taxes"; "items"; "attachment_references"])%list
    \/ String.prefix "tax_" k = true \/ String.prefix "retencion_" k = true).
  { unfold Flat.xml_to_dict in Hsome.
    destruct (decide ("attachment_references" = k)) as [<- | H1];
      [left; apply in_or_app; right; cbn; tauto |].
    rewrite lookup_insert_ne in Hsome by exact H1.
    destruct (decide ("items" = k)) as [<- | H2];
      [left; apply in_or_app; right; cbn; tauto |].
    rewrite lookup_insert_ne in Hsome by exact H2.
    destruct (String.prefix "retencion_" k) eqn:Hret; [tauto |].
    rewrite flat_tax_other in Hsome by exact Hret.
    destruct (String.prefix "tax_" k) eqn:Htax; [tauto |].
    rewrite flat_tax_other in Hsome by exact Htax.
    destruct (decide ("withholding_taxes" = k)) as [<- | H3];
      [left; apply in_or_app; right; cbn; tauto |].
    rewrite lookup_insert_ne in Hsome by exact H3.
    destruct (decide ("taxes" = k)) as [<- | H4];
      [left; apply in_or_app; right; cbn; tauto |].
    rewrite lookup_insert_ne in Hsome by exact H4.
    apply fold_insert_some in Hsome as [Hin | Hempty].
    - left. apply in_or_app. now left.
    - rewrite lookup_empty in Hempty. now destruct Hempty. }
  intros t. destruct Hnamed as [Hin | Hflat].
  - now apply (named_keys_apart d k Hin).
  - destruct (String.prefix (Documents.DocumentType_value t ++ "_") k) eqn:Hdoc;
      [| reflexivity].
    destruct Hflat as [Hflat | Hflat];
      destruct t; cbv [Documents.DocumentType_value String.append] in Hdoc;
      match type of Hdoc with
      | String.prefix (String ?c2 ?p2) _ = true =>
          match type of Hflat with
          | String.prefix (String ?c1 ?p1) _ = true =>
              pose proof (prefix_first_char c1 c2 p1 p2 k Hflat Hdoc) as Hc
          end
      end; discriminate.
Qed.

(** X22.  In the flattened map [validate_invoice] builds, every field
    of an uploaded document is stored under the value of its document
    type, an underscore and the field name, and no document replaces
    a field that [xml_to_dict] set: a dynamic rule on an XML field
    reads the same value whatever has been uploaded. *)
Theorem uploads_keep_xml_fields (d : XMLInvoiceData)
    (docs : list Documents.ProcessedDocument) (doc : Documents.ProcessedDocument)
    (name k : string) (field : Documents.ExtractedField) :
  Documents.extracted_fields doc !! name = Some field ->
  is_Some (Flat.xml_to_dict d !! k) ->
  Flat.build_flat_data d (docs ++ [doc])
  !! (Documents.DocumentType_value (Documents.document_type doc) ++ "_" ++ name)
  = Some (Flat.Scalar (Documents.field_value field))
  /\ Flat.build_flat_data d (docs ++ [doc]) !! k = Flat.xml_to_dict d !! k.
Proof.
  intros Hfield Hk. unfold Flat.build_flat_data. split.
  - rewrite fold_left_app. cbn [fold_left]. now apply add_document_lookup.
  - apply documents_other. exact (xml_keys_not_document_keys d k Hk).
Qed.

Lemma uploads_keep_xml_fields_witness :
  Documents.extracted_fields Samples.scanned_order !! "InvoiceTotal"
  = Some {| Documents.field_name := "InvoiceTotal";
            Documents.field_value := VStr "119.000 COP";
            Documents.confidence := of_decimal false 95 (-2) |}
  /\ Flat.xml_to_dict Samples.invoice !! "total_pagable"
     = Some (Flat.Scalar (VFloat (of_decimal false 119000 0)))
  /\ Flat.build_flat_data Samples.invoice ([] ++ [Samples.scanned_order])
     !! ("orden_compra" ++ "_" ++ "InvoiceTotal")
     = Some (Flat.Scalar (VStr "119.000 COP"))
  /\ Flat.build_flat_data Samples.invoice ([] ++ [Samples.scanned_order])
     !! "total_pagable"
     = Flat.xml_to_dict Samples.invoice !! "total_pagable".
Proof.
  assert (Hfield :
    Documents.extracted_fields Samples.scanned_order !! "InvoiceTotal"
    = Some {| Documents.field_name := "InvoiceTotal";
              Documents.field_value := VStr "119.000 COP";
              Documents.confidence := of_decimal false 95 (-2) |})
    by (vm_compute; reflexivity).
  assert (Hkey : Flat.xml_to_dict Samples.invoice !! "total_pagable"
                 = Some (Flat.Scalar (VFloat (of_decimal false 119000 0))))
    by (vm_compute; reflexivity).
  exact (conj Hfield (conj Hkey
           (uploads_keep_xml_fields Samples.invoice [] Samples.scanned_order
              "InvoiceTotal" "total_pagable" _ Hfield
              (ex_intro _ _ Hkey)))).
Defined.

Lemma custom_rule_reads_field `{PyRepr} (rule : ValidationRule)
    (data1 data2 : gmap string pyval) :
  (forall c, condicion rule = Some c -> data1 !! campo c = data2 !! campo c) ->
  Rules._evaluate_custom_rule rule data1 = Rules._evaluate_custom_rule rule data2.
Proof.
  intros Hsame. unfold Rules._evaluate_custom_rule.
  destruct (condicion rule) as [c |]; [| reflexivity].
  now rewrite (Hsame c eq_refl).
Qed.

(** X23.  When no custom rule of the invoice names a field that
    begins with a document type and an underscore, [validate_invoice]
    answers the same with and without uploaded documents: the
    documents reach the validation through such fields only. *)
Theorem uploads_reach_rules_by_prefix `{PyRepr} (now : Z)
    (invoice_cache : gmap string Documents.InvoicePackage)
    (custom_rules_cache : gmap string (list ValidationRule))
    (uploaded_documents_cache : gmap string (list Documents.ProcessedDocument))
    (from_blob : option XMLInvoiceData) (inv : string) :
  (forall rule c t,
     In rule (default [] (custom_rules_cache !! inv)) ->
     condicion rule = Some c ->
     String.prefix (Documents.DocumentType_value t ++ "_") (campo c) = false) ->
  Flat.validate_invoice now invoice_cache custom_rules_cache
    uploaded_documents_cache from_blob inv
  = Flat.validate_invoice now invoice_cache custom_rules_cache ∅ from_blob inv.
Proof.
  intros Hrules. unfold Flat.validate_invoice.
  destruct (match invoice_cache !! inv with
            | Some package => Documents.package_xml_data package
            | None => from_blob
            end) as [d |]; [| reflexivity].
  rewrite lookup_empty. cbn [default from_option].
  assert (Hsame :
    Rules.validate now inv (Some d) (Some (default [] (custom_rules_cache !! inv)))
      (Some (Flat.flat_value
             <$> Flat.build_flat_data d
                   (default [] (uploaded_documents_cache !! inv))))
    = Rules.validate now inv (Some d) (Some (default [] (custom_rules_cache !! inv)))
        (Some (Flat.flat_value <$> Flat.build_flat_data d []))).
  { unfold Rules.validate. cbn [default from_option id].
    rewrite (map_ext_in
               (fun rule => Rules._evaluate_custom_rule rule
                              (Flat.flat_value
                               <$> Flat.build_flat_data d
                                     (default [] (uploaded_documents_cache !! inv))))
               (fun rule => Rules._evaluate_custom_rule rule
                              (Flat.flat_value <$> Flat.build_flat_data d [])));
      [reflexivity |].
    intros rule Hin. apply custom_rule_reads_field. intros c Hc.
    rewrite !lookup_fmap. f_equal.
    unfold Flat.build_flat_data. cbn [fold_left].
    apply documents_other. intros t. now apply (Hrules rule c t). }
  cbn [default from_option id] in Hsame |- *. now rewrite Hsame.
Qed.

Lemma uploads_reach_rules_by_prefix_witness :
  @Flat.validate_invoice Samples.repr_whole 0 Samples.packages
    {[ "FE-1" := [Samples.currency_rule "=="] ]}
    {[ "FE-1" := [Samples.scanned_order] ]} None "FE-1"
  = @Flat.validate_invoice Samples.repr_whole 0 Samples.packages
      {[ "FE-1" := [Samples.currency_rule "=="] ]} ∅ None "FE-1".
Proof.
  refine (@uploads_reach_rules_by_prefix Samples.repr_whole 0 Samples.packages
            {[ "FE-1" := [Samples.currency_rule "=="] ]}
            {[ "FE-1" := [Samples.scanned_order] ]} None "FE-1" _).
  intros rule c t Hin Hc. cbn in Hin. destruct Hin as [<- | []].
  injection Hc as <-. now destruct t.
Defined.

(** ** XML parser, continued *)

Lemma rmap_length {A B : Type} (f : A -> result B) (l : list A) :
  forall bs, rmap f l = Ok bs -> length bs = length l.
Proof.
  induction l as [| a l IH]; intros bs; cbn [rmap].
  - now intros [= <-].
  - destruct (f a) as [b | e]; cbn [rbind]; [| discriminate].
    destruct (rmap f l) as [bs' | e]; cbn [rbind]; [| discriminate].
    intros [= <-]. cbn. now rewrite (IH bs' eq_refl).
Qed.

Lemma rmap_raises {A B : Type} (f : A -> result B) (l : list A) (e : pyexc) :
  rmap f l = Raise e -> exists a, In a l /\ f a = Raise e.
Proof.
  induction l as [| a l IH]; cbn [rmap]; [discriminate |].
  destruct (f a) as [b | e'] eqn:Hf; cbn [rbind].
  - destruct (rmap f l) as [bs | e']; cbn [rbind]; [discriminate |].
    intros [= ->]. destruct (IH eq_refl) as (a' & Hin & Ha').
    exists a'. split; [now right | exact Ha'].
  - intros [= ->]. exists a. split; [now left | exact Hf].
Qed.

Lemma float_of_str_raises (s : string) (e : pyexc) :
  float_of_str s = Raise e -> e = ValueError.
Proof.
  unfold float_of_str. destruct (of_string s); [discriminate | now intros [= <-]].
Qed.

(** A line that cannot be read has a quantity text that is no
    number. *)
Lemma parse_invoice_line_raises (line : element) (e : pyexc) :
  Xml._parse_invoice_line line = Raise e ->
  e = ValueError
  /\ exists quantity_elem t,
       Xml.find line (Xml.cbc "InvoicedQuantity") = Some quantity_elem
       /\ Xml.text_of quantity_elem = Some t
       /\ float_of_str t = Raise ValueError.
Proof.
  unfold Xml._parse_invoice_line.
  destruct (Xml.find line (Xml.cbc "InvoicedQuantity")) as [q |];
    cbn [rbind]; [| destruct (Xml.find line (Xml.cac "Item")); discriminate].
  destruct (Xml.text_of q) as [t |] eqn:Ht; cbn [rbind];
    [| destruct (Xml.find line (Xml.cac "Item")); discriminate].
  destruct (PyStr.truthy t); cbn [rbind];
    [| destruct (Xml.find line (Xml.cac "Item")); discriminate].
  destruct (float_of_str t) as [x | e'] eqn:Hx; cbn [rbind];
    [destruct (Xml.find line (Xml.cac "Item")); discriminate |].
  intros [= ->]. pose proof (float_of_str_raises _ _ Hx) as ->.
  split; [reflexivity |]. exists q, t. now repeat split.
Qed.

Lemma int_or_raises (s : string) (n : Z) (e : pyexc) :
  Xml.int_or s n = Raise e ->
  e = ValueError /\ PyStr.isdigit s = true /\ Xml.is_ascii_digits s = false.
Proof.
  unfold Xml.int_or. destruct (PyStr.isdigit s); [| discriminate].
  destruct (Xml.is_ascii_digits s); [discriminate |].
  intros [= <-]. now repeat split.
Qed.

(** The lines, the line count and the order reference of a parsed
    invoice, read off the tree. *)
Lemma parse_root_lines `{XmlLib} (today : date) (path : option string)
    (refs : list AttachmentReference) (root : element) (d : XMLInvoiceData) :
  Xml.parse_root today path refs root = Ok d ->
  rmap Xml._parse_invoice_line (Xml.findall root (Xml.cac "InvoiceLine"))
  = Ok (lines d)
  /\ Xml.int_or (Xml._find_text root (Xml.cbc "LineCountNumeric") "0")
       (Z.of_nat (length (lines d)))
     = Ok (line_count d)
  /\ order_reference d
     = match Xml.find root (Xml.cac "OrderReference") with
       | Some order_ref_elem =>
           let order_id := Xml._find_text order_ref_elem (Xml.cbc "ID") "" in
           if PyStr.truthy order_id
           then Some {| order_id := order_id;
                        sales_order_id :=
                          Xml.nonempty
                            (Xml._find_text order_ref_elem (Xml.cbc "SalesOrderID") "")
                     |}
           else None
       | None => None
       end
  /\ attachment_references d
     = (refs
        ++ match order_reference d with
           | Some ref =>
               [Xml.attachment (order_id ref) "orden_compra"
                  (Some "Orden de Compra referenciada en factura")]
           | None => []
           end)%list.
Proof.
  unfold Xml.parse_root.
  destruct (fold_left _ _ _) as [total_discount total_charges].
  destruct (rmap _ _) as [parsed_lines | e]; cbn [rbind]; [| discriminate].
  destruct (Xml.find root (Xml.cac "OrderReference")) as [order_ref_elem |].
  - cbv zeta.
    destruct (PyStr.truthy (Xml._find_text order_ref_elem (Xml.cbc "ID") ""));
      destruct (Xml.int_or _ _) as [n | e] eqn:Hn; cbn [rbind]; try discriminate;
      intros [= <-]; cbn; rewrite ?app_nil_r; repeat split; exact Hn.
  - destruct (Xml.int_or _ _) as [n | e] eqn:Hn; cbn [rbind]; [| discriminate].
    intros [= <-]. cbn. rewrite app_nil_r. repeat split; exact Hn.
Qed.

Lemma find_text_absent (e : element) (t default : string) :
  Xml.find e t = None -> Xml._find_text e t default = default.
Proof. unfold Xml._find_text. now intros ->. Qed.

(** X24.  The line count of a parsed invoice follows the text of
    [cbc:LineCountNumeric]: a text of ASCII digits, of at most the
    4300 the interpreter converts, is read as the count, and a text
    that [isdigit] refuses gives the number of [cac:InvoiceLine]
    elements.  When the element is absent the text read is [0], so
    the count is 0 however many lines the invoice has. *)
Theorem line_count_reading `{XmlLib} (today : date) (content : string)
    (path : option string) (d : XMLInvoiceData) :
  Xml.parse_dian_xml today content path = Ok d ->
  exists root,
    et_fromstring (Xml.unwrap content).1 = Some root
    /\ length (lines d) = length (Xml.findall root (Xml.cac "InvoiceLine"))
    /\ (Xml.find root (Xml.cbc "LineCountNumeric") = None -> line_count d = 0%Z)
    /\ (PyStr.isdigit (Xml._find_text root (Xml.cbc "LineCountNumeric") "0") = false ->
        line_count d = Z.of_nat (length (lines d)))
    /\ (Xml.is_ascii_digits (Xml._find_text root (Xml.cbc "LineCountNumeric") "0")
        = true ->
        (0 < String.length (Xml._find_text root (Xml.cbc "LineCountNumeric") "0")
         <= 4300)%nat ->
        line_count d
        = Z.of_N (digits_to_N
                    (list_ascii_of_string
                       (Xml._find_text root (Xml.cbc "LineCountNumeric") "0")))).
Proof.
  intros Hparse. rewrite parse_dian_xml_root in Hparse.
  destruct (et_fromstring _) as [root |]; [| discriminate].
  exists root. split; [reflexivity |].
  apply parse_root_lines in Hparse as (Hlines & Hcount & _).
  split; [now apply rmap_length in Hlines |].
  repeat split.
  - intros Habsent. rewrite (find_text_absent _ _ _ Habsent) in Hcount.
    change (Xml.int_or "0" (Z.of_nat (length (lines d)))) with (@Ok Z 0%Z) in Hcount.
    now injection Hcount as <-.
  - intros Hdigit. unfold Xml.int_or in Hcount. rewrite Hdigit in Hcount.
    now injection Hcount as <-.
  - intros Hascii Hlength. unfold Xml.int_or in Hcount.
    rewrite Hascii in Hcount.
    destruct (PyStr.isdigit _) eqn:Hdigit; [now injection Hcount as <- |].
    exfalso. unfold PyStr.isdigit in Hdigit.
    destruct (Xml._find_text root (Xml.cbc "LineCountNumeric") "0") as [| c s];
      [cbn in Hlength; lia |].
    cbn [PyStr.truthy andb] in Hdigit.
    unfold Xml.is_ascii_digits in Hascii.
    assert (Hall : PyStr.all_chars PyStr.isdigit_char (String c s) = true).
    { revert Hascii. apply all_chars_impl. intros a Ha.
      destruct a as [[] [] [] [] [] [] [] []]; vm_compute in Ha |- *; congruence. }
    congruence.
Qed.

Lemma line_count_reading_witness :
  exists d root,
    @Xml.parse_dian_xml Samples.lib Examples.day1
      (Examples.text (Samples.ordered "4500799306" "1.00")) None = Ok d
    /\ Xml.find root (Xml.cbc "LineCountNumeric") = None
    /\ length (lines d) = 2%nat
    /\ line_count d = 0%Z
    /\ @et_fromstring Samples.lib
         (@Xml.unwrap Samples.lib
            (Examples.text (Samples.ordered "4500799306" "1.00"))).1
       = Some root.
Proof.
  destruct (@Xml.parse_dian_xml Samples.lib Examples.day1
              (Examples.text (Samples.ordered "4500799306" "1.00")) None)
    as [d | e] eqn:Hparse; [| vm_compute in Hparse; discriminate].
  destruct (@line_count_reading Samples.lib Examples.day1
              (Examples.text (Samples.ordered "4500799306" "1.00")) None d Hparse)
    as (root & Hroot & Hlen & Habsent & _).
  exists d, root.
  assert (Hfind : Xml.find root (Xml.cbc "LineCountNumeric") = None).
  { vm_compute in Hroot. injection Hroot as <-. vm_compute. reflexivity. }
  split; [reflexivity |].
  split; [exact Hfind |].
  split; [rewrite Hlen; vm_compute in Hroot; injection Hroot as <-;
          vm_compute; reflexivity |].
  split; [exact (Habsent Hfind) | exact Hroot].
Defined.

(** X25.  [parse_dian_xml] fails in three ways only.  It raises the
    parser's error when the text is not well-formed XML, and
    [ValueError] when the quantity text of some invoice line is no
    number or when [int] refuses a line count that [isdigit] accepts,
    as it does digits that are not ASCII.  No other text of the
    document stops the parse: an amount that is no number is read as
    0.0. *)
Theorem parse_failures `{XmlLib} (today : date) (content : string)
    (path : option string) (e : pyexc) :
  Xml.parse_dian_xml today content path = Raise e ->
  (e = ParseError /\ et_fromstring (Xml.unwrap content).1 = None)
  \/ (e = ValueError
      /\ exists root,
           et_fromstring (Xml.unwrap content).1 = Some root
           /\ ((exists line quantity_elem t,
                  In line (Xml.findall root (Xml.cac "InvoiceLine"))
                  /\ Xml.find line (Xml.cbc "InvoicedQuantity") = Some quantity_elem
                  /\ Xml.text_of quantity_elem = Some t
                  /\ float_of_str t = Raise ValueError)
               \/ PyStr.isdigit (Xml._find_text root (Xml.cbc "LineCountNumeric") "0")
                  = true)).
Proof.
  intros Hparse. rewrite parse_dian_xml_root in Hparse.
  destruct (et_fromstring _) as [root |]; [| left; now injection Hparse as <-].
  right. unfold Xml.parse_root in Hparse.
  destruct (fold_left _ _ _) as [total_discount total_charges].
  destruct (rmap _ _) as [parsed_lines | e'] eqn:Hlines; cbn [rbind] in Hparse.
  - destruct (match Xml.find root (Xml.cac "OrderReference") with
              | Some _ => _ | None => _ end) as [oref arefs].
    destruct (Xml.int_or _ _) as [n | e'] eqn:Hn; cbn [rbind] in Hparse;
      [discriminate |].
    injection Hparse as ->. apply int_or_raises in Hn as (-> & Hdigit & Hascii).
    split; [reflexivity |]. exists root. split; [reflexivity |]. now right.
  - injection Hparse as ->.
    apply rmap_raises in Hlines as (line & Hin & Hline).
    apply parse_invoice_line_raises in Hline as (-> & q & t & Hq & Ht & Hx).
    split; [reflexivity |]. exists root. split; [reflexivity |].
    left. exists line, q, t. now repeat split.
Qed.

Lemma parse_failures_witness :
  @Xml.parse_dian_xml Samples.lib Examples.day1
    (Examples.text (Samples.ordered "4500799306" "una")) None
  = Raise ValueError
  /\ ((ValueError = ParseError
       /\ @et_fromstring Samples.lib
            (@Xml.unwrap Samples.lib
               (Examples.text (Samples.ordered "4500799306" "una"))).1
          = None)
      \/ (ValueError = ValueError
          /\ exists root,
               @et_fromstring Samples.lib
                 (@Xml.unwrap Samples.lib
                    (Examples.text (Samples.ordered "4500799306" "una"))).1
               = Some root
               /\ ((exists line quantity_elem t,
                      In line (Xml.findall root (Xml.cac "InvoiceLine"))
                      /\ Xml.find line (Xml.cbc "InvoicedQuantity")
                         = Some quantity_elem
                      /\ Xml.text_of quantity_elem = Some t
                      /\ float_of_str t = Raise ValueError)
                   \/ PyStr.isdigit
                        (Xml._find_text root (Xml.cbc "LineCountNumeric") "0")
                      = true))).
Proof.
  assert (Hparse :
    @Xml.parse_dian_xml Samples.lib Examples.day1
      (Examples.text (Samples.ordered "4500799306" "una")) None
    = Raise ValueError) by (vm_compute; reflexivity).
  exact (conj Hparse
           (@parse_failures Samples.lib Examples.day1
              (Examples.text (Samples.ordered "4500799306" "una")) None
              ValueError Hparse)).
Defined.

Lemma r005_status (d : XMLInvoiceData) :
  status (Rules._evaluate_r005 (Some d))
  = match order_reference d with
    | Some ref => if PyStr.truthy (order_id ref) then PASSED else FAILED
    | None => FAILED
    end.
Proof.
  unfold Rules._evaluate_r005.
  destruct (order_reference d) as [ref |]; [| reflexivity].
  now destruct (PyStr.truthy (order_id ref)).
Qed.

(** X26.  On a parsed invoice R005 passes exactly when the document
    has a [cac:OrderReference] whose [cbc:ID], trimmed, is not empty,
    and fails otherwise; it is never skipped.  The invoice then holds
    that ID as its order reference and, as the last of its attachment
    references, a reference of type [orden_compra] to it; an order
    reference with a blank ID is dropped. *)
Theorem order_reference_and_r005 `{XmlLib} (today : date) (content : string)
    (path : option string) (d : XMLInvoiceData) :
  Xml.parse_dian_xml today content path = Ok d ->
  exists root,
    et_fromstring (Xml.unwrap content).1 = Some root
    /\ let order_text :=
         match Xml.find root (Xml.cac "OrderReference") with
         | Some order_ref_elem => Xml._find_text order_ref_elem (Xml.cbc "ID") ""
         | None => ""
         end in
       status (Rules._evaluate_r005 (Some d))
       = (if PyStr.truthy order_text then PASSED else FAILED)
       /\ order_id <$> order_reference d = Xml.nonempty order_text
       /\ (PyStr.truthy order_text = true ->
           last (attachment_references d)
           = Some (Xml.attachment order_text "orden_compra"
                     (Some "Orden de Compra referenciada en factura")))
       /\ (PyStr.truthy order_text = false ->
           attachment_references d = (Xml.unwrap content).2).
Proof.
  intros Hparse. rewrite parse_dian_xml_root in Hparse.
  destruct (et_fromstring _) as [root |]; [| discriminate].
  exists root. split; [reflexivity |].
  apply parse_root_lines in Hparse as (_ & _ & Horder & Hrefs).
  cbv zeta. rewrite r005_status, Hrefs, Horder. clear Hrefs Horder.
  destruct (Xml.find root (Xml.cac "OrderReference")) as [order_ref_elem |].
  - cbv zeta. unfold Xml.nonempty.
    destruct (PyStr.truthy (Xml._find_text order_ref_elem (Xml.cbc "ID") ""))
      eqn:Hid; cbn [fmap option_fmap option_map order_id].
    + rewrite Hid. repeat split; try discriminate.
      intros _. apply last_snoc.
    + repeat split; try discriminate. intros _. apply app_nil_r.
  - cbn. repeat split; try discriminate. intros _. apply app_nil_r.
Qed.

Lemma order_reference_and_r005_witness :
  exists d,
    @Xml.parse_dian_xml Samples.lib Examples.day1
      (Examples.text (Samples.ordered "4500799306" "1.00")) None = Ok d
    /\ status (Rules._evaluate_r005 (Some d)) = PASSED
    /\ order_id <$> order_reference d = Some "4500799306"
    /\ (exists b,
          @Xml.parse_dian_xml Samples.lib Examples.day1
            (Examples.text (Samples.ordered "   " "1.00")) None = Ok b
          /\ status (Rules._evaluate_r005 (Some b)) = FAILED
          /\ order_reference b = None)
    /\ exists root,
         @et_fromstring Samples.lib
           (@Xml.unwrap Samples.lib
              (Examples.text (Samples.ordered "4500799306" "1.00"))).1
         = Some root
         /\ let order_text :=
              match Xml.find root (Xml.cac "OrderReference") with
              | Some order_ref_elem =>
                  Xml._find_text order_ref_elem (Xml.cbc "ID") ""
              | None => ""
              end in
            status (Rules._evaluate_r005 (Some d))
            = (if PyStr.truthy order_text then PASSED else FAILED)
            /\ order_id <$> order_reference d = Xml.nonempty order_text
            /\ (PyStr.truthy order_text = true ->
                last (attachment_references d)
                = Some (Xml.attachment order_text "orden_compra"
                          (Some "Orden de Compra referenciada en factura")))
            /\ (PyStr.truthy order_text = false ->
                attachment_references d
                = (@Xml.unwrap Samples.lib
                     (Examples.text (Samples.ordered "4500799306" "1.00"))).2).
Proof.
  destruct (@Xml.parse_dian_xml Samples.lib Examples.day1
              (Examples.text (Samples.ordered "4500799306" "1.00")) None)
    as [d | e] eqn:Hparse; [| vm_compute in Hparse; discriminate].
  exists d.
  pose proof (@order_reference_and_r005 Samples.lib Examples.day1
                (Examples.text (Samples.ordered "4500799306" "1.00")) None d Hparse)
    as Hthm.
  vm_compute in Hparse. injection Hparse as Hd.
  split; [reflexivity |].
  split; [rewrite <- Hd; vm_compute; reflexivity |].
  split; [rewrite <- Hd; reflexivity |].
  split; [| exact Hthm].
  eexists. split; [vm_compute; reflexivity |].
  split; [vm_compute; reflexivity | reflexivity].
Defined.

(** ** Submission *)

(** X27.  [submit_invoice] answers 404 only when no XML data is at
    hand.  Otherwise the verdict is the cached validation result's
    [can_submit] when the package holds one, whatever the rules and
    uploads of the moment, and else that of a fresh validation: valid
    supplier NIT, CUFE longer than ten characters and no failing
    blocking custom rule.  An invoice that does not pass is refused
    with status 400 unless the request forces it, and is then marked
    [forced]; one that passes is never marked so. *)
Theorem submission_gate `{PyRepr} (now : Z) (stamp at_time : string)
    (invoice_cache : gmap string Documents.InvoicePackage)
    (custom_rules_cache : gmap string (list ValidationRule))
    (uploaded_documents_cache : gmap string (list Documents.ProcessedDocument))
    (from_blob : option XMLInvoiceData) (inv : string)
    (request : Flat.SubmitRequest) :
  match match invoice_cache !! inv with
        | Some package => Documents.package_xml_data package
        | None => from_blob
        end with
  | None =>
      Flat.submit_invoice now stamp at_time invoice_cache custom_rules_cache
        uploaded_documents_cache from_blob inv request
      = Endpoint.HTTPException 404 "Invoice not found or XML not available"
  | Some d =>
      let passes :=
        match invoice_cache !! inv ≫= Documents.package_validation_result with
        | Some cached => can_submit cached
        | None =>
            Rules.string_in (company_id (supplier d)) Rules.VALID_NITS
            && (10 <? String.length (cufe d))%nat
            && forallb
                 (fun rule =>
                    negb (bool_decide (tipo rule = BLOCKING)
                          && bool_decide
                               (status
                                  (Rules._evaluate_custom_rule rule
                                     (Flat.flat_value
                                      <$> Flat.build_flat_data d
                                            (default []
                                               (uploaded_documents_cache !! inv))))
                                = FAILED)))
                 (default [] (custom_rules_cache !! inv))
        end in
      match Flat.submit_invoice now stamp at_time invoice_cache custom_rules_cache
              uploaded_documents_cache from_blob inv request with
      | Endpoint.ApiResponse _ data =>
          (Flat.force request = true \/ passes = true)
          /\ Flat.forced data = Flat.force request && negb passes
          /\ Flat.validation_passed data = passes
          /\ Flat.submitted_invoice data = inv
          /\ Flat.total_amount data = payable_amount (monetary_total d)
      | Endpoint.HTTPException code _ =>
          code = 400%Z /\ Flat.force request = false /\ passes = false
      end
  end.
Proof.
  unfold Flat.submit_invoice.
  destruct (invoice_cache !! inv) as [package |]; cbn [mbind option_bind].
  - destruct (Documents.package_xml_data package) as [d |]; [| reflexivity].
    cbv zeta.
    destruct (Documents.package_validation_result package) as [cached |].
    + destruct (Flat.force request), (can_submit cached); cbn; tauto.
    + rewrite can_submit_eq. cbn [default from_option id].
      match goal with
      | |- context [negb (Flat.force request) && negb ?b] =>
          destruct (Flat.force request), b; cbn; tauto
      end.
  - destruct from_blob as [d |]; [| reflexivity].
    cbv zeta. rewrite can_submit_eq. cbn [default from_option id].
    match goal with
    | |- context [negb (Flat.force request) && negb ?b] =>
        destruct (Flat.force request), b; cbn; tauto
    end.
Qed.

(** ** The context handed to the chat *)

Lemma lower_app (a b : string) :
  PyStr.lower (a ++ b) = PyStr.lower a ++ PyStr.lower b.
Proof.
  induction a as [| c a IH]; [reflexivity |].
  change (String c a ++ b) with (String c (a ++ b)).
  cbn [PyStr.lower]. rewrite IH. reflexivity.
Qed.

Lemma document_prefix_lower (t : Documents.DocumentType) :
  PyStr.lower (Documents.DocumentType_value t ++ "_")
  = Documents.DocumentType_value t ++ "_".
Proof. destruct t; vm_compute; reflexivity. Qed.

(** What the last loop of [chat] leaves: the totals of the request
    over the data gathered before. *)
Lemma totals_lookup (totals : gmap string pyval) (base : gmap string Flat.dval)
    (k : string) :
  map_fold (fun key value invoice_data => <[key := Flat.Scalar value]> invoice_data)
    base totals !! k
  = match totals !! k with
    | Some v => Some (Flat.Scalar v)
    | None => base !! k
    end.
Proof.
  apply (map_fold_weak_ind
           (fun (r : gmap string Flat.dval) (m : gmap string pyval) =>
              r !! k = match m !! k with
                       | Some v => Some (Flat.Scalar v)
                       | None => base !! k
                       end)).
  - now rewrite lookup_empty.
  - intros i x m r Hi IH. destruct (decide (i = k)) as [-> | Hne].
    + now rewrite !lookup_insert_eq.
    + now rewrite !lookup_insert_ne by exact Hne.
Qed.

(** A confidential name has no document prefix, and is not the key
    of the validation results or of the discrepancies. *)
Lemma confidential_key_apart (k : string) :
  Rules.string_in (PyStr.lower k) (map PyStr.lower Flat.confidential_fields) = true ->
  k <> "_validation_results" /\ k <> "_oc_discrepancies"
  /\ forall t, String.prefix (Documents.DocumentType_value t ++ "_") k = false.
Proof.
  intros Hk.
  assert (Hcases : In (PyStr.lower k) (map PyStr.lower Flat.confidential_fields)).
  { unfold Rules.string_in in Hk. apply existsb_exists in Hk as (x & Hin & Hx).
    apply String.eqb_eq in Hx. now subst x. }
  repeat split.
  - intros ->. vm_compute in Hk. discriminate.
  - intros ->. vm_compute in Hk. discriminate.
  - intros t.
    destruct (String.prefix (Documents.DocumentType_value t ++ "_") k) eqn:Hp;
      [| reflexivity].
    exfalso.
    assert (Hlow : String.prefix (Documents.DocumentType_value t ++ "_")
                     (PyStr.lower k) = true).
    { clear Hk Hcases. revert Hp.
      generalize (document_prefix_lower t).
      generalize (Documents.DocumentType_value t ++ "_") as p.
      intros p. revert k. induction p as [| c p IH]; intros k Hlower Hp.
      - now destruct (PyStr.lower k).
      - destruct k as [| a k]; [discriminate |].
        cbn [String.prefix] in Hp. destruct (ascii_dec c a) as [<- |]; [| discriminate].
        cbn [PyStr.lower] in Hlower |- *. injection Hlower as Hc Hlower.
        cbn [String.prefix]. rewrite Hc.
        destruct (ascii_dec c c); [| congruence]. now apply IH. }
    cbn in Hcases.
    repeat (destruct Hcases as [Hc | Hcases];
            [rewrite <- Hc in Hlow; destruct t; vm_compute in Hlow; discriminate |]).
    destruct Hcases.
Qed.

(** The loop of [chat] over one document touches only keys with the
    prefix of the document's type. *)
Lemma add_chat_document_other (invoice_data : gmap string Flat.dval)
    (doc : Documents.ProcessedDocument) (k : string) :
  String.prefix
    (Documents.DocumentType_value (Documents.document_type doc) ++ "_") k = false ->
  Flat.add_chat_document invoice_data doc !! k = invoice_data !! k.
Proof.
  intros Hk. unfold Flat.add_chat_document.
  apply (map_fold_weak_ind
           (fun (r : gmap string Flat.dval)
                (m : gmap string Documents.ExtractedField) =>
              r !! k = invoice_data !! k)); [reflexivity |].
  intros i x m r Hi IH. destruct (existsb _ _); [exact IH |].
  rewrite lookup_insert_ne; [exact IH |].
  intros <-. rewrite <- string_app_assoc, prefix_append in Hk. discriminate.
Qed.

Lemma chat_documents_other (docs : list Documents.ProcessedDocument) (k : string) :
  (forall t, String.prefix (Documents.DocumentType_value t ++ "_") k = false) ->
  forall start : gmap string Flat.dval,
    fold_left Flat.add_chat_document docs start !! k = start !! k.
Proof.
  intros Hk. induction docs as [| doc docs IH]; intros start; [reflexivity |].
  cbn [fold_left]. rewrite IH. now apply add_chat_document_other.
Qed.

(** X28.  The context [chat] hands to the language model holds none
    of the eight confidential field names, in any letter case, unless
    the request itself supplies one among its invoice totals: the
    supplier's and the customer's NIT and name never come from the
    parsed invoice or from an uploaded document under these keys. *)
Theorem chat_hides_party_fields
    (invoice_cache : gmap string Documents.InvoicePackage)
    (uploaded_documents_cache : gmap string (list Documents.ProcessedDocument))
    (request : Flat.ChatRequest) (k : string) :
  Rules.string_in (PyStr.lower k) (map PyStr.lower Flat.confidential_fields) = true ->
  Flat.chat_invoice_data invoice_cache uploaded_documents_cache request !! k
  = Flat.Scalar <$> (Flat.invoice_totals request ≫= (fun totals => totals !! k)).
Proof.
  intros Hk. destruct (confidential_key_apart k Hk) as (Hv & Ho & Hdoc).
  unfold Flat.chat_invoice_data.
  match goal with
  | |- match Flat.invoice_totals request with
       | Some totals => map_fold ?f ?base totals
       | None => _
       end !! k = _ =>
      assert (Hbase : base !! k = None); [| set (b := base) in * ]
  end.
  { assert (Hgathered :
      (if PyStr.truthy (Flat.chat_invoice_id request)
       then match invoice_cache !! Flat.chat_invoice_id request with
            | Some package =>
                fold_left Flat.add_chat_document
                  (default []
                     (uploaded_documents_cache !! Flat.chat_invoice_id request))
                  match Documents.package_xml_data package with
                  | Some xml_data =>
                      filter
                        (fun kv : string * Flat.dval =>
                           Rules.string_in (PyStr.lower kv.1)
                             (map PyStr.lower Flat.confidential_fields) = false)
                        (Flat.xml_to_dict xml_data)
                  | None => ∅
                  end
            | None => ∅
            end
       else (∅ : gmap string Flat.dval)) !! k = None).
    { destruct (PyStr.truthy _); [| apply lookup_empty].
      destruct (invoice_cache !! _) as [package |]; [| apply lookup_empty].
      rewrite chat_documents_other by exact Hdoc.
      destruct (Documents.package_xml_data package) as [d |]; [| apply lookup_empty].
      apply map_lookup_filter_None. right. intros x _. cbn [fst]. congruence. }
    destruct (Flat.oc_discrepancies request) as [[| row rows] |];
      destruct (Flat.validation_results request) as [[| row' rows'] |];
      rewrite ?lookup_insert_ne by congruence; exact Hgathered. }
  destruct (Flat.invoice_totals request) as [totals |]; cbn [mbind option_bind].
  - rewrite totals_lookup. destruct (totals !! k); [reflexivity | exact Hbase].
  - exact Hbase.
Qed.

Lemma chat_hides_party_fields_witness :
  Rules.string_in (PyStr.lower "supplier_nit")
    (map PyStr.lower Flat.confidential_fields) = true
  /\ Flat.xml_to_dict Samples.invoice !! "supplier_nit"
     = Some (Flat.Scalar (VStr "830099847"))
  /\ Flat.chat_invoice_data Samples.packages Samples.uploads Samples.chat_request
     !! "supplier_nit"
     = Flat.Scalar
       <$> (Flat.invoice_totals Samples.chat_request
              ≫= (fun totals => totals !! "supplier_nit")).
Proof.
  assert (Hk : Rules.string_in (PyStr.lower "supplier_nit")
                 (map PyStr.lower Flat.confidential_fields) = true)
    by reflexivity.
  assert (Hxml : Flat.xml_to_dict Samples.invoice !! "supplier_nit"
                 = Some (Flat.Scalar (VStr "830099847")))
    by (vm_compute; reflexivity).
  exact (conj Hk (conj Hxml
           (chat_hides_party_fields Samples.packages Samples.uploads
              Samples.chat_request "supplier_nit" Hk))).
Defined.

(** One step of the loop of [chat] over a document, seen from the key
    of a field of that document. *)
Lemma add_chat_document_lookup (invoice_data : gmap string Flat.dval)
    (doc : Documents.ProcessedDocument) (name : string)
    (field : Documents.ExtractedField) :
  Documents.extracted_fields doc !! name = Some field ->
  Flat.add_chat_document invoice_data doc
  !! (Documents.DocumentType_value (Documents.document_type doc) ++ "_" ++ name)
  = if existsb (fun conf => PyStr.contains conf (PyStr.lower name))
         Flat.confidential_words
    then invoice_data
         !! (Documents.DocumentType_value (Documents.document_type doc)
             ++ "_" ++ name)
    else Some (Flat.Scalar (Documents.field_value field)).
Proof.
  unfold Flat.add_chat_document.
  set (p := Documents.DocumentType_value (Documents.document_type doc)).
  revert field.
  apply (map_fold_weak_ind
           (fun (r : gmap string Flat.dval)
                (m : gmap string Documents.ExtractedField) =>
              (m !! name = None -> r !! (p ++ "_" ++ name)
                                   = invoice_data !! (p ++ "_" ++ name))
              /\ forall field,
                   m !! name = Some field ->
                   r !! (p ++ "_" ++ name)
                   = if existsb (fun conf => PyStr.contains conf (PyStr.lower name))
                          Flat.confidential_words
                     then invoice_data !! (p ++ "_" ++ name)
                     else Some (Flat.Scalar (Documents.field_value field)))).
  - split; [reflexivity | intros field Hf; now rewrite lookup_empty in Hf].
  - intros i x m r Hi [IHnone IHsome].
    destruct (decide (i = name)) as [-> | Hne].
    + split; [intros Hf; now rewrite lookup_insert_eq in Hf |].
      intros field Hf. rewrite lookup_insert_eq in Hf. injection Hf as ->.
      destruct (existsb _ _); [now apply IHnone | apply lookup_insert_eq].
    + assert (Hkey : p ++ "_" ++ i <> p ++ "_" ++ name).
      { intros Heq. apply Hne. apply prefix_cancel in Heq.
        now apply (prefix_cancel "_") in Heq. }
      split.
      * intros Hf. rewrite lookup_insert_ne in Hf by exact Hne.
        destruct (existsb (fun conf => PyStr.contains conf (PyStr.lower i)) _);
          [now apply IHnone |].
        rewrite lookup_insert_ne by exact Hkey. now apply IHnone.
      * intros field Hf. rewrite lookup_insert_ne in Hf by exact Hne.
        destruct (existsb (fun conf => PyStr.contains conf (PyStr.lower i)) _);
          [now apply IHsome |].
        rewrite lookup_insert_ne by exact Hkey. now apply IHsome.
Qed.

(** A document of another type, or another field of the same type,
    is stored under another key. *)
Lemma document_key_inj (t1 t2 : Documents.DocumentType) (n1 n2 : string) :
  Documents.DocumentType_value t1 ++ "_" ++ n1
  = Documents.DocumentType_value t2 ++ "_" ++ n2 ->
  n1 = n2.
Proof.
  destruct t1, t2; cbv [Documents.DocumentType_value]; intros Heq;
    first [ apply prefix_cancel in Heq; now apply (prefix_cancel "_") in Heq
          | cbv [String.append] in Heq; discriminate ].
Qed.

(** The loop of [chat] over a document stores nothing under the key
    of a field it holds back. *)
Lemma add_chat_document_held_back (invoice_data : gmap string Flat.dval)
    (doc : Documents.ProcessedDocument) (t : Documents.DocumentType)
    (name : string) :
  existsb (fun conf => PyStr.contains conf (PyStr.lower name))
    Flat.confidential_words = true ->
  Flat.add_chat_document invoice_data doc
  !! (Documents.DocumentType_value t ++ "_" ++ name)
  = invoice_data !! (Documents.DocumentType_value t ++ "_" ++ name).
Proof.
  intros Hname. unfold Flat.add_chat_document.
  apply (map_fold_weak_ind
           (fun (r : gmap string Flat.dval)
                (m : gmap string Documents.ExtractedField) =>
              r !! (Documents.DocumentType_value t ++ "_" ++ name)
              = invoice_data !! (Documents.DocumentType_value t ++ "_" ++ name)));
    [reflexivity |].
  intros i x m r Hi IH.
  destruct (existsb (fun conf => PyStr.contains conf (PyStr.lower i)) _) eqn:Hi';
    [exact IH |].
  rewrite lookup_insert_ne; [exact IH |].
  intros Heq. apply document_key_inj in Heq. subst i. congruence.
Qed.

(** X29.  What the chat context holds under the key of a field of the
    last uploaded document, that is, its document type, an underscore
    and the field's name.  The invoice totals of the request are copied
    last and win: when they name that key, the context holds their
    value.  Otherwise the context holds the field's value, unless the
    name in lower case contains [nit], [nombre], [razon_social] or
    [company]: then the context has no such key.  So [ProviderNit] is
    held back, and with it [UnitPrice], whose name contains [nit]; but
    [ProviderName] and [ProviderID], the supplier's name and
    identifier as the purchase order gives them, pass. *)
Theorem chat_document_fields
    (invoice_cache : gmap string Documents.InvoicePackage)
    (uploaded_documents_cache : gmap string (list Documents.ProcessedDocument))
    (request : Flat.ChatRequest) (package : Documents.InvoicePackage)
    (docs : list Documents.ProcessedDocument) (doc : Documents.ProcessedDocument)
    (name : string) (field : Documents.ExtractedField) :
  PyStr.truthy (Flat.chat_invoice_id request) = true ->
  invoice_cache !! Flat.chat_invoice_id request = Some package ->
  uploaded_documents_cache !! Flat.chat_invoice_id request = Some (docs ++ [doc])%list ->
  Documents.extracted_fields doc !! name = Some field ->
  let key :=
    Documents.DocumentType_value (Documents.document_type doc) ++ "_" ++ name in
  Flat.chat_invoice_data invoice_cache uploaded_documents_cache request !! key
  = match Flat.invoice_totals request ≫= (fun totals => totals !! key) with
    | Some supplied => Some (Flat.Scalar supplied)
    | None =>
        if existsb (fun conf => PyStr.contains conf (PyStr.lower name))
             Flat.confidential_words
        then None
        else Some (Flat.Scalar (Documents.field_value field))
    end
  /\ map (fun name => existsb (fun conf => PyStr.contains conf (PyStr.lower name))
                        Flat.confidential_words)
       ["ProviderNit"; "UnitPrice"; "ProviderName"; "ProviderID"]
     = [true; true; false; false].
Proof.
  intros Hid Hpackage Hdocs Hfield key.
  split; [| vm_compute; reflexivity].
  unfold Flat.chat_invoice_data.
  rewrite Hid, Hpackage, Hdocs. cbn [default from_option id].
  assert (Hkey : forall other : string,
            String.get 0 other = Some "_"%char -> other <> key).
  { intros other Hother ->. subst key.
    destruct (Documents.document_type doc); cbn in Hother; discriminate. }
  assert (Hgathered :
    fold_left Flat.add_chat_document (docs ++ [doc])
      match Documents.package_xml_data package with
      | Some xml_data =>
          filter
            (fun kv : string * Flat.dval =>
               Rules.string_in (PyStr.lower kv.1)
                 (map PyStr.lower Flat.confidential_fields) = false)
            (Flat.xml_to_dict xml_data)
      | None => ∅
      end !! key
    = if existsb (fun conf => PyStr.contains conf (PyStr.lower name))
           Flat.confidential_words
      then None
      else Some (Flat.Scalar (Documents.field_value field))).
  { rewrite fold_left_app. cbn [fold_left]. subst key.
    rewrite (add_chat_document_lookup _ doc name field Hfield).
    destruct (existsb _ _) eqn:Hname; [| reflexivity].
    assert (Hdocs' : forall (earlier : list Documents.ProcessedDocument)
                       (start : gmap string Flat.dval),
              fold_left Flat.add_chat_document earlier start
              !! (Documents.DocumentType_value (Documents.document_type doc)
                  ++ "_" ++ name)
              = start !! (Documents.DocumentType_value (Documents.document_type doc)
                          ++ "_" ++ name)).
    { induction earlier as [| doc' earlier IH]; intros start; [reflexivity |].
      cbn [fold_left]. rewrite IH. now apply add_chat_document_held_back. }
    rewrite Hdocs'.
    destruct (Documents.package_xml_data package) as [d |]; [| apply lookup_empty].
    apply map_lookup_filter_None. left.
    destruct (Flat.xml_to_dict d
              !! (Documents.DocumentType_value (Documents.document_type doc)
                  ++ "_" ++ name)) as [v |] eqn:Hxml; [| reflexivity].
    pose proof (xml_keys_not_document_keys d _ (ex_intro _ v Hxml)
                  (Documents.document_type doc)) as Hno.
    rewrite <- string_app_assoc, prefix_append in Hno. discriminate. }
  match goal with
  | |- match Flat.invoice_totals request with
       | Some totals => map_fold ?f ?base totals
       | None => _
       end !! key = _ =>
      assert (Hbase :
        base !! key
        = if existsb (fun conf => PyStr.contains conf (PyStr.lower name))
               Flat.confidential_words
          then None
          else Some (Flat.Scalar (Documents.field_value field)));
      [| set (b := base) in * ]
  end.
  { destruct (Flat.oc_discrepancies request) as [[| row rows] |];
      destruct (Flat.validation_results request) as [[| row' rows'] |];
      rewrite ?lookup_insert_ne by (apply Hkey; reflexivity);
      exact Hgathered. }
  destruct (Flat.invoice_totals request) as [totals |]; cbn [mbind option_bind].
  - rewrite totals_lookup. destruct (totals !! key); [reflexivity | exact Hbase].
  - exact Hbase.
Qed.

Lemma chat_document_fields_witness :
  (Flat.chat_invoice_data Samples.packages Samples.uploads Samples.chat_request
   !! "orden_compra_ProviderName"
   = Some (Flat.Scalar (VStr "Softtek Renovation S.A.S."))
   /\ Flat.chat_invoice_data Samples.packages Samples.uploads Samples.chat_request
      !! "orden_compra_ProviderNit"
      = None
   /\ Flat.chat_invoice_data Samples.packages Samples.uploads
        Samples.request_with_totals
      !! "orden_compra_ProviderNit"
      = Some (Flat.Scalar (VStr "830.099.847-1")))
  /\ map (fun name => existsb (fun conf => PyStr.contains conf (PyStr.lower name))
                        Flat.confidential_words)
       ["ProviderNit"; "UnitPrice"; "ProviderName"; "ProviderID"]
     = [true; true; false; false].
Proof.
  pose (package := {| Documents.package_xml_data := Some Samples.invoice;
                      Documents.package_validation_result := None |}).
  pose (provider_name :=
          {| Documents.field_name := "ProviderName";
             Documents.field_value := VStr "Softtek Renovation S.A.S.";
             Documents.confidence := of_decimal false 95 (-2) |}).
  pose (provider_nit :=
          {| Documents.field_name := "ProviderNit";
             Documents.field_value := VStr "830099847";
             Documents.confidence := of_decimal false 95 (-2) |}).
  pose proof (chat_document_fields Samples.packages Samples.uploads
                Samples.chat_request package [] Samples.scanned_order
                "ProviderName" provider_name
                eq_refl eq_refl eq_refl eq_refl) as [Hname Hwords].
  pose proof (chat_document_fields Samples.packages Samples.uploads
                Samples.chat_request package [] Samples.scanned_order
                "ProviderNit" provider_nit
                eq_refl eq_refl eq_refl eq_refl) as [Hnit _].
  pose proof (chat_document_fields Samples.packages Samples.uploads
                Samples.request_with_totals package [] Samples.scanned_order
                "ProviderNit" provider_nit
                eq_refl eq_refl eq_refl eq_refl) as [Hsupplied _].
  exact (conj (conj Hname (conj Hnit Hsupplied)) Hwords).
Defined.

(** ** Parser, rules and flattened map together *)

Lemma header_field (d : XMLInvoiceData) (k : string) (v : Flat.dval) :
  In (k, v) (Flat.header d) -> Flat.xml_to_dict d !! k = Some v.
Proof.
  intros Hin.
  rewrite xml_to_dict_named by (apply in_map_iff; exists (k, v); now split).
  unfold Flat.dict_of. apply fold_insert_in; [apply header_keys_distinct | exact Hin].
Qed.

(** X30.  On a parsed invoice R003 is decided by the four totals the
    flattened map shows: it passes exactly when [subtotal] plus
    [total_iva] minus [total_retenciones] differs from [total_pagable]
    by at most one percent of [total_pagable], in binary64
    arithmetic, and fails otherwise.  A dynamic rule on these fields
    reads the numbers R003 computes with. *)
Theorem r003_reads_shown_totals `{XmlLib} (today : date) (content : string)
    (path : option string) (d : XMLInvoiceData) :
  Xml.parse_dian_xml today content path = Ok d ->
  exists subtotal iva retenciones payable : float,
    Flat.xml_to_dict d !! "subtotal" = Some (Flat.Scalar (VFloat subtotal))
    /\ Flat.xml_to_dict d !! "total_iva" = Some (Flat.Scalar (VFloat iva))
    /\ Flat.xml_to_dict d !! "total_retenciones"
       = Some (Flat.Scalar (VFloat retenciones))
    /\ Flat.xml_to_dict d !! "total_pagable" = Some (Flat.Scalar (VFloat payable))
    /\ status (Rules._evaluate_r003 (Some d))
       = if fleb (fabs (fsub (fsub (fadd subtotal iva) retenciones) payable))
               (fmul payable Rules.one_percent)
         then PASSED else FAILED.
Proof.
  intros Hparse. rewrite parse_dian_xml_root in Hparse.
  destruct (et_fromstring _) as [root |]; [| discriminate].
  apply parse_root_fields in Hparse as (_ & _ & Hiva & Hret & _).
  exists (line_extension_amount (monetary_total d)), (total_iva d),
    (total_retenciones d), (payable_amount (monetary_total d)).
  repeat split; try (apply header_field; cbn; tauto).
  unfold Rules._evaluate_r003. rewrite <- Hiva, <- Hret.
  now destruct (fleb _ _).
Qed.

Lemma r003_reads_shown_totals_witness :
  exists d,
    @Xml.parse_dian_xml Examples.lib Examples.day1
      (Examples.text Examples.dated) None = Ok d
    /\ Flat.xml_to_dict d !! "total_iva"
       = Some (Flat.Scalar (VFloat (of_decimal false 19000 0)))
    /\ status (Rules._evaluate_r003 (Some d)) = PASSED
    /\ exists subtotal iva retenciones payable : float,
         Flat.xml_to_dict d !! "subtotal" = Some (Flat.Scalar (VFloat subtotal))
         /\ Flat.xml_to_dict d !! "total_iva" = Some (Flat.Scalar (VFloat iva))
         /\ Flat.xml_to_dict d !! "total_retenciones"
            = Some (Flat.Scalar (VFloat retenciones))
         /\ Flat.xml_to_dict d !! "total_pagable"
            = Some (Flat.Scalar (VFloat payable))
         /\ status (Rules._evaluate_r003 (Some d))
            = if fleb (fabs (fsub (fsub (fadd subtotal iva) retenciones) payable))
                    (fmul payable Rules.one_percent)
              then PASSED else FAILED.
Proof.
  destruct (@Xml.parse_dian_xml Examples.lib Examples.day1
              (Examples.text Examples.dated) None) as [d | e] eqn:Hparse;
    [| vm_compute in Hparse; discriminate].
  exists d.
  pose proof (@r003_reads_shown_totals Examples.lib Examples.day1
                (Examples.text Examples.dated) None d Hparse) as Hthm.
  vm_compute in Hparse. injection Hparse as Hd.
  split; [reflexivity |].
  split; [rewrite <- Hd; vm_compute; reflexivity |].
  split; [rewrite <- Hd; vm_compute; reflexivity | exact Hthm].
Defined.
